(** * automation-agent: similarity search and upstream calls of [main.py]

    A shallow embedding of the embedding path ([get_embedding],
    [cosine_similarity], [task_a9]) and of the chat path ([query_gpt]) of
    [src/main.py], with the properties the specification states about them.

    Layout: scalars and their two instances (binary64 as the program runs it,
    the real numbers as the arithmetic it approximates); Python values and
    exceptions; the world the handlers act on (files, environment, upstream
    services); the functions of [main.py]; then the theorems. *)

From Stdlib Require Import ZArith Reals Lra Lia Floats List Sorted.
From stdpp Require Import base option list gmap strings pretty.

#[local] Set Warnings "-register-all".
Local Open Scope Z_scope.
Local Open Scope string_scope.

(** ** Scalars

    [np.float64] arithmetic, as far as [cosine_similarity] and the scan of
    [task_a9] use it: the literals [0.0] and [-1.0], [+], [*], [/], [sqrt],
    [==] and [<] ([a > b] is [b < a]). *)

Class Scalar (F : Type) : Type := {
  f_zero : F;
  f_neg_one : F;
  f_add : F -> F -> F;
  f_mul : F -> F -> F;
  f_div : F -> F -> F;
  f_sqrt : F -> F;
  f_eqb : F -> F -> bool;
  f_ltb : F -> F -> bool
}.

Definition f_gtb {F} `{Scalar F} (a b : F) : bool := f_ltb b a.

(** IEEE 754 binary64, the arithmetic of [np.float64]: Rocq's primitive
    floats. Division by zero yields an infinity or a NaN and never raises;
    every comparison with a NaN is [false]. *)
#[export] Instance binary64 : Scalar float := {
  f_zero := 0%float;
  f_neg_one := (-1)%float;
  f_add := PrimFloat.add;
  f_mul := PrimFloat.mul;
  f_div := PrimFloat.div;
  f_sqrt := PrimFloat.sqrt;
  f_eqb := PrimFloat.eqb;
  f_ltb := PrimFloat.ltb
}.

#[export] Instance R_eq_dec : EqDecision R := Req_dec_T.
#[export] Instance R_lt_dec : RelDecision Rlt := Rlt_dec.

(** Exact arithmetic over the real numbers: what binary64 rounds. *)
#[export] Instance reals : Scalar R := {
  f_zero := 0%R;
  f_neg_one := (-1)%R;
  f_add := Rplus;
  f_mul := Rmult;
  f_div := Rdiv;
  f_sqrt := R_sqrt.sqrt;
  f_eqb := fun x y => bool_decide (x = y);
  f_ltb := fun x y => bool_decide (x < y)%R
}.

(** ** Python values and exceptions *)

(** A [str] is a sequence of Unicode code points. *)
Definition text := list N.

Inductive exn_class :=
| FileNotFoundError
| RuntimeError
| ValueError
| KeyError
| TypeError
| IndexError
| OSError.

(** An exception: its class and [str(e)]. *)
Record exn := Exn { exn_cls : exn_class; exn_str : string }.

Inductive result (A : Type) : Type :=
| Ok (a : A)
| Raise (e : exn).
Arguments Ok {A} a.
Arguments Raise {A} e.

Definition rbind {A B} (r : result A) (k : A -> result B) : result B :=
  match r with
  | Ok a => k a
  | Raise e => Raise e
  end.

Declare Scope py_scope.
Delimit Scope py_scope with py.
Notation "x <-! r ; k" := (rbind r (fun x => k))
  (at level 100, r at next level, right associativity) : py_scope.
Local Open Scope py_scope.

Section Program.

Context {F : Type} `{Scalar F}.

(** What [json.loads] builds. Numbers are read as floats: the services send
    embeddings as decimal fractions. [JObj] lists the items of a [dict], whose
    keys are distinct. *)
Inductive json :=
| JNull
| JBool (b : bool)
| JNum (x : F)
| JStr (s : string)
| JArr (l : list json)
| JObj (l : list (string * json)).

Definition type_name (j : json) : string :=
  match j with
  | JNull => "NoneType"
  | JBool _ => "bool"
  | JNum _ => "float"
  | JStr _ => "str"
  | JArr _ => "list"
  | JObj _ => "dict"
  end.

Fixpoint assoc (k : string) (l : list (string * json)) : option json :=
  match l with
  | [] => None
  | (k', v) :: l' => if String.eqb k k' then Some v else assoc k l'
  end.

Fixpoint is_prefix (p s : string) : bool :=
  match p, s with
  | EmptyString, _ => true
  | String a p', String b s' => Ascii.eqb a b && is_prefix p' s'
  | String _ _, EmptyString => false
  end.

Fixpoint is_substring (p s : string) : bool :=
  is_prefix p s ||
  match s with
  | EmptyString => false
  | String _ s' => is_substring p s'
  end.

(** [key in j] for a string [key]. *)
Definition py_contains (key : string) (j : json) : result bool :=
  match j with
  | JObj l => Ok (bool_decide (is_Some (assoc key l)))
  | JArr l => Ok (existsb (fun x => match x with JStr s => String.eqb s key | _ => false end) l)
  | JStr s => Ok (is_substring key s)
  | _ => Raise (Exn TypeError ("argument of type '" ++ type_name j ++ "' is not iterable"))
  end.

(** [j[key]] for a string [key]. *)
Definition py_getitem (j : json) (key : string) : result json :=
  match j with
  | JObj l =>
      match assoc key l with
      | Some v => Ok v
      | None => Raise (Exn KeyError ("'" ++ key ++ "'"))
      end
  | JArr _ => Raise (Exn TypeError "list indices must be integers or slices, not str")
  | JStr _ => Raise (Exn TypeError "string indices must be integers, not 'str'")
  | _ => Raise (Exn TypeError ("'" ++ type_name j ++ "' object is not subscriptable"))
  end.

Definition isinstance_list (j : json) : bool :=
  match j with JArr _ => true | _ => false end.

(** [len(j)] and [j[0]], used on values already known to be lists. *)
Definition py_len (j : json) : result nat :=
  match j with
  | JArr l => Ok (length l)
  | JObj l => Ok (length l)
  | JStr s => Ok (String.length s)
  | _ => Raise (Exn TypeError ("object of type '" ++ type_name j ++ "' has no len()"))
  end.

Definition py_first (j : json) : result json :=
  match j with
  | JArr (x :: _) => Ok x
  | JArr [] => Raise (Exn IndexError "list index out of range")
  | JObj _ => Raise (Exn KeyError "0")
  | JStr (String a _) => Ok (JStr (String a EmptyString))
  | JStr EmptyString => Raise (Exn IndexError "string index out of range")
  | _ => Raise (Exn TypeError ("'" ++ type_name j ++ "' object is not subscriptable"))
  end.

(** ** NumPy arrays

    Only one-dimensional float arrays are modelled: [Vec]. [np.array] of any
    JSON value that is not a flat list of numbers is kept as [Other]. NumPy
    builds arrays of other shapes and types from some of these values, raises
    on others (a ragged list), and computes on some of the arrays it builds;
    none of that is modelled. [np_dot] and [np_linalg_norm] stop on [Other]
    with [unsupported_array], which marks the end of what is modelled and is
    no exception of NumPy: what is stated about scores, and about what the
    scan raises, is stated for vectors. *)
Inductive ndarray :=
| Vec (v : list F)
| Other (j : json).

Fixpoint numbers (l : list json) : option (list F) :=
  match l with
  | [] => Some []
  | JNum x :: l' => match numbers l' with Some v => Some (x :: v) | None => None end
  | _ :: _ => None
  end.

Definition np_array (j : json) : ndarray :=
  match j with
  | JArr l => match numbers l with Some v => Vec v | None => Other j end
  | _ => Other j
  end.

(** [np.dot] of two vectors: the sum of the products, accumulated from [0.0]
    in index order. (A BLAS kernel may add the products in another order, and
    in binary64 the sum can then differ in its last bits; the binary64 runs
    below have exact products and sums, which no order changes.) *)
Fixpoint dot_from (acc : F) (a b : list F) : F :=
  match a, b with
  | x :: a', y :: b' => dot_from (f_add acc (f_mul x y)) a' b'
  | _, _ => acc
  end.

Definition dot (a b : list F) : F := dot_from f_zero a b.

(** [np.linalg.norm] of a one-dimensional real array: [sqrt(x.dot(x))]. *)
Definition norm (a : list F) : F := f_sqrt (dot a a).

Definition shapes_not_aligned (n m : nat) : exn :=
  Exn ValueError ("shapes (" ++ pretty n ++ ",) and (" ++ pretty m ++ ",) not aligned: "
                  ++ pretty n ++ " (dim 0) != " ++ pretty m ++ " (dim 0)").

Definition unsupported_array : exn :=
  Exn TypeError "unsupported operand: not a one-dimensional float array".

Definition np_dot (a b : ndarray) : result F :=
  match a, b with
  | Vec x, Vec y =>
      if bool_decide (length x = length y) then Ok (dot x y)
      else Raise (shapes_not_aligned (length x) (length y))
  | _, _ => Raise unsupported_array
  end.

Definition np_linalg_norm (a : ndarray) : result F :=
  match a with
  | Vec x => Ok (norm x)
  | Other _ => Raise unsupported_array
  end.

(** [cosine_similarity], main.py lines 561-579. *)
Definition cosine_similarity (vec1 vec2 : ndarray) : result F :=
  dot_product <-! np_dot vec1 vec2;
  norm_vec1 <-! np_linalg_norm vec1;
  norm_vec2 <-! np_linalg_norm vec2;
  if f_eqb norm_vec1 f_zero || f_eqb norm_vec2 f_zero
  then Ok f_zero
  else Ok (f_div dot_product (f_mul norm_vec1 norm_vec2)).

(** ** The world the handlers act on *)

(** A path names a directory or a regular file; a file holds text, or bytes
    that do not decode as UTF-8 ([None]). *)
Inductive node :=
| Directory
| File (content : option text).

Inductive payload :=
| EmbeddingPayload (model : string) (input : text)
| ChatPayload (model : string) (user_input : text) (tools : list json) (tool_choice : string).

(** A POST: the URL, the [Authorization] header and the JSON payload. *)
Record request := Request {
  url : string;
  authorization : string;
  payload_of : payload
}.

(** What [response.json()] raises on a body it cannot read, with [str(e)]:
    [json.JSONDecodeError] for text that is not JSON, and another exception,
    which no handler names, for bytes that do not decode:
    [UnicodeDecodeError]. *)
Inductive decode_error :=
| JSONDecodeError (str : string)
| UnicodeDecodeError (str : string).

Definition decode_str (e : decode_error) : string :=
  match e with
  | JSONDecodeError s => s
  | UnicodeDecodeError s => s
  end.

(** What [client.post] and [response.json()] can do: the transport fails
    ([httpx.TimeoutException] is tested before its base class
    [httpx.RequestError]); or a response arrives with a status code, the text
    of the [HTTPStatusError] that [raise_for_status] would build for it, and a
    body that either fails to decode or is JSON; or the request cannot be
    built, and [client.post] raises an exception that is no [httpx] error
    before anything is sent ([NotSent], with [str(e)]): so for an
    [Authorization] header that is not ASCII, which raises
    [UnicodeEncodeError]. *)
Inductive http_outcome :=
| TimeoutException (str : string)
| RequestError (str : string)
| Response (status_code : Z) (status_str : string) (body : decode_error + json)
| NotSent (str : string).

(** The client and the upstream services behind it: what becomes of a
    request, given the requests already made. *)
Definition upstream := list request -> request -> http_outcome.

Record World := mkWorld {
  files : gmap string node;
  environ : gmap string string;
  sent : list request
}.

(** Handlers: state passing over the world, with exceptions. *)
Definition M (A : Type) : Type := World -> result A * World.

Definition ret {A} (a : A) : M A := fun w => (Ok a, w).
Definition raise {A} (e : exn) : M A := fun w => (Raise e, w).
Definition bindM {A B} (m : M A) (k : A -> M B) : M B :=
  fun w => match m w with
           | (Ok a, w') => k a w'
           | (Raise e, w') => (Raise e, w')
           end.
Definition lift {A} (r : result A) : M A := fun w => (r, w).

(** [try: m  except Exception as e: raise h(e)] *)
Definition try_except {A} (m : M A) (h : exn -> exn) : M A :=
  fun w => match m w with
           | (Ok a, w') => (Ok a, w')
           | (Raise e, w') => (Raise (h e), w')
           end.

Notation "x <-- m ; k" := (bindM m (fun x => k))
  (at level 100, m at next level, right associativity) : py_scope.

(** [not s] for an optional string: [None] and the empty string are falsy. *)
Definition py_not (s : option string) : bool :=
  match s with
  | None => true
  | Some EmptyString => true
  | Some _ => false
  end.

Definition os_getenv (key : string) : M (option string) :=
  fun w => (Ok (environ w !! key), w).

(** [response.raise_for_status()]: only 2xx passes. *)
Definition is_success (status_code : Z) : bool :=
  (200 <=? status_code)%Z && (status_code <=? 299)%Z.

Variable service : upstream.

(** [client.post]: a request that could be built is handed to the transport
    and put on record, whatever comes of it. *)
Definition client_post (rq : request) : M http_outcome :=
  fun w => match service (sent w) rq with
           | NotSent e => (Ok (NotSent e), w)
           | answer =>
               (Ok answer, {| files := files w; environ := environ w; sent := rq :: sent w |})
           end.

(** Module-level constants, main.py lines 19-21; [AIPROXY_TOKEN] is read from
    the environment once, when the module is loaded. *)
Record globals := Globals {
  COMPLETIONS_URL : string;
  EMBEDDINGS_URL : string;
  AIPROXY_TOKEN : option string
}.

Definition load_module (env : gmap string string) : globals :=
  {| COMPLETIONS_URL := "https://aiproxy.sanand.workers.dev/openai/v1/chat/completions";
     EMBEDDINGS_URL := "https://aiproxy.sanand.workers.dev/openai/v1/embeddings";
     AIPROXY_TOKEN := env !! "AIPROXY_TOKEN" |}.

Variable G : globals.

Definition bearer (token : option string) : string :=
  "Bearer " ++ default "None" token.

(** [a or b], with [b] evaluated only when [a] is false. *)
Definition py_or (a : result bool) (b : result bool) : result bool :=
  x <-! a; if x then Ok true else b.

(** The body of the [try] of [get_embedding] once the response is JSON,
    main.py lines 545-549. *)
Definition embedding_of_response (data : json) : result ndarray :=
  bad <-! py_or (c <-! py_contains "data" data; Ok (negb c))
         (py_or (d <-! py_getitem data "data"; Ok (negb (isinstance_list d)))
                (d <-! py_getitem data "data"; n <-! py_len d; Ok (Nat.eqb n 0)));
  if (bad : bool)
  then Raise (Exn ValueError "Invalid response format: Missing or empty 'data' field.")
  else
    d <-! py_getitem data "data";
    first <-! py_first d;
    embedding <-! py_getitem first "embedding";
    Ok (np_array embedding).

(** [except Exception as e: raise RuntimeError(f"{prefix}{e}")] around a
    computation that touches no state. *)
Definition unexpected {A} (prefix : string) (r : result A) : result A :=
  match r with
  | Ok a => Ok a
  | Raise e => Raise (Exn RuntimeError (prefix ++ exn_str e))
  end.

(** [get_embedding], main.py lines 513-557. *)
Definition get_embedding (input : text) : M ndarray :=
  if py_not (AIPROXY_TOKEN G)
  then raise (Exn ValueError "AIPROXY_TOKEN environment variable is not set.")
  else
    let headers := bearer (AIPROXY_TOKEN G) in
    let payload := EmbeddingPayload "text-embedding-3-small" input in
    response <-- client_post (Request (EMBEDDINGS_URL G) headers payload);
    match response with
    | TimeoutException e => raise (Exn RuntimeError ("API Timeout: " ++ e))
    | RequestError e => raise (Exn RuntimeError ("API Request Failed: " ++ e))
    | Response status_code e body =>
        if is_success status_code then
          match body with
          | inl e' => raise (Exn RuntimeError ("An unexpected error occurred: " ++ decode_str e'))
          | inr data => lift (unexpected "An unexpected error occurred: " (embedding_of_response data))
          end
        else raise (Exn RuntimeError ("API Error: " ++ e))
    | NotSent e => raise (Exn RuntimeError ("An unexpected error occurred: " ++ e))
    end.

(** ** Reading the comments *)

(** [str.isspace] on one code point. *)
Definition is_space (c : N) : bool :=
  ((9 <=? c) && (c <=? 13) || (28 <=? c) && (c <=? 32)
   || (c =? 133) || (c =? 160) || (c =? 5760)
   || (8192 <=? c) && (c <=? 8202)
   || (c =? 8232) || (c =? 8233) || (c =? 8239) || (c =? 8287) || (c =? 12288))%N.

Fixpoint lstrip (s : text) : text :=
  match s with
  | c :: s' => if is_space c then lstrip s' else s
  | [] => []
  end.

Definition rstrip (s : text) : text := rev (lstrip (rev s)).

Definition strip (s : text) : text := rstrip (lstrip s).

(** Text mode with universal newlines: CR LF and a lone CR are read as LF. *)
Fixpoint universal_newlines (s : text) : text :=
  match s with
  | [] => []
  | c :: s' =>
      if (c =? 13)%N then
        10%N :: match s' with
                | d :: s'' => if (d =? 10)%N then universal_newlines s'' else universal_newlines s'
                | [] => []
                end
      else c :: universal_newlines s'
  end.

(** Iterating a file: the lines, each with its terminating LF. *)
Fixpoint lines_from (line : text) (s : text) : list text :=
  match s with
  | [] => match line with [] => [] | _ => [line] end
  | c :: s' =>
      if (c =? 10)%N then (line ++ [c])%list :: lines_from [] s'
      else lines_from (line ++ [c])%list s'
  end.

Definition file_lines (content : text) : list text :=
  lines_from [] (universal_newlines content).

Definition truthy (s : text) : bool :=
  match s with [] => false | _ => true end.

(** [[line.strip() for line in f if line.strip()]] *)
Definition read_comments (content : text) : list text :=
  map strip (filter (fun line => truthy (strip line)) (file_lines content)).

Definition os_path_isfile (path : string) : M bool :=
  fun w => (Ok match files w !! path with Some (File _) => true | _ => false end, w).

(** [open(path, "r", encoding="utf-8")] and reading it through. *)
Definition read_text (path : string) : M text :=
  fun w => match files w !! path with
           | Some (File (Some content)) => (Ok content, w)
           | Some (File None) =>
               (Raise (Exn ValueError "'utf-8' codec can't decode byte: invalid start byte"), w)
           | Some Directory => (Raise (Exn OSError ("Is a directory: '" ++ path ++ "'")), w)
           | None => (Raise (Exn FileNotFoundError ("No such file or directory: '" ++ path ++ "'")), w)
           end.

(** [open(path, "w", encoding="utf-8")] and one [write]: the file is created
    or replaced; opening a directory fails and changes nothing. *)
Definition write_text (path : string) (content : text) : M unit :=
  fun w => match files w !! path with
           | Some Directory => (Raise (Exn OSError ("Is a directory: '" ++ path ++ "'")), w)
           | _ => (Ok tt, {| files := <[path := File (Some content)]> (files w);
                             environ := environ w; sent := sent w |})
           end.

(** ** Loops *)

(** [for x in xs: body], on a pure state and in a handler. *)
Fixpoint for_each {A S} (xs : list A) (body : A -> S -> result S) (st : S) : result S :=
  match xs with
  | [] => Ok st
  | x :: xs' => st' <-! body x st; for_each xs' body st'
  end.

Fixpoint for_eachM {A S} (xs : list A) (body : A -> S -> M S) (st : S) : M S :=
  match xs with
  | [] => ret st
  | x :: xs' => st' <-- body x st; for_eachM xs' body st'
  end.

(** [range(a, b)] *)
Definition range (a b : nat) : list nat := seq a (b - a).

Definition index {A} (l : list A) (i : nat) : result A :=
  match l !! i with
  | Some x => Ok x
  | None => Raise (Exn IndexError "list index out of range")
  end.

(** ** Task A9 *)

(** The running maximum and [pair_indices]. *)
Definition scan_state : Type := F * (option nat * option nat).

(** The body of the inner loop, main.py lines 631-634. *)
Definition scan_step (embeddings : list ndarray) (i j : nat) (st : scan_state)
  : result scan_state :=
  let max_sim := st.1 in
  vec_i <-! index embeddings i;
  vec_j <-! index embeddings j;
  sim <-! cosine_similarity vec_i vec_j;
  if f_gtb sim max_sim then Ok (sim, (Some i, Some j)) else Ok st.

(** The two nested loops, main.py lines 626-634. *)
Definition scan (embeddings : list ndarray) (num_comments : nat) : result scan_state :=
  for_each (range 0 num_comments)
    (fun i st => for_each (range (i + 1) num_comments) (fun j st => scan_step embeddings i j st) st)
    (f_neg_one, (None, None)).

(** The loop that fills [embeddings], main.py lines 617-621. *)
Definition fetch_embeddings (comments : list text) : M (list ndarray) :=
  for_eachM comments
    (fun comment embeddings =>
       embedding <-- get_embedding comment;
       ret (embeddings ++ [embedding])%list)
    [].

(** What [task_a9] reports: the output path and the score that its message
    formats with [.4f], which cannot fail for a float. *)
Definition report : Type := string * F.

(** [task_a9], main.py lines 585-647. *)
Definition task_a9 : M report :=
  let input_file := "/data/comments.txt" in
  let output_file := "/data/comments-similar.txt" in
  isfile <-- os_path_isfile input_file;
  if negb isfile
  then raise (Exn FileNotFoundError ("Comments file " ++ input_file ++ " not found."))
  else
    comments <-- try_except (content <-- read_text input_file; ret (read_comments content))
                   (fun _ => Exn RuntimeError "Failed to read comments file.");
    if (length comments <? 2)%nat
    then raise (Exn RuntimeError "Not enough comments to compute similarity.")
    else
      embeddings <-- try_except (fetch_embeddings comments)
                       (fun e => Exn RuntimeError ("Error generating embeddings: " ++ exn_str e));
      found <-- lift (scan embeddings (length comments));
      match found with
      | (max_sim, (Some i, Some j)) =>
          comment_i <-- lift (index comments i);
          comment_j <-- lift (index comments j);
          _ <-- try_except (write_text output_file (comment_i ++ [10%N] ++ comment_j)%list)
                  (fun _ => Exn RuntimeError "Failed to write similar comments output.");
          ret (output_file, max_sim)
      | _ => raise (Exn RuntimeError "Failed to find a similar pair of comments.")
      end.

(** ** The chat path *)

(** The body of the [try] of [query_gpt] once the response is JSON,
    main.py lines 882-886. *)
Definition message_of_response (response_data : json) : result json :=
  bad <-! py_or (c <-! py_contains "choices" response_data; Ok (negb c))
         (py_or (d <-! py_getitem response_data "choices"; Ok (negb (isinstance_list d)))
                (d <-! py_getitem response_data "choices"; n <-! py_len d; Ok (Nat.eqb n 0)));
  if (bad : bool)
  then Raise (Exn ValueError
                "Unexpected response format: Missing or empty 'choices' in LLM response.")
  else
    d <-! py_getitem response_data "choices";
    first <-! py_first d;
    py_getitem first "message".

(** [query_gpt], main.py lines 843-896. *)
Definition query_gpt (user_input : text) (tools : list json) : M json :=
  let EMBEDDINGS_URL := "https://api.openai.com/v1/chat/completions" in
  api_key <-- os_getenv "AIPROXY_TOKEN";
  if py_not api_key
  then raise (Exn ValueError "Environment variable AIPROXY_TOKEN not set.")
  else
    let headers := bearer api_key in
    let payload := ChatPayload "gpt-4o-mini" user_input tools "auto" in
    response <-- client_post (Request EMBEDDINGS_URL headers payload);
    match response with
    | TimeoutException e => raise (Exn RuntimeError ("LLM API Timeout: " ++ e))
    | RequestError e => raise (Exn RuntimeError ("LLM API Request Failed: " ++ e))
    | Response status_code e body =>
        if is_success status_code then
          match body with
          | inl (JSONDecodeError e') =>
              raise (Exn RuntimeError ("LLM API Response Decode Error: " ++ e'))
          | inl (UnicodeDecodeError e') =>
              raise (Exn RuntimeError ("An unexpected error occurred: " ++ e'))
          | inr response_data =>
              lift (unexpected "An unexpected error occurred: "
                      (message_of_response response_data))
          end
        else raise (Exn RuntimeError ("LLM API Error: " ++ e))
    | NotSent e => raise (Exn RuntimeError ("An unexpected error occurred: " ++ e))
    end.

End Program.

Arguments json F : clear implicits.
Arguments ndarray F : clear implicits.
Arguments upstream F : clear implicits.
Arguments World F : clear implicits.
Arguments request F : clear implicits.
Arguments http_outcome F : clear implicits.
Arguments payload F : clear implicits.

Notation "x <-- m ; k" := (bindM m (fun x => k))
  (at level 100, m at next level, right associativity) : py_scope.

(** ** Vocabulary of the statements *)

(** The value [cosine_similarity] returns on two vectors of one length. *)
Definition cosine {F : Type} `{Scalar F} (a b : list F) : F :=
  if f_eqb (norm a) f_zero || f_eqb (norm b) f_zero then f_zero
  else f_div (dot a b) (f_mul (norm a) (norm b)).

(** The score of the items at positions [k] and [l]. *)
Definition score {F : Type} `{Scalar F} (vecs : list (list F)) (k l : nat) : F :=
  cosine (nth k vecs []) (nth l vecs []).

(** The index pairs in the order the two loops of [task_a9] visit them. *)
Definition scan_pairs (n : nat) : list (nat * nat) :=
  flat_map (fun i => map (pair i) (range (i + 1) n)) (range 0 n).

Definition lex_lt (p q : nat * nat) : Prop :=
  (p.1 < q.1)%nat \/ (p.1 = q.1 /\ (p.2 < q.2)%nat).

Definition lex_le (p q : nat * nat) : Prop := p = q \/ lex_lt p q.

(** The running maximum after one more pair, when every score is defined. *)
Definition keep_best {F : Type} `{Scalar F} (f : nat * nat -> F)
  (st : scan_state) (p : nat * nat) : scan_state :=
  if f_gtb (f p) st.1 then (f p, (Some p.1, Some p.2)) else st.

(** What [scan] starts from: [max_sim = -1.0] and [pair_indices = (None, None)]. *)
Definition scan_init {F : Type} `{Scalar F} : scan_state := (f_neg_one, (None, None)).

(** The request [query_gpt] sends when the environment holds the token [key]. *)
Definition chat_request {F : Type} (key : string) (user_input : text) (tools : list (json F))
  : request F :=
  Request "https://api.openai.com/v1/chat/completions" ("Bearer " ++ key)
          (ChatPayload "gpt-4o-mini" user_input tools "auto").

(** The world after [path] was written. *)
Definition written {F : Type} (path : string) (content : text) (w : World F) : World F :=
  {| files := <[path := File (Some content)]> (files w);
     environ := environ w; sent := sent w |}.

(** ** Sample worlds

    Concrete binary64 runs: a data directory holding the comments, an
    environment holding the token, and upstream services given by a table. *)
Module Sample.

Fixpoint text_of (s : string) : text :=
  match s with
  | EmptyString => []
  | String a s' => Ascii.N_of_ascii a :: text_of s'
  end.

Definition environment : gmap string string := {[ "AIPROXY_TOKEN" := "secret" ]}.

Definition world (comments_txt : string) : World float :=
  {| files := {[ "/data/comments.txt" := File (Some (text_of comments_txt)) ]};
     environ := environment;
     sent := [] |}.

(** The body the embeddings endpoint documents:
    [{"data": [{"embedding": [...]}]}]. *)
Definition embedding_body (v : list float) : json float :=
  JObj [("data", JArr [JObj [("embedding", JArr (map JNum v))]])].

(** A service that answers the embedding request for a text from a table,
    and every other request with a connection failure. *)
Definition embeddings_from (table : text -> http_outcome float) : upstream float :=
  fun _ rq =>
    match payload_of rq with
    | EmbeddingPayload _ input => table input
    | ChatPayload _ _ _ _ => RequestError "All connection attempts failed"
    end.

Definition ok_embedding (v : list float) : http_outcome float :=
  Response 200 "" (inr (embedding_body v)).

(** Two comments whose embeddings are exact negatives of each other. *)
Definition opposite : upstream float :=
  embeddings_from (fun input =>
    if bool_decide (input = text_of "up") then ok_embedding [1%float]
    else ok_embedding [(-1)%float]).

(** Three comments; the first and the last are orthogonal, and the middle
    one is as close to the one as to the other. *)
Definition three_vectors : list (list float) :=
  [[1%float; 0%float]; [1%float; 1%float]; [0%float; 1%float]].

Definition three : upstream float :=
  embeddings_from (fun input =>
    if bool_decide (input = text_of "east") then ok_embedding [1%float; 0%float]
    else if bool_decide (input = text_of "north-east") then ok_embedding [1%float; 1%float]
    else ok_embedding [0%float; 1%float]).

(** The embeddings endpoint answers the first comment and fails on the
    second with a 500. *)
Definition second_fails : upstream float :=
  embeddings_from (fun input =>
    if bool_decide (input = text_of "east") then ok_embedding [1%float; 0%float]
    else Response 500 "Server error '500 Internal Server Error'" (inl (JSONDecodeError "Expecting value: line 1 column 1 (char 0)"))).

(** A chat endpoint that answers the instruction "down" with a 500 and any
    other instruction with the empty JSON object. *)
Definition chat : upstream float :=
  fun _ rq =>
    match payload_of rq with
    | ChatPayload _ user_input _ _ =>
        if bool_decide (user_input = text_of "down")
        then Response 500 "Server error '500 Internal Server Error'" (inl (JSONDecodeError "Expecting value: line 1 column 1 (char 0)"))
        else Response 200 "" (inr (JObj []))
    | EmbeddingPayload _ _ => RequestError "All connection attempts failed"
    end.

End Sample.

(** What the scan of [task_a9] needs of [<] and [==]: [<] is a strict partial
    order, and [==] respects it. Both hold of binary64 with its NaN (which is
    below nothing and above nothing) and its two zeros (which are [==]). *)
Class ScalarOrder (F : Type) `{Scalar F} : Prop := {
  f_ltb_irrefl : forall x : F, f_ltb x x = false;
  f_ltb_trans : forall x y z : F, f_ltb x y = true -> f_ltb y z = true -> f_ltb x z = true;
  f_eqb_ltb : forall m x y : F, f_eqb x y = true -> f_ltb m y = true -> f_ltb m x = true
}.

(** The request [get_embedding] sends for [input]. *)
Definition embedding_request {F : Type} (G : globals) (input : text) : request F :=
  Request (EMBEDDINGS_URL G) (bearer (AIPROXY_TOKEN G))
          (EmbeddingPayload "text-embedding-3-small" input).

(** A one-dimensional float array. *)
Definition is_vector {F : Type} (a : ndarray F) : bool :=
  match a with
  | Vec _ => true
  | Other _ => false
  end.

(** The world after [client.post] was called with [rq]: the request is on
    record unless it could not be built. *)
Definition posted {F : Type} (service : upstream F) (rq : request F) (w : World F) : World F :=
  match service (sent w) rq with
  | NotSent _ => w
  | _ => {| files := files w; environ := environ w; sent := rq :: sent w |}
  end.

(** [s.isascii()] *)
Fixpoint isascii (s : string) : bool :=
  match s with
  | EmptyString => true
  | String c s' => (Ascii.N_of_ascii c <? 128)%N && isascii s'
  end.

(** Further sample services. *)
Module More.

(** A token with a character that is not ASCII: "cl" and U+00E9. *)
Definition accented : string :=
  "cl" ++ String (Ascii.ascii_of_nat 233) EmptyString.

Definition accented_environment : gmap string string := {[ "AIPROXY_TOKEN" := accented ]}.

(** The client in front of a service: a header that is not ASCII cannot be
    encoded, and nothing is sent. *)
Definition ascii_headers (service : upstream float) : upstream float :=
  fun log rq =>
    if isascii (authorization rq) then service log rq
    else NotSent "'ascii' codec can't encode character '\xe9' in position 9: ordinal not in range(128)".

(** A chat endpoint whose 200 response is not UTF-8. *)
Definition latin1_body : upstream float :=
  fun _ _ =>
    Response 200 ""
      (inl (UnicodeDecodeError "'utf-8' codec can't decode byte 0xe9 in position 0: unexpected end of data")).

(** Embeddings of two lengths: two entries for "east", one for any other
    text. *)
Definition ragged : upstream float :=
  Sample.embeddings_from (fun input =>
    if bool_decide (input = Sample.text_of "east") then Sample.ok_embedding [1%float; 0%float]
    else Sample.ok_embedding [1%float]).

(** A chat endpoint that offers two choices. *)
Definition two_choices : upstream float :=
  fun _ _ =>
    Response 200 ""
      (inr (JObj [("choices",
                   JArr [JObj [("message", JObj [("content", JStr "first")])];
                         JObj [("message", JObj [("content", JStr "second")])]])])).

(** A documents directory with one Markdown file and one text file at the
    top, and one Markdown file below. *)
Definition docs_walk : string -> World float -> list (string * list string) :=
  fun _ _ => [("/data/docs/", ["intro.md"; "notes.txt"]); ("/data/docs/deep", ["plan.md"])].

Definition docs : World float :=
  {| files := {[ "/data/docs/" := Directory;
                 "/data/docs/intro.md" := File (Some (Sample.text_of "hello
# Welcome
# Again"));
                 "/data/docs/notes.txt" := File None;
                 "/data/docs/deep/plan.md" := File (Some (Sample.text_of "## only a section")) ]};
     environ := ∅;
     sent := [] |}.

(** The same, with the lower file unreadable. *)
Definition docs_broken : World float :=
  {| files := <[ "/data/docs/deep/plan.md" := File None ]> (files docs);
     environ := ∅;
     sent := [] |}.

(** Stand-ins for [os.path.relpath] below "/data/docs/" and for [json.dump]. *)
Definition relpath (target start : string) : string :=
  String.substring (String.length start) (String.length target - String.length start) target.

Definition dump (index : list (string * text)) : text :=
  flat_map (fun entry => Sample.text_of entry.1 ++ [58%N] ++ entry.2 ++ [10%N])%list index.

End More.

(** ** Strings of the other handlers *)

(** A [string] stands for a Python [str] of characters below 256; [str_text]
    gives its code points. *)
Definition str_text (s : string) : text := Sample.text_of s.

(** [s.startswith(p)] *)
Fixpoint startswith (p s : text) : bool :=
  match p, s with
  | [], _ => true
  | a :: p', b :: s' => (a =? b)%N && startswith p' s'
  | _ :: _, [] => false
  end.

(** [s.lstrip(chars)]: drops the leading characters that occur in [chars]. *)
Fixpoint lstrip_chars (chars : list N) (s : text) : text :=
  match s with
  | c :: s' => if existsb (N.eqb c) chars then lstrip_chars chars s' else s
  | [] => []
  end.

(** [name.endswith(suffix)] on file names. *)
Definition endswith (suffix name : string) : bool :=
  is_prefix (String.rev suffix) (String.rev name).

(** [os.path.join(a, b)] of [posixpath]. *)
Definition os_path_join (a b : string) : string :=
  if is_prefix "/" b then b
  else if (String.eqb a "" || endswith "/" a)%bool then a ++ b
  else a ++ "/" ++ b.

(** ** Task A6: the title of a Markdown file *)

(** The loop over the lines of one file, main.py lines 368-373: the title is
    taken from the first line that, stripped, starts with "# ". *)
Fixpoint first_h1 (lines : list text) : text :=
  match lines with
  | [] => []
  | line :: rest =>
      let line_strip := strip line in
      if startswith [35; 32]%N line_strip
      then strip (lstrip_chars [35; 32]%N line_strip)
      else first_h1 rest
  end.

Definition title_of (content : text) : text := first_h1 (file_lines content).

(** [os.path.isdir(path)] *)
Definition os_path_isdir {F : Type} (path : string) : @M F bool :=
  fun w : World F =>
    (Ok match files w !! path with Some Directory => true | _ => false end, w).

(** [d[k] = v] on a [dict], kept as its items in insertion order: a key
    already present keeps its place. *)
Fixpoint dict_set {V : Type} (k : string) (v : V) (d : list (string * V)) : list (string * V) :=
  match d with
  | [] => [(k, v)]
  | (k', v') :: d' => if String.eqb k k' then (k, v) :: d' else (k', v') :: dict_set k v d'
  end.

Section TaskA6.

Context {F : Type}.

(** From the standard library, taken as given: the directories [os.walk]
    visits, each with the names of its files; [os.path.relpath]; and
    [json.dump] of the index with [indent=2]. *)
Variable os_walk : string -> World F -> list (string * list string).
Variable os_path_relpath : string -> string -> string.
Variable json_dump_index : list (string * text) -> text.

(** The body of the loop over the files of one directory,
    main.py lines 364-378. *)
Definition index_file (docs_dir root file : string) (index_dict : list (string * text))
  : @M F (list (string * text)) :=
  if endswith ".md" file then
    let target_file := os_path_join root file in
    try_except
      (content <-- read_text target_file;
       let title := title_of content in
       let rel_path := os_path_relpath target_file docs_dir in
       ret (dict_set rel_path title index_dict))
      (fun _ => Exn RuntimeError ("Error processing file " ++ target_file))
  else ret index_dict.

(** [task_a6], main.py lines 337-388. *)
Definition task_a6 : @M F string :=
  let docs_dir := "/data/docs/" in
  let index_output := os_path_join docs_dir "index.json" in
  isdir <-- os_path_isdir docs_dir;
  if negb isdir
  then raise (Exn FileNotFoundError ("Directory " ++ docs_dir ++ " not found."))
  else
    index_dict <-- try_except
                     (walk <-- (fun w : World F => (Ok (os_walk docs_dir w), w));
                      for_eachM walk
                        (fun dir index_dict =>
                           for_eachM dir.2
                             (fun file index_dict => index_file docs_dir dir.1 file index_dict)
                             index_dict)
                        [])
                     (fun _ => Exn RuntimeError "Error scanning markdown documents.");
    _ <-- try_except (write_text index_output (json_dump_index index_dict))
            (fun _ => Exn RuntimeError "Error writing index file.");
    ret ("Created markdown index with " ++ pretty (length index_dict)
         ++ " entries at " ++ index_output ++ ".").

End TaskA6.

(** An entry of the index of [task_a6]: the relative path of a Markdown file
    among the [pairs] of directory and file name visited, and the title read
    from the file. *)
Definition indexed_by {F : Type} (os_path_relpath : string -> string -> string)
  (w : World F) (pairs : list (string * string)) (entry : string * text) : Prop :=
  exists root file content,
    In (root, file) pairs /\ endswith ".md" file = true
    /\ files w !! os_path_join root file = Some (File (Some content))
    /\ entry = (os_path_relpath (os_path_join root file) "/data/docs/", title_of content).

(** The directory and file name pairs in the order [os.walk] gives them. *)
Definition walked (walk : list (string * list string)) : list (string * string) :=
  flat_map (fun dir => map (pair dir.1) dir.2) walk.

(** ** Handlers that raise [HTTPException]

    Tasks A1 to A5 raise FastAPI's [HTTPException], itself an [Exception],
    and catch what the libraries raise. What they print is not modelled. *)

Inductive thrown :=
| HTTPException (status_code : Z) (detail : text)
| TimeoutExpired
| FileNotFound
| ImportError
| OtherException (str : text).

Inductive outcome (A : Type) : Type :=
| Return (a : A)
| Throw (t : thrown).
Arguments Return {A} a.
Arguments Throw {A} t.

(** What [subprocess.run(..., capture_output=True, text=True)] returns. *)
Record completed := Completed { returncode : Z; stderr : string }.

Section HttpTasks.

Context {F : Type}.

Definition Handler (A : Type) : Type := World F -> outcome A * World F.

Definition hret {A} (a : A) : Handler A := fun w => (Return a, w).
Definition throw {A} (t : thrown) : Handler A := fun w => (Throw t, w).
Definition hbind {A B} (m : Handler A) (k : A -> Handler B) : Handler B :=
  fun w => match m w with
           | (Return a, w') => k a w'
           | (Throw t, w') => (Throw t, w')
           end.

(** [try: m  except ...], the handlers given as one function: [None] for an
    exception no handler matches. *)
Definition try_catch {A} (m : Handler A) (handler : thrown -> option (Handler A)) : Handler A :=
  fun w => match m w with
           | (Return a, w') => (Return a, w')
           | (Throw t, w') =>
               match handler t with
               | Some h => h w'
               | None => (Throw t, w')
               end
           end.

(** A file operation of the other handlers, with its Python exception kept
    only as far as these handlers tell exceptions apart. *)
Definition of_M {A} (m : @M F A) : Handler A :=
  fun w => match m w with
           | (Ok a, w') => (Return a, w')
           | (Raise (Exn FileNotFoundError s), w') => (Throw FileNotFound, w')
           | (Raise (Exn _ s), w') => (Throw (OtherException (str_text s)), w')
           end.

Notation "x <~ m ; k" := (hbind m (fun x => k))
  (at level 100, m at next level, right associativity) : py_scope.

(** From the libraries, taken as given: whether [validate_email] accepts an
    address (it raises [EmailNotValidError] otherwise); the interpreter's
    path; what [import uv] does; [subprocess.check_call] and
    [subprocess.run], which may change the world in any way. *)
Variable validate_email : string -> World F -> bool.
Variable sys_executable : string.
Variable import_uv : Handler unit.
Variable subprocess_check_call : list string -> Handler unit.
Variable subprocess_run : list string -> Handler completed.

(** [is_valid_email_address], main.py lines 24-38. *)
Definition is_valid_email_address (email : string) : Handler bool :=
  fun w => (Return (validate_email email w), w).

(** [task_a1], main.py lines 70-115. *)
Definition task_a1 (user_email script_url : string) : Handler string :=
  if String.eqb user_email ""
  then throw (HTTPException 400 (str_text "User email must be provided."))
  else
    valid <~ is_valid_email_address user_email;
    if negb valid
    then throw (HTTPException 400 (str_text "Invalid email address."))
    else
      _ <~ try_catch
             (try_catch import_uv
                (fun t => match t with
                          | ImportError =>
                              Some (subprocess_check_call
                                      [sys_executable; "-m"; "pip"; "install"; "uv"])
                          | _ => None
                          end))
             (fun _ => Some (throw (HTTPException 500
                                      (str_text "Failed to install 'uv' package."))));
      _ <~ try_catch
             (process <~ subprocess_run ["uv"; "run"; script_url; user_email; "--root"; "./data"];
              if negb (returncode process =? 0)%Z
              then throw (HTTPException 500
                            (str_text ("Script execution failed: " ++ stderr process)))
              else hret tt)
             (fun t => match t with
                       | TimeoutExpired =>
                           Some (throw (HTTPException 500
                                          (str_text "Script execution timed out.")))
                       | _ =>
                           Some (throw (HTTPException 500
                                          (str_text "Failed to execute the data generator script.")))
                       end);
      hret "Data generator script executed successfully".

(** The body of both attempts of [task_a2], main.py lines 143-148 and
    152-157. *)
Definition run_prettier (target_file : string) : Handler unit :=
  process <~ subprocess_run ["npx"; "prettier@3.4.2"; "--write"; target_file];
  if negb (returncode process =? 0)%Z
  then throw (HTTPException 500
                (str_text ("Prettier formatting failed: " ++ stderr process)))
  else hret tt.

(** [task_a2], main.py lines 121-163. *)
Definition task_a2 (target_file : string) : Handler string :=
  isfile <~ of_M (os_path_isfile target_file);
  if negb isfile
  then throw (HTTPException 404 (str_text ("File " ++ target_file ++ " not found.")))
  else
    _ <~ try_catch
           (try_catch (run_prettier target_file)
              (fun t => match t with
                        | FileNotFound =>
                            Some (_ <~ subprocess_check_call
                                         [sys_executable; "-m"; "pip"; "install"; "prettier"];
                                  run_prettier target_file)
                        | _ => None
                        end))
           (fun t => match t with
                     | TimeoutExpired =>
                         Some (throw (HTTPException 500
                                        (str_text "Prettier formatting timed out.")))
                     | _ =>
                         Some (throw (HTTPException 500
                                        (str_text "Failed to execute prettier formatting.")))
                     end);
    hret ("Formatted " ++ target_file ++ " successfully.").

End HttpTasks.

Notation "x <~ m ; k" := (hbind m (fun x => k))
  (at level 100, m at next level, right associativity) : py_scope.

(** Sample processes. *)
Module Procs.

Definition accept : string -> World float -> bool := fun _ _ => true.

Definition uv_present : @Handler float unit := hret tt.

Definition pip_ok : list string -> @Handler float unit := fun _ => hret tt.

(** The script exits with code 1 and a message on its error stream. *)
Definition script_fails : list string -> @Handler float completed :=
  fun _ => hret (Completed 1 "Traceback: no network").

Definition script_ok : list string -> @Handler float completed :=
  fun _ => hret (Completed 0 "").

(** [npx] is found once prettier is installed, which [pip_installs] does. *)
Definition npx_after_install : list string -> @Handler float completed :=
  fun _ w => match files w !! "/usr/lib/node_modules/prettier" with
             | Some _ => (Return (Completed 0 ""), w)
             | None => (Throw FileNotFound, w)
             end.

Definition pip_installs : list string -> @Handler float unit :=
  fun _ w => (Return tt,
              {| files := <[ "/usr/lib/node_modules/prettier" := Directory ]> (files w);
                 environ := environ w; sent := sent w |}).

Definition empty : World float := {| files := ∅; environ := ∅; sent := [] |}.

Definition with_file (path : string) (content : string) : World float :=
  {| files := {[ path := File (Some (Sample.text_of content)) ]}; environ := ∅; sent := [] |}.

End Procs.

(** [for x in xs: body] in a handler that raises [HTTPException]. *)
Fixpoint for_eachH {F A S : Type} (xs : list A) (body : A -> S -> @Handler F S) (st : S) : @Handler F S :=
  match xs with
  | [] => hret st
  | x :: xs' => st' <~ body x st; for_eachH xs' body st'
  end.

(** [l.index(x)] *)
Fixpoint list_index (x : text) (l : list text) : option nat :=
  match l with
  | [] => None
  | y :: l' => if bool_decide (x = y) then Some 0%nat
               else match list_index x l' with Some i => Some (Datatypes.S i) | None => None end
  end.

Definition weekdays : list text :=
  map str_text ["monday"; "tuesday"; "wednesday"; "thursday"; "friday"; "saturday"; "sunday"].

Section DateTask.

Context {F DT : Type}.

(** From the libraries, taken as given: [str.lower]; [dateutil]'s
    [parser.parse(s, fuzzy=True)], which gives a datetime or raises (the text
    of the exception); [dt.strftime('%Y-%m-%d')]; [datetime.strptime(s,
    '%Y-%m-%d')]; and [date.weekday()]. *)
Variable str_lower : text -> text.
Variable dateutil_parse : text -> DT + text.
Variable strftime_ymd : DT -> text.
Variable strptime_ymd : text -> DT + text.
Variable weekday : DT -> nat.

(** [convert_date_format], main.py lines 41-64. *)
Definition convert_date_format (date_str : text) : @Handler F text :=
  match dateutil_parse date_str with
  | inl dt => hret (strftime_ymd dt)
  | inr e =>
      throw (HTTPException 400
               (str_text "Could not parse the date string '" ++ date_str
                ++ str_text "': " ++ e)%list)
  end.

(** The body of the loop over the lines, main.py lines 201-207. *)
Definition count_line (day_index : nat) (line : text) (day_count : nat) : @Handler F nat :=
  let date_str := strip line in
  if negb (truthy date_str) then hret day_count
  else
    date_str <~ convert_date_format date_str;
    match strptime_ymd date_str with
    | inl date =>
        if Nat.eqb (weekday date) day_index then hret (Datatypes.S day_count)
        else hret day_count
    | inr e => throw (OtherException e)
    end.

(** [task_a3], main.py lines 169-219. *)
Definition task_a3 (source_file target_file : string) (day : text) : @Handler F text :=
  isfile <~ of_M (os_path_isfile source_file);
  if negb isfile
  then throw (HTTPException 404 (str_text (source_file ++ " not found.")))
  else
    match list_index (str_lower day) weekdays with
    | None =>
        throw (HTTPException 400
                 (str_text "Invalid day of the week: " ++ day ++ str_text ".")%list)
    | Some day_index =>
        day_count <~ try_catch
                       (content <~ of_M (read_text source_file);
                        for_eachH (file_lines content) (count_line day_index) 0%nat)
                       (fun _ => Some (throw (HTTPException 500
                                                (str_text "Error processing dates file."))));
        _ <~ try_catch (of_M (write_text target_file (str_text (pretty day_count))))
               (fun _ => Some (throw (HTTPException 500
                                        (str_text "Error writing day count to file."))));
        hret (str_text ("Counted " ++ pretty day_count ++ " ") ++ day
              ++ str_text ("s and wrote to " ++ target_file ++ "."))%list
    end.

(** Whether a line counts: it is not blank, its date parses, and the date
    read back from the ISO text falls on the day. *)
Definition falls_on (day_index : nat) (line : text) : bool :=
  truthy (strip line) &&
  match dateutil_parse (strip line) with
  | inl dt => match strptime_ymd (strftime_ymd dt) with
              | inl date => Nat.eqb (weekday date) day_index
              | inr _ => false
              end
  | inr _ => false
  end.

(** Whether a line stops the count: it is not blank and does not make it
    through [dateutil] and [strptime]. *)
Definition unreadable_date (line : text) : bool :=
  truthy (strip line) &&
  match dateutil_parse (strip line) with
  | inl dt => match strptime_ymd (strftime_ymd dt) with inl _ => false | inr _ => true end
  | inr _ => true
  end.

End DateTask.

Section ContactsTask.

Context {F : Type}.

(** From the libraries, taken as given: [json.load], which gives a value or
    raises; [sorted(contacts, key=...)] for the given fields, which raises
    when a contact lacks a field or two keys do not compare; and [json.dump]
    with [indent=2]. *)
Variable json_load : text -> json F + text.
Variable sorted_by : list string -> list (json F) -> list (json F) + text.
Variable json_dump : json F -> text.

(** The body of the first [try] of [task_a4], main.py lines 249-255. *)
Definition sort_contacts (source_file : string) (sort_fields : list string)
  : @Handler F (list (json F)) :=
  content <~ of_M (read_text source_file);
  match json_load content with
  | inr e => throw (OtherException e)
  | inl contacts =>
      match contacts with
      | JArr l =>
          match sorted_by sort_fields l with
          | inl sorted_contacts => hret sorted_contacts
          | inr e => throw (OtherException e)
          end
      | _ =>
          throw (HTTPException 400
                   (str_text "Expected a list of contacts in the JSON file."))
      end
  end.

(** [task_a4], main.py lines 225-265; it reports the fields and the path
    that its message formats. *)
Definition task_a4 (source_file target_file : string) (sort_fields : list string)
  : @Handler F (list string * string) :=
  isfile <~ of_M (os_path_isfile source_file);
  if negb isfile
  then throw (HTTPException 404 (str_text (source_file ++ " not found.")))
  else
    sorted_contacts <~ try_catch (sort_contacts source_file sort_fields)
                         (fun _ => Some (throw (HTTPException 500
                                                  (str_text "Error processing contacts file."))));
    _ <~ try_catch (of_M (write_text target_file (json_dump (JArr sorted_contacts))))
           (fun _ => Some (throw (HTTPException 500
                                    (str_text "Error writing sorted contacts to file."))));
    hret (sort_fields, target_file).

End ContactsTask.

(** Sample libraries for the date and contacts handlers: dates are one
    digit, the day of the week of the digit [d] is [d]. *)
Module Dates.

Definition parse (s : text) : nat + text :=
  match s with
  | [c] => if ((48 <=? c) && (c <=? 54))%N then inl (N.to_nat (c - 48))
           else inr (Sample.text_of "Unknown string format")
  | _ => inr (Sample.text_of "Unknown string format")
  end.

Definition format (d : nat) : text := [(48 + N.of_nat d)%N].

Definition weekday (d : nat) : nat := d.

Definition lower (s : text) : text := s.

(** A contacts file that holds an object, not a list. *)
Definition load (content : text) : json float + text := inl (JObj []).

Definition sorted (fields : list string) (l : list (json float)) : list (json float) + text :=
  inl l.

Definition dump (j : json float) : text := Sample.text_of "[]".

End Dates.

(** [os.path.basename(p)]: what follows the last slash. *)
Fixpoint os_path_basename (p : string) : string :=
  match p with
  | EmptyString => EmptyString
  | String c p' =>
      if is_substring "/" p' then os_path_basename p'
      else if Ascii.eqb c (Ascii.ascii_of_nat 47) then p' else p
  end.

Section LogsTask.

Context {F : Type}.

(** From the standard library, taken as given: [os.listdir], and
    [list.sort(key=os.path.getmtime, reverse=True)], which raises when a file
    has gone. *)
Variable os_listdir : string -> @Handler F (list string).
Variable sort_by_mtime : list string -> @Handler F (list string).

(** [f.readline().strip()] of a file just opened. *)
Definition first_line (content : text) : text :=
  strip (match file_lines content with line :: _ => line | [] => [] end).

(** The body of the loop over the selected files, main.py lines 308-314. *)
Definition read_first_line (log_file : string) (lines : list text) : @Handler F (list text) :=
  try_catch
    (content <~ of_M (read_text log_file);
     hret (lines ++ [first_line content])%list)
    (fun _ => Some (hret (lines ++ [str_text ("Error reading " ++ os_path_basename log_file)])%list)).

(** [except HTTPException as e: raise e] before [except Exception]. *)
Definition keep_http (detail : string) (t : thrown) : option (@Handler F (list text)) :=
  match t with
  | HTTPException _ _ => Some (throw t)
  | _ => Some (throw (HTTPException 500 (str_text detail)))
  end.

(** The first [try] of [task_a5], main.py lines 294-318. *)
Definition recent_lines (source_dir file_extension : string) : @Handler F (list text) :=
  try_catch
    (names <~ os_listdir source_dir;
     let log_files :=
       map (os_path_join source_dir) (List.filter (endswith file_extension) names) in
     match log_files with
     | [] =>
         throw (HTTPException 404
                  (str_text ("No files with extension '" ++ file_extension
                             ++ "' found in the directory.")))
     | _ =>
         log_files <~ sort_by_mtime log_files;
         let selected_logs := take 10 log_files in
         for_eachH selected_logs read_first_line []
     end)
    (keep_http "Error processing log files.").

(** [task_a5], main.py lines 271-331. *)
Definition task_a5 (source_dir target_file file_extension : string) : @Handler F string :=
  isdir <~ of_M (os_path_isdir source_dir);
  if negb isdir
  then throw (HTTPException 404 (str_text ("Directory " ++ source_dir ++ " not found.")))
  else
    lines <~ recent_lines source_dir file_extension;
    _ <~ try_catch
           (_ <~ of_M (write_text target_file (flat_map (fun line => line ++ [10%N])%list lines));
            hret lines)
           (keep_http "Error writing recent logs to file.");
    hret ("First lines of the 10 most recent files with extension '" ++ file_extension
          ++ "' written to " ++ target_file ++ ".").

End LogsTask.

(** The line [task_a5] writes for one selected file: its first line,
    stripped, or a note when the file cannot be read. *)
Definition log_line {F : Type} (w : World F) (log_file : string) : text :=
  match files w !! log_file with
  | Some (File (Some content)) => first_line content
  | _ => str_text ("Error reading " ++ os_path_basename log_file)
  end.

(** A sample logs directory. *)
Module Logs.

Definition listing : string -> @Handler float (list string) :=
  fun _ => hret ["a.log"; "notes.txt"; "b.log"].

Definition no_logs : string -> @Handler float (list string) :=
  fun _ => hret ["notes.txt"].

(** Stands for the sort by modification time: here the listing reversed. *)
Definition newest_first : list string -> @Handler float (list string) :=
  fun l => hret (rev l).

Definition world : World float :=
  {| files := {[ "/data/logs" := Directory;
                 "/data/logs/a.log" := File (Some (Sample.text_of "  first of a
second of a"));
                 "/data/logs/b.log" := File None ]};
     environ := ∅;
     sent := [] |}.

End Logs.

(** ** Task A7 *)

Section TaskA7.

Context {F : Type}.

(** The POST of [task_a7] to its endpoint, with the model [gpt-4o-mini] and
    [max_tokens] 50: the answer for an [Authorization] header and a prompt.
    It changes nothing on this side. *)
Variable llm_post : string -> text -> World F -> http_outcome F.

(** [response.json()["choices"][0]["text"].strip()], or nothing when any
    step of it raises. *)
Definition completion_text (data : json F) : option text :=
  match (choices <-! py_getitem data "choices";
         first <-! py_first choices;
         py_getitem first "text") with
  | Ok (JStr s) => Some (strip (str_text s))
  | _ => None
  end.

(** What the second [try] of [task_a7] makes of the response, main.py lines
    436-437: every exception there is replaced by one [RuntimeError]. *)
Definition sender_of_response (response : http_outcome F) : option text :=
  match response with
  | Response status_code _ (inr data) =>
      if is_success status_code then completion_text data else None
  | _ => None
  end.

(** [task_a7], main.py lines 394-447. *)
Definition task_a7 : @M F text :=
  let input_file := "/data/email.txt" in
  let output_file := "/data/email-sender.txt" in
  isfile <-- os_path_isfile input_file;
  if negb isfile
  then raise (Exn FileNotFoundError ("Email file " ++ input_file ++ " not found."))
  else
    email_content <-- try_except (content <-- read_text input_file;
                                  ret (universal_newlines content))
                        (fun _ => Exn RuntimeError "Failed to read email file.");
    let prompt :=
      (str_text "Extract the sender's email address from the following email content:

" ++ email_content)%list in
    result_text <-- (token <-- os_getenv "AIPROXY_TOKEN";
                     fun w => match sender_of_response (llm_post (bearer token) prompt w) with
                              | Some result_text => (Ok result_text, w)
                              | None =>
                                  (Raise (Exn RuntimeError "LLM API call failed in task A7."), w)
                              end);
    _ <-- try_except (write_text output_file result_text)
            (fun _ => Exn RuntimeError "Failed to write email sender output.");
    ret (str_text "Extracted sender email: " ++ result_text)%list.

End TaskA7.

(** A sample mailbox and endpoint: the endpoint answers every prompt with one
    completion. *)
Module Mail.

Definition world : World float :=
  {| files := {[ "/data/email.txt" := File (Some (Sample.text_of "From: ann@example.com")) ]};
     environ := ∅;
     sent := [] |}.

Definition endpoint : string -> text -> World float -> http_outcome float :=
  fun _ _ _ =>
    Response 200 "" (inr (JObj [("choices", JArr [JObj [("text", JStr " ann@example.com
")]])])).

Definition down : string -> text -> World float -> http_outcome float :=
  fun _ _ _ => RequestError "All connection attempts failed".

End Mail.


(** ** Task A8 *)

(** [s.replace(" ", "")] *)
Definition remove_spaces (s : text) : text :=
  List.filter (fun c => negb (c =? 32)%N) s.

Section TaskA8.

Context {F : Type}.

(** From the libraries, taken as given: the bytes of a file opened with
    ["rb"] and read through, which raises when the file cannot be opened or
    read; [base64.b64encode] of the bytes, decoded; and the POST of
    [task_a8] to its endpoint, with the model [gpt-4o-mini] and [max_tokens]
    50: the answer for an [Authorization] header, a prompt and an image. It
    changes nothing on this side. *)
Variable read_bytes : string -> World F -> result (list N).
Variable b64encode : list N -> text.
Variable llm_image_post : string -> text -> text -> World F -> http_outcome F.

(** What the second [try] of [task_a8] makes of the response, main.py lines
    498-499: as in [task_a7], and then [.replace(" ", "")]. *)
Definition card_number_of_response (response : http_outcome F) : option text :=
  match sender_of_response response with
  | Some stripped => Some (remove_spaces stripped)
  | None => None
  end.

(** [task_a8], main.py lines 453-509. *)
Definition task_a8 : @M F text :=
  let input_image := "/data/credit-card.png" in
  let output_file := "/data/credit-card.txt" in
  isfile <-- os_path_isfile input_image;
  if negb isfile
  then raise (Exn FileNotFoundError ("Credit card image file " ++ input_image ++ " not found."))
  else
    img_base64 <-- try_except (img_data <-- (fun w : World F => (read_bytes input_image w, w));
                               ret (b64encode img_data))
                     (fun _ => Exn RuntimeError "Failed to read or encode credit card image.");
    let prompt :=
      str_text "Extract the credit card number from the provided image. Return the number without any spaces." in
    card_number <-- (token <-- os_getenv "AIPROXY_TOKEN";
                     fun w => match card_number_of_response
                                      (llm_image_post (bearer token) prompt img_base64 w) with
                              | Some card_number => (Ok card_number, w)
                              | None =>
                                  (Raise (Exn RuntimeError "LLM API call failed in task A8."), w)
                              end);
    _ <-- try_except (write_text output_file card_number)
            (fun _ => Exn RuntimeError "Failed to write credit card number output.");
    ret (str_text "Extracted credit card number: " ++ card_number)%list.

End TaskA8.

(** A sample card image and endpoint: the image is a binary file, and the
    endpoint reads the number with spaces between its groups. *)
Module Card.

Definition world : World float :=
  {| files := {[ "/data/credit-card.png" := File None ]};
     environ := {[ "AIPROXY_TOKEN" := "secret" ]};
     sent := [] |}.

Definition bytes : string -> World float -> result (list N) :=
  fun _ _ => Ok [137; 80; 78; 71]%N.

Definition locked : string -> World float -> result (list N) :=
  fun path _ => Raise (Exn OSError ("Permission denied: '" ++ path ++ "'")).

Definition encode (data : list N) : text := Sample.text_of "iVBORw==".

Definition endpoint : string -> text -> text -> World float -> http_outcome float :=
  fun _ _ _ _ =>
    Response 200 "" (inr (JObj [("choices", JArr [JObj [("text", JStr " 4111 1111 1111 1111
")]])])).

End Card.
(** * Properties *)

Local Open Scope list_scope.

(** ** Laws of the two arithmetics *)

Lemma float_mul_comm (x y : float) : PrimFloat.mul x y = PrimFloat.mul y x.
Proof.
  rewrite <- (SF2Prim_Prim2SF (PrimFloat.mul x y)), <- (SF2Prim_Prim2SF (PrimFloat.mul y x)).
  rewrite !FloatAxioms.mul_spec. f_equal.
  destruct (Prim2SF x) as [sx|sx| |sx mx ex], (Prim2SF y) as [sy|sy| |sy my ey]; simpl;
    rewrite ?(xorb_comm sx sy); try reflexivity.
  unfold SF64mul, SFmul. rewrite (Pos.mul_comm mx my), (Z.add_comm ex ey). reflexivity.
Qed.

Lemma Pos_cont_lt (m1 m2 : positive) : Pos.compare_cont Eq m1 m2 = Lt <-> (m1 < m2)%positive.
Proof. reflexivity. Qed.

Lemma Pos_cont_opp_lt (m1 m2 : positive) :
  CompOpp (Pos.compare_cont Eq m1 m2) = Lt <-> (m2 < m1)%positive.
Proof.
  change (Pos.compare_cont Eq m1 m2) with (Pos.compare m1 m2).
  rewrite (Pos.compare_antisym m2 m1), CompOpp_involutive. reflexivity.
Qed.

Lemma Pos_cont_eq (m1 m2 : positive) : Pos.compare_cont Eq m1 m2 = Eq <-> m1 = m2.
Proof. apply Pos.compare_eq_iff. Qed.

Lemma Pos_cont_opp_eq (m1 m2 : positive) :
  CompOpp (Pos.compare_cont Eq m1 m2) = Eq <-> m1 = m2.
Proof.
  change (Pos.compare_cont Eq m1 m2) with (Pos.compare m1 m2).
  destruct (Pos.compare_spec m1 m2); simpl; split; intros; subst; try discriminate; try lia; reflexivity.
Qed.

Lemma SFcompare_irrefl (x : spec_float) : SFcompare x x <> Some Lt.
Proof.
  destruct x as [s|s| |s m e]; simpl; try destruct s; try congruence;
    rewrite Z.compare_refl, ?Pos.compare_cont_refl; simpl; congruence.
Qed.

Lemma SFcompare_trans (x y z : spec_float) :
  SFcompare x y = Some Lt -> SFcompare y z = Some Lt -> SFcompare x z = Some Lt.
Proof.
  destruct x as [sx|sx| |sx mx ex], y as [sy|sy| |sy my ey], z as [sz|sz| |sz mz ez]; simpl;
    try destruct sx; try destruct sy; try destruct sz; simpl; try congruence.
  all: intros H1 H2; injection H1 as H1; injection H2 as H2; f_equal.
  all: destruct (Z.compare_spec ex ey), (Z.compare_spec ey ez), (Z.compare_spec ex ez);
    try discriminate; try lia; subst; try reflexivity.
  all: rewrite ?Pos_cont_lt, ?Pos_cont_opp_lt in *; try lia.
Qed.

Lemma SFcompare_eq_lt (m x y : spec_float) :
  SFcompare x y = Some Eq -> SFcompare m y = Some Lt -> SFcompare m x = Some Lt.
Proof.
  destruct x as [sx|sx| |sx mx ex], y as [sy|sy| |sy my ey], m as [sm|sm| |sm mm em]; simpl;
    try destruct sx; try destruct sy; try destruct sm; simpl; try congruence.
  all: intros H1 H2; injection H1 as H1; injection H2 as H2; f_equal.
  all: destruct (Z.compare_spec ex ey), (Z.compare_spec em ey), (Z.compare_spec em ex);
    try discriminate; try lia; subst; try reflexivity.
  all: rewrite ?Pos_cont_eq, ?Pos_cont_opp_eq in *; subst; try assumption; try lia.
Qed.

#[export] Instance binary64_order : ScalarOrder float.
Proof.
  split; simpl.
  - intros x. rewrite FloatAxioms.ltb_spec. unfold SFltb.
    pose proof (SFcompare_irrefl (Prim2SF x)) as Hx.
    destruct (SFcompare (Prim2SF x) (Prim2SF x)) as [[]|]; congruence.
  - intros x y z. rewrite !FloatAxioms.ltb_spec. unfold SFltb.
    pose proof (SFcompare_trans (Prim2SF x) (Prim2SF y) (Prim2SF z)) as Ht.
    destruct (SFcompare (Prim2SF x) (Prim2SF y)) as [[]|]; try discriminate.
    destruct (SFcompare (Prim2SF y) (Prim2SF z)) as [[]|]; try discriminate.
    intros _ _. rewrite Ht; reflexivity.
  - intros m x y. rewrite FloatAxioms.eqb_spec, !FloatAxioms.ltb_spec. unfold SFeqb, SFltb.
    pose proof (SFcompare_eq_lt (Prim2SF m) (Prim2SF x) (Prim2SF y)) as Ht.
    destruct (SFcompare (Prim2SF x) (Prim2SF y)) as [[]|]; try discriminate.
    destruct (SFcompare (Prim2SF m) (Prim2SF y)) as [[]|]; try discriminate.
    intros _ _. rewrite Ht; reflexivity.
Qed.

#[export] Instance reals_order : ScalarOrder R.
Proof.
  split; simpl; intros *; rewrite ?bool_decide_eq_true, ?bool_decide_eq_false; intros; subst; lra.
Qed.

(** ** Cosine similarity *)

Section CosineFacts.

Context {F : Type} `{Scalar F}.

(** On two vectors of one length, [cosine_similarity] is its guard and its
    quotient. *)
Lemma cosine_similarity_Vec (a b : list F) :
  length a = length b ->
  cosine_similarity (Vec a) (Vec b) = Ok (cosine a b).
Proof.
  intros Hlen. unfold cosine_similarity, cosine, np_dot, np_linalg_norm.
  rewrite bool_decide_true by assumption. simpl.
  destruct (f_eqb (norm a) f_zero || f_eqb (norm b) f_zero); reflexivity.
Qed.

Lemma cosine_similarity_mismatch (a b : list F) :
  length a <> length b ->
  cosine_similarity (Vec a) (Vec b) = Raise (shapes_not_aligned (length a) (length b)).
Proof.
  intros Hlen. unfold cosine_similarity, np_dot.
  rewrite bool_decide_false by assumption. reflexivity.
Qed.

Hypothesis f_mul_comm : forall x y : F, f_mul x y = f_mul y x.

Lemma dot_from_comm (a b : list F) : forall acc, dot_from acc a b = dot_from acc b a.
Proof.
  revert b. induction a as [|x a IH]; intros [|y b] acc; simpl; try reflexivity.
  rewrite (f_mul_comm x y). apply IH.
Qed.

(** Either order returns the same score, or either order is refused by
    [np.dot] with a [ValueError]. *)
Lemma cosine_similarity_comm (a b : list F) :
  match cosine_similarity (Vec a) (Vec b), cosine_similarity (Vec b) (Vec a) with
  | Ok s, Ok s' => s = s'
  | Raise e, Raise e' => exn_cls e = ValueError /\ exn_cls e' = ValueError
  | _, _ => False
  end.
Proof.
  destruct (decide (length a = length b)) as [Hlen|Hlen].
  - rewrite (cosine_similarity_Vec a b Hlen), (cosine_similarity_Vec b a (eq_sym Hlen)).
    unfold cosine, dot. rewrite (dot_from_comm a b), (f_mul_comm (norm a) (norm b)), orb_comm.
    reflexivity.
  - rewrite (cosine_similarity_mismatch a b Hlen).
    rewrite (cosine_similarity_mismatch b a) by congruence.
    split; reflexivity.
Qed.

End CosineFacts.

(** A binary64 vector of zeros of either sign has magnitude zero. *)
Lemma zero_vector_norm (v : list float) :
  Forall (fun x => x = 0%float \/ x = (-0)%float) v ->
  f_eqb (norm v) f_zero = true.
Proof.
  intros Hv. unfold norm, dot.
  assert (Hd : dot_from f_zero v v = 0%float).
  { induction Hv as [|x v [-> | ->] _ IH]; simpl; [reflexivity | exact IH | exact IH]. }
  rewrite Hd. reflexivity.
Qed.

(** *** Exact arithmetic *)

Local Open Scope R_scope.

Lemma dot_from_acc (a b : list R) (acc : R) : dot_from acc a b = acc + dot a b.
Proof.
  unfold dot. revert b acc. induction a as [|x a IH]; intros [|y b] acc; simpl; try lra.
  rewrite (IH b (acc + x * y)), (IH b (0 + x * y)). lra.
Qed.

Lemma dot_cons (x y : R) (a b : list R) : dot (x :: a) (y :: b) = x * y + dot a b.
Proof. unfold dot at 1. simpl. rewrite dot_from_acc. lra. Qed.

Lemma dot_self_nonneg (a : list R) : 0 <= dot a a.
Proof.
  induction a as [|x a IH]; [unfold dot; simpl; lra|].
  rewrite dot_cons. nra.
Qed.

Lemma cauchy_schwarz (a b : list R) : dot a b * dot a b <= dot a a * dot b b.
Proof.
  revert b. induction a as [|x a IH]; intros [|y b].
  - unfold dot; simpl; lra.
  - pose proof (dot_self_nonneg (y :: b)). unfold dot at 1 2 3; simpl. lra.
  - pose proof (dot_self_nonneg (x :: a)). unfold dot at 1 2 4; simpl. lra.
  - rewrite !dot_cons. specialize (IH b).
    pose proof (dot_self_nonneg a) as HA. pose proof (dot_self_nonneg b) as HB.
    set (S := dot a b) in *. set (A := dot a a) in *. set (B := dot b b) in *.
    destruct (Req_dec A 0) as [HA0|HA0].
    + assert (S = 0) by nra. subst S. rewrite HA0 in *. nra.
    + assert (0 < A) by lra.
      assert (0 <= A * (A * (y * y) + B * (x * x) - 2 * (x * y * S))).
      { pose proof (Rle_0_sqr (A * y - S * x)) as Hsq. unfold Rsqr in Hsq. nra. }
      assert (0 <= A * (y * y) + B * (x * x) - 2 * (x * y * S)) by nra.
      nra.
Qed.

Lemma norm_nonneg (a : list R) : 0 <= norm a.
Proof. apply sqrt_pos. Qed.

Lemma norm_sqr (a : list R) : norm a * norm a = dot a a.
Proof. apply sqrt_sqrt, dot_self_nonneg. Qed.

(** A real vector has magnitude zero exactly when all its entries are zero. *)
Lemma norm_zero_iff (a : list R) : norm a = 0 <-> Forall (fun x => x = 0) a.
Proof.
  split.
  - intros Hn. assert (Hd : dot a a = 0) by (rewrite <- norm_sqr, Hn; lra).
    clear Hn. induction a as [|x a IH]; [constructor|].
    rewrite dot_cons in Hd. pose proof (dot_self_nonneg a).
    constructor; [nra | apply IH; nra].
  - intros Ha. unfold norm.
    assert (Hd : dot a a = 0).
    { induction Ha as [|x a -> _ IH]; [reflexivity | rewrite dot_cons; lra]. }
    rewrite Hd. apply sqrt_0.
Qed.

Lemma abs_dot_le_norms (a b : list R) : Rabs (dot a b) <= norm a * norm b.
Proof.
  pose proof (cauchy_schwarz a b) as Hcs.
  rewrite <- (norm_sqr a), <- (norm_sqr b) in Hcs.
  pose proof (norm_nonneg a). pose proof (norm_nonneg b).
  assert (Hp : 0 <= norm a * norm b) by nra.
  destruct (Rle_dec (Rabs (dot a b)) (norm a * norm b)) as [|Hn]; [assumption|].
  exfalso. apply Rnot_le_lt in Hn.
  assert (Hsq : Rabs (dot a b) * Rabs (dot a b) = dot a b * dot a b).
  { unfold Rabs. destruct (Rcase_abs (dot a b)); lra. }
  nra.
Qed.

Local Close Scope R_scope.

(** C5. For every pair of embedding vectors (of one length) of which at least
    one has zero magnitude, [cosine_similarity] returns exactly [0.0]: it
    returns from the guard, raises nothing, and the division is not reached.
    The magnitude is the one the code computes and tests,
    [np.linalg.norm(v) == 0]; the statement holds in binary64 and in exact
    arithmetic alike. *)
Theorem cosine_similarity_zero_magnitude {F : Type} {SF : Scalar F} (vec1 vec2 : list F) :
  length vec1 = length vec2 ->
  f_eqb (norm vec1) f_zero = true \/ f_eqb (norm vec2) f_zero = true ->
  cosine_similarity (Vec vec1) (Vec vec2) = Ok f_zero.
Proof.
  intros Hlen Hzero. rewrite (cosine_similarity_Vec vec1 vec2 Hlen). unfold cosine.
  destruct Hzero as [-> | ->]; [reflexivity | rewrite orb_true_r; reflexivity].
Qed.

Lemma cosine_similarity_zero_magnitude_witness :
  length [0%float; (-0)%float] = length [3%float; 4%float] /\
  f_eqb (norm [0%float; (-0)%float]) f_zero = true /\
  cosine_similarity (Vec [0%float; (-0)%float]) (Vec [3%float; 4%float]) = Ok 0%float.
Proof.
  split; [reflexivity | split; [reflexivity |]].
  apply (cosine_similarity_zero_magnitude (SF := binary64)); [reflexivity | left; reflexivity].
Defined.

(** C7. For every pair of binary64 vectors [a] and [b],
    [cosine_similarity(a, b)] and [cosine_similarity(b, a)] return the same
    score; when the lengths differ, [np.dot] refuses both orders with a
    [ValueError]. *)
Theorem cosine_similarity_symmetric (a b : list float) :
  match cosine_similarity (Vec a) (Vec b), cosine_similarity (Vec b) (Vec a) with
  | Ok s, Ok s' => s = s'
  | Raise e, Raise e' => exn_cls e = ValueError /\ exn_cls e' = ValueError
  | _, _ => False
  end.
Proof. apply cosine_similarity_comm. exact float_mul_comm. Qed.

(** The same in exact arithmetic. *)
Lemma cosine_similarity_symmetric_exact (a b : list R) :
  length a = length b ->
  cosine_similarity (Vec a) (Vec b) = cosine_similarity (Vec b) (Vec a).
Proof.
  intros Hlen. pose proof (cosine_similarity_comm (F := R) Rmult_comm a b) as Hc.
  rewrite (cosine_similarity_Vec a b Hlen), (cosine_similarity_Vec b a (eq_sym Hlen)) in *.
  congruence.
Qed.

(** C6, as stated, fails in binary64: the vector (1, 1, 1) has squared norm
    3, and [sqrt(3) * sqrt(3)] rounds to the float just below 3, so the score
    of the vector with itself is the float just above 1. *)
Lemma cosine_similarity_above_one :
  cosine_similarity (Vec [1%float; 1%float; 1%float]) (Vec [1%float; 1%float; 1%float])
    = Ok 0x1.0000000000001p+0%float
  /\ f_ltb 1%float 0x1.0000000000001p+0%float = true.
Proof. split; reflexivity. Qed.

(** C6, amended. In exact arithmetic, the score of every pair of vectors of
    one length lies in the closed interval from -1 to 1: by the
    Cauchy-Schwarz inequality when both norms are nonzero, and by the guarded
    0 otherwise. *)
Theorem cosine_similarity_range_exact (a b : list R) :
  length a = length b ->
  exists s : R, cosine_similarity (Vec a) (Vec b) = Ok s /\ (-1 <= s <= 1)%R.
Proof.
  intros Hlen. rewrite (cosine_similarity_Vec a b Hlen). eexists; split; [reflexivity|].
  unfold cosine. cbn [f_eqb f_zero f_div f_mul reals].
  destruct (bool_decide (norm a = 0%R)) eqn:Ha; cbn [orb]; [lra|].
  destruct (bool_decide (norm b = 0%R)) eqn:Hb; [lra|].
  apply bool_decide_eq_false in Ha, Hb.
  pose proof (norm_nonneg a). pose proof (norm_nonneg b).
  pose proof (abs_dot_le_norms a b) as Hcs.
  assert (Hpos : (0 < norm a * norm b)%R) by (apply Rmult_lt_0_compat; lra).
  assert (Hb2 : (- (norm a * norm b) <= dot a b <= norm a * norm b)%R).
  { revert Hcs. unfold Rabs. destruct (Rcase_abs (dot a b)); lra. }
  split.
  - apply Rmult_le_reg_r with (r := (norm a * norm b)%R); [assumption|].
    unfold Rdiv. rewrite Rmult_assoc, Rinv_l by lra. lra.
  - apply Rmult_le_reg_r with (r := (norm a * norm b)%R); [assumption|].
    unfold Rdiv. rewrite Rmult_assoc, Rinv_l by lra. lra.
Qed.

Lemma cosine_similarity_range_exact_witness :
  exists s : R, cosine_similarity (Vec [1%R; 2%R]) (Vec [3%R; (-4)%R]) = Ok s /\ (-1 <= s <= 1)%R.
Proof. apply (cosine_similarity_range_exact [1%R; 2%R] [3%R; (-4)%R]). reflexivity. Defined.

(** C8, as stated, fails in binary64: the vector (1, 2) has squared norm 5
    and a nonzero norm, and [sqrt(5) * sqrt(5)] rounds to the float just above
    5, so the score of the vector with itself is 0.9999999999999998. *)
Lemma cosine_similarity_self_below_one :
  f_eqb (norm [1%float; 2%float]) f_zero = false
  /\ cosine_similarity (Vec [1%float; 2%float]) (Vec [1%float; 2%float])
       = Ok 0x1.ffffffffffffep-1%float
  /\ f_eqb 0x1.ffffffffffffep-1%float 1%float = false.
Proof. repeat split; reflexivity. Qed.

(** C8, amended. In exact arithmetic, for every vector with nonzero norm the
    score of the vector with itself is exactly 1. *)
Theorem cosine_similarity_self_exact (v : list R) :
  norm v <> 0%R ->
  cosine_similarity (Vec v) (Vec v) = Ok 1%R.
Proof.
  intros Hn. rewrite (cosine_similarity_Vec v v eq_refl).
  unfold cosine. cbn [f_eqb f_zero f_div f_mul reals].
  rewrite bool_decide_false by assumption. cbn [orb]. f_equal.
  rewrite <- (norm_sqr v). unfold Rdiv. apply Rinv_r.
  apply Rmult_integral_contrapositive_currified; assumption.
Qed.

Lemma cosine_similarity_self_exact_witness :
  norm [3%R; 4%R] <> 0%R /\ cosine_similarity (Vec [3%R; 4%R]) (Vec [3%R; 4%R]) = Ok 1%R.
Proof.
  assert (Hn : norm [3%R; 4%R] <> 0%R).
  { intros Hz. apply norm_zero_iff in Hz. inversion Hz as [|? ? H3 _]. lra. }
  split; [exact Hn | exact (cosine_similarity_self_exact [3%R; 4%R] Hn)].
Defined.

(** ** The scan of [task_a9] *)

Section LoopFacts.

Context {A S : Type}.

Lemma for_each_app (xs ys : list A) (body : A -> S -> result S) (st : S) :
  for_each (xs ++ ys) body st = (st' <-! for_each xs body st; for_each ys body st').
Proof.
  revert st. induction xs as [|x xs IH]; intros st; simpl; [reflexivity|].
  destruct (body x st) as [st'|e]; simpl; [apply IH | reflexivity].
Qed.

(** A loop whose body raises nothing on the items it meets is a fold. *)
Lemma for_each_pure (xs : list A) (body : A -> S -> result S) (g : S -> A -> S) (st : S) :
  (forall x st, In x xs -> body x st = Ok (g st x)) ->
  for_each xs body st = Ok (fold_left g xs st).
Proof.
  revert st. induction xs as [|x xs IH]; intros st Hb; simpl; [reflexivity|].
  rewrite (Hb x st) by (left; reflexivity). simpl.
  apply IH. intros y st' Hy. apply Hb. right. exact Hy.
Qed.

End LoopFacts.

(** Two nested loops visit the pairs of [flat_map] in order. *)
Lemma for_each_nested {B S : Type} (xs : list nat) (inner : nat -> list B)
  (body : nat -> B -> S -> result S) (st : S) :
  for_each xs (fun i st => for_each (inner i) (fun j st => body i j st) st) st =
  for_each (flat_map (fun i => map (pair i) (inner i)) xs) (fun p st => body p.1 p.2 st) st.
Proof.
  revert st. induction xs as [|i xs IH]; intros st; simpl; [reflexivity|].
  rewrite for_each_app.
  assert (Hin : forall l st, for_each (map (pair i) l) (fun p st => body p.1 p.2 st) st
                             = for_each l (fun j st => body i j st) st).
  { induction l as [|j l IHl]; intros st0; simpl; [reflexivity|].
    destruct (body i j st0); simpl; [apply IHl | reflexivity]. }
  rewrite Hin. destruct (for_each (inner i) _ st); simpl; [apply IH | reflexivity].
Qed.

Lemma in_range (a b k : nat) : In k (range a b) <-> (a <= k < b)%nat.
Proof. unfold range. rewrite in_seq. lia. Qed.

Lemma in_scan_pairs (n k l : nat) : In (k, l) (scan_pairs n) <-> (k < l < n)%nat.
Proof.
  unfold scan_pairs. rewrite in_flat_map. split.
  - intros (i & Hi & Hp). apply in_map_iff in Hp as (j & Hj & Hjr).
    inversion Hj; subst. apply in_range in Hi, Hjr. lia.
  - intros Hkl. exists k. split; [apply in_range; lia|].
    apply in_map_iff. exists l. split; [reflexivity | apply in_range; lia].
Qed.

(** The scan visits each unordered pair once: C(n, 2) of them. *)
Lemma length_scan_pairs (n : nat) : (2 * length (scan_pairs n) = n * (n - 1))%nat.
Proof.
  unfold scan_pairs, range. rewrite Nat.sub_0_r.
  assert (Hgen : forall m a, (a + m = n)%nat ->
            (2 * length (flat_map (fun i => map (pair i) (seq (i + 1) (n - (i + 1)))) (seq a m))
             = m * (m - 1))%nat).
  { induction m as [|m IH]; intros a Ha; simpl; [reflexivity|].
    rewrite length_app, length_map, length_seq.
    specialize (IH (Datatypes.S a) ltac:(lia)). nia. }
  apply (Hgen n 0%nat). lia.
Qed.

Lemma rows_sorted (n m a : nat) :
  StronglySorted lex_lt (flat_map (fun i => map (pair i) (range (i + 1) n)) (seq a m)).
Proof.
  revert a. induction m as [|m IH]; intros a; simpl; [constructor|].
  assert (Hrow : forall b c, StronglySorted lex_lt (map (pair a) (seq b c))).
  { intros b c. revert b. induction c as [|c IHc]; intros b; simpl; constructor; [apply IHc|].
    apply List.Forall_forall. intros [i j] Hij. apply in_map_iff in Hij as (j' & Hj' & Hin).
    inversion Hj'; subst. apply in_seq in Hin. right. simpl. lia. }
  assert (Hlater : forall p, In p (flat_map (fun i => map (pair i) (range (i + 1) n))
                                     (seq (Datatypes.S a) m)) -> (a < p.1)%nat).
  { intros [i j] Hp. apply in_flat_map in Hp as (i' & Hi' & Hp).
    apply in_map_iff in Hp as (j' & Hj' & _). inversion Hj'; subst.
    apply in_seq in Hi'. simpl. lia. }
  specialize (IH (Datatypes.S a)).
  revert Hlater IH.
  generalize (flat_map (fun i => map (pair i) (range (i + 1) n)) (seq (Datatypes.S a) m)) as rest.
  intros rest Hlater IH. unfold range. specialize (Hrow (a + 1)%nat (n - (a + 1))%nat).
  assert (Hfst : Forall (fun p => p.1 = a) (map (pair a) (seq (a + 1) (n - (a + 1))))).
  { apply List.Forall_forall. intros p Hp. apply in_map_iff in Hp as (j & <- & _). reflexivity. }
  revert Hrow Hfst. generalize (map (pair a) (seq (a + 1) (n - (a + 1)))) as row.
  induction row as [|p row IHrow]; intros Hrow Hfst; simpl; [exact IH|].
  inversion Hrow; subst. inversion Hfst; subst.
  constructor; [apply IHrow; assumption|].
  apply Forall_app. split; [assumption|].
  apply List.Forall_forall. intros q Hq. left. specialize (Hlater q Hq). lia.
Qed.

(** The scan visits the pairs in increasing lexicographic order. *)
Lemma scan_pairs_sorted (n : nat) : StronglySorted lex_lt (scan_pairs n).
Proof. apply rows_sorted. Qed.

Lemma lex_lt_irrefl (p : nat * nat) : ~ lex_lt p p.
Proof. unfold lex_lt. lia. Qed.

(** No pair is visited twice. *)
Lemma scan_pairs_nodup (n : nat) : NoDup (scan_pairs n).
Proof.
  pose proof (scan_pairs_sorted n) as Hs.
  induction Hs as [|p l _ IH Hall]; constructor; [|exact IH].
  rewrite list_elem_of_In. intros Hin. rewrite List.Forall_forall in Hall.
  exact (lex_lt_irrefl p (Hall p Hin)).
Qed.

Lemma StronglySorted_after {A : Type} (R : A -> A -> Prop) (xs1 xs2 : list A) (p : A) :
  StronglySorted R (xs1 ++ p :: xs2) -> Forall (R p) xs2.
Proof.
  induction xs1 as [|x xs1 IH]; simpl; intros Hs; inversion Hs; subst; [assumption | auto].
Qed.

Section ScanFacts.

Context {F : Type} {SF : Scalar F} {SO : ScalarOrder F}.

(** The invariant of the scan. After any prefix [xs] of the pairs, no pair
    met so far scores above the running maximum; and either nothing was
    recorded and no score met exceeds -1.0, or the recorded pair [p] scores
    above -1.0, holds the maximum, and no earlier pair equals its score. *)
Lemma keep_best_spec (f : nat * nat -> F) (xs : list (nat * nat)) :
  (forall x, In x xs -> f_ltb (fold_left (keep_best f) xs scan_init).1 (f x) = false) /\
  ((fold_left (keep_best f) xs scan_init = scan_init /\
    forall x, In x xs -> f_ltb f_neg_one (f x) = false) \/
   (exists xs1 p xs2,
      xs = xs1 ++ p :: xs2 /\
      fold_left (keep_best f) xs scan_init = (f p, (Some p.1, Some p.2)) /\
      f_ltb f_neg_one (f p) = true /\
      forall x, In x xs1 -> f_eqb (f x) (f p) = false)).
Proof.
  induction xs as [|y ys IH] using rev_ind.
  - split; [intros x []|]. left. split; [reflexivity | intros x []].
  - rewrite fold_left_app. simpl.
    set (st := fold_left (keep_best f) ys scan_init) in *.
    destruct IH as [Hmax Hcase].
    assert (Hstep : keep_best f st y
                    = if f_ltb st.1 (f y) then (f y, (Some y.1, Some y.2)) else st)
      by reflexivity.
    rewrite Hstep. clear Hstep.
    destruct (f_ltb st.1 (f y)) eqn:Hy.
    + assert (Hnew : forall x, In x ys -> f_ltb (f y) (f x) = false).
      { intros x Hx. destruct (f_ltb (f y) (f x)) eqn:Hyx; [|reflexivity].
        pose proof (Hmax x Hx) as Hc. rewrite (f_ltb_trans _ _ _ Hy Hyx) in Hc. discriminate Hc. }
      split.
      * intros x Hx. apply in_app_iff in Hx as [Hx | [<- | []]]; simpl;
          [apply Hnew; assumption | apply f_ltb_irrefl].
      * right. exists ys, y, []. split; [reflexivity|]. split; [reflexivity|]. split.
        -- destruct Hcase as [[Hst _] | (xs1 & p & xs2 & _ & Hst & Hp & _)].
           ++ rewrite Hst in Hy. exact Hy.
           ++ rewrite Hst in Hy. simpl in Hy. exact (f_ltb_trans _ _ _ Hp Hy).
        -- intros x Hx. destruct (f_eqb (f x) (f y)) eqn:Hxy; [|reflexivity].
           pose proof (Hmax x Hx) as Hc. rewrite (f_eqb_ltb _ _ _ Hxy Hy) in Hc. discriminate Hc.
    + split.
      * intros x Hx. apply in_app_iff in Hx as [Hx | [<- | []]]; [apply Hmax; assumption | exact Hy].
      * destruct Hcase as [[Hst Hlow] | (xs1 & p & xs2 & Hsplit & Hst & Hp & Htie)].
        -- left. split; [exact Hst|].
           intros x Hx. apply in_app_iff in Hx as [Hx | [<- | []]]; [apply Hlow; assumption|].
           rewrite Hst in Hy. exact Hy.
        -- right. exists xs1, p, (xs2 ++ [y]). rewrite Hsplit, <- app_assoc. simpl.
           split; [reflexivity|]. split; [exact Hst|]. split; assumption.
Qed.

(** On vectors of one length, one step of the scan raises nothing. *)
Lemma scan_step_vectors (vecs : list (list F)) (d : nat) (k l : nat) (st : scan_state) :
  Forall (fun v => length v = d) vecs ->
  (k < length vecs)%nat -> (l < length vecs)%nat ->
  scan_step (map Vec vecs) k l st = Ok (keep_best (fun p => score vecs p.1 p.2) st (k, l)).
Proof.
  intros Hd Hk Hl. unfold scan_step, index.
  destruct (lookup_lt_is_Some_2 vecs k Hk) as [vk Hvk].
  destruct (lookup_lt_is_Some_2 vecs l Hl) as [vl Hvl].
  change (map Vec vecs) with (Vec <$> vecs).
  rewrite !list_lookup_fmap, Hvk, Hvl. simpl.
  rewrite cosine_similarity_Vec; cycle 1.
  { rewrite Forall_lookup in Hd. rewrite (Hd _ _ Hvk), (Hd _ _ Hvl). reflexivity. }
  simpl. unfold keep_best, score. simpl.
  rewrite (nth_lookup_Some _ _ _ _ Hvk), (nth_lookup_Some _ _ _ _ Hvl).
  destruct (f_gtb (cosine vk vl) st.1); reflexivity.
Qed.

(** The two loops of the scan are one pass over [scan_pairs]. *)
Lemma scan_flat (embeddings : list (ndarray F)) (n : nat) :
  scan embeddings n =
  for_each (scan_pairs n) (fun p st => scan_step embeddings p.1 p.2 st) scan_init.
Proof. unfold scan, scan_pairs. apply for_each_nested. Qed.

Lemma scan_vectors (vecs : list (list F)) (d : nat) :
  Forall (fun v => length v = d) vecs ->
  scan (map Vec vecs) (length vecs) =
  Ok (fold_left (keep_best (fun p => score vecs p.1 p.2)) (scan_pairs (length vecs)) scan_init).
Proof.
  intros Hd. rewrite scan_flat. apply for_each_pure.
  intros [k l] st Hin. apply in_scan_pairs in Hin. simpl.
  apply (scan_step_vectors vecs d); [assumption | lia | lia].
Qed.

(** If some pair scores above -1.0, the scan records the first pair, in scan
    order, among those no pair outscores. *)
Lemma scan_best (vecs : list (list F)) (d : nat) :
  Forall (fun v => length v = d) vecs ->
  (exists k l, (k < l < length vecs)%nat /\ f_ltb f_neg_one (score vecs k l) = true) ->
  exists i j,
    (i < j < length vecs)%nat /\
    scan (map Vec vecs) (length vecs) = Ok (score vecs i j, (Some i, Some j)) /\
    f_ltb f_neg_one (score vecs i j) = true /\
    (forall k l, (k < l < length vecs)%nat -> f_ltb (score vecs i j) (score vecs k l) = false) /\
    (forall k l, (k < l < length vecs)%nat ->
                 f_eqb (score vecs k l) (score vecs i j) = true -> lex_le (i, j) (k, l)).
Proof.
  intros Hd (k0 & l0 & Hkl0 & Habove). rewrite (scan_vectors vecs d Hd).
  set (f := fun p : nat * nat => score vecs p.1 p.2).
  destruct (keep_best_spec f (scan_pairs (length vecs))) as [Hmax Hcase].
  destruct Hcase as [[_ Hlow] | (xs1 & [i j] & xs2 & Hsplit & Hst & Hp & Htie)].
  - specialize (Hlow (k0, l0) ltac:(apply in_scan_pairs; exact Hkl0)).
    unfold f in Hlow. simpl in Hlow. congruence.
  - assert (Hij : In (i, j) (scan_pairs (length vecs))).
    { rewrite Hsplit. apply in_app_iff. right. left. reflexivity. }
    apply in_scan_pairs in Hij.
    exists i, j. split; [exact Hij|]. split; [rewrite Hst; reflexivity|].
    split; [exact Hp|]. split.
    + intros k l Hkl. rewrite Hst in Hmax.
      apply (Hmax (k, l)). apply in_scan_pairs. exact Hkl.
    + intros k l Hkl Heq.
      assert (Hin : In (k, l) (scan_pairs (length vecs))) by (apply in_scan_pairs; exact Hkl).
      rewrite Hsplit in Hin. apply in_app_iff in Hin as [Hin | [Hin | Hin]].
      * specialize (Htie (k, l) Hin). unfold f in Htie. simpl in Htie. congruence.
      * left. exact Hin.
      * right. pose proof (scan_pairs_sorted (length vecs)) as Hs. rewrite Hsplit in Hs.
        apply StronglySorted_after in Hs. rewrite List.Forall_forall in Hs. apply Hs, Hin.
Qed.

(** If no pair scores above -1.0, the scan records nothing. *)
Lemma scan_none (vecs : list (list F)) (d : nat) :
  Forall (fun v => length v = d) vecs ->
  (forall k l, (k < l < length vecs)%nat -> f_ltb f_neg_one (score vecs k l) = false) ->
  scan (map Vec vecs) (length vecs) = Ok scan_init.
Proof.
  intros Hd Hlow. rewrite (scan_vectors vecs d Hd). f_equal.
  set (f := fun p : nat * nat => score vecs p.1 p.2).
  destruct (keep_best_spec f (scan_pairs (length vecs))) as [_ Hcase].
  destruct Hcase as [[Hst _] | (xs1 & [i j] & xs2 & Hsplit & _ & Hp & _)]; [exact Hst|].
  assert (Hij : In (i, j) (scan_pairs (length vecs))).
  { rewrite Hsplit. apply in_app_iff. right. left. reflexivity. }
  apply in_scan_pairs in Hij. specialize (Hlow i j Hij). unfold f in Hp. simpl in Hp. congruence.
Qed.

End ScanFacts.

(** ** The handlers *)

Section TaskFacts.

Context {F : Type} {SF : Scalar F}.
Variable service : upstream F.
Variable G : globals.

Abbreviation input_file := "/data/comments.txt"%string.
Abbreviation output_file := "/data/comments-similar.txt"%string.

(** [get_embedding] touches neither the files nor the environment. *)
Lemma get_embedding_files (input : text) (w : World F) :
  files (get_embedding service G input w).2 = files w.
Proof.
  unfold get_embedding. destruct (py_not (AIPROXY_TOKEN G)); [reflexivity|].
  unfold bindM, client_post. simpl.
  destruct (service (sent w) _) as [e|e|status e [[e'|e']|data]|e]; try reflexivity;
    destruct (is_success status); reflexivity.
Qed.

Abbreviation fetch_body :=
  (fun (comment : text) (embeddings : list (ndarray F)) =>
     embedding <-- get_embedding service G comment;
     ret (embeddings ++ [embedding])).

Lemma for_eachM_cons {A S : Type} (x : A) (xs : list A) (body : A -> S -> M S) (st : S)
  (w : World F) :
  for_eachM (x :: xs) body st w =
  match body x st w with
  | (Ok st', w') => for_eachM xs body st' w'
  | (Raise e, w') => (Raise e, w')
  end.
Proof. reflexivity. Qed.

Lemma fetch_body_run (comment : text) (acc : list (ndarray F)) (w : World F) :
  fetch_body comment acc w =
  match get_embedding service G comment w with
  | (Ok embedding, w') => (Ok (acc ++ [embedding]), w')
  | (Raise e, w') => (Raise e, w')
  end.
Proof. reflexivity. Qed.

Lemma fetch_loop_files (comments : list text) (acc : list (ndarray F)) (w : World F) :
  files (for_eachM comments fetch_body acc w).2 = files w.
Proof.
  revert acc w. induction comments as [|c cs IH]; intros acc w; [reflexivity|].
  rewrite for_eachM_cons, fetch_body_run.
  pose proof (get_embedding_files c w) as Hc.
  destruct (get_embedding service G c w) as [[emb|e] w1]; simpl in *; [|exact Hc].
  rewrite IH. exact Hc.
Qed.

Lemma fetch_embeddings_files (comments : list text) (w : World F) :
  files (fetch_embeddings service G comments w).2 = files w.
Proof. apply fetch_loop_files. Qed.

Lemma fetch_loop_length (comments : list text) (acc embs : list (ndarray F)) (w w' : World F) :
  for_eachM comments fetch_body acc w = (Ok embs, w') ->
  length embs = (length acc + length comments)%nat.
Proof.
  revert acc w. induction comments as [|c cs IH]; intros acc w.
  - simpl. unfold ret. intros [= <- _]. lia.
  - rewrite for_eachM_cons, fetch_body_run.
    destruct (get_embedding service G c w) as [[emb|e] w1]; [|discriminate].
    intros Hrest. apply IH in Hrest. rewrite length_app in Hrest. simpl in *. lia.
Qed.

(** One embedding is fetched per comment. *)
Lemma fetch_embeddings_length (comments : list text) (embs : list (ndarray F)) (w w' : World F) :
  fetch_embeddings service G comments w = (Ok embs, w') -> length embs = length comments.
Proof. intros Hf. apply fetch_loop_length in Hf. exact Hf. Qed.

Lemma fetch_loop_app (cs1 cs2 : list text) (acc : list (ndarray F)) (w : World F) :
  for_eachM (cs1 ++ cs2) fetch_body acc w =
  match for_eachM cs1 fetch_body acc w with
  | (Ok acc', w') => for_eachM cs2 fetch_body acc' w'
  | (Raise e, w') => (Raise e, w')
  end.
Proof.
  revert acc w. induction cs1 as [|c cs IH]; intros acc w; [reflexivity|].
  rewrite <- app_comm_cons, !for_eachM_cons, fetch_body_run.
  destruct (get_embedding service G c w) as [[emb|e] w1]; [apply IH | reflexivity].
Qed.

(** The loop stops at the first fetch that fails, with that failure. *)
Lemma fetch_embeddings_fails_at (comments : list text) (k : nat) (comment : text)
  (embs : list (ndarray F)) (w w_k w' : World F) (e : exn) :
  comments !! k = Some comment ->
  fetch_embeddings service G (take k comments) w = (Ok embs, w_k) ->
  get_embedding service G comment w_k = (Raise e, w') ->
  fetch_embeddings service G comments w = (Raise e, w').
Proof.
  intros Hk Hpre Hfail. unfold fetch_embeddings in *.
  rewrite <- (take_drop_middle comments k comment Hk).
  rewrite fetch_loop_app, Hpre, for_eachM_cons, fetch_body_run, Hfail. reflexivity.
Qed.

Local Opaque fetch_embeddings scan.

(** The runs of [task_a9] past the reading of the comments. *)
Lemma task_a9_fetch_fails (w w' : World F) (content : text) (e : exn) :
  files w !! input_file = Some (File (Some content)) ->
  (2 <= length (read_comments content))%nat ->
  fetch_embeddings service G (read_comments content) w = (Raise e, w') ->
  task_a9 service G w
  = (Raise (Exn RuntimeError ("Error generating embeddings: " ++ exn_str e)%string), w').
Proof.
  intros Hfile Hlen Hfetch. unfold task_a9, bindM, os_path_isfile, try_except, read_text.
  rewrite Hfile. simpl. rewrite Hfile. simpl. unfold ret.
  destruct (Nat.ltb_spec (length (read_comments content)) 2) as [Hlt|_]; [lia|].
  rewrite Hfetch. reflexivity.
Qed.

Lemma task_a9_not_found (w w' : World F) (content : text) (embeddings : list (ndarray F)) :
  files w !! input_file = Some (File (Some content)) ->
  (2 <= length (read_comments content))%nat ->
  fetch_embeddings service G (read_comments content) w = (Ok embeddings, w') ->
  scan embeddings (length (read_comments content)) = Ok scan_init ->
  task_a9 service G w
  = (Raise (Exn RuntimeError "Failed to find a similar pair of comments."), w').
Proof.
  intros Hfile Hlen Hfetch Hscan. unfold task_a9, bindM, os_path_isfile, try_except, read_text.
  rewrite Hfile. simpl. rewrite Hfile. simpl. unfold ret.
  destruct (Nat.ltb_spec (length (read_comments content)) 2) as [Hlt|_]; [lia|].
  rewrite Hfetch. unfold lift. rewrite Hscan. reflexivity.
Qed.

Lemma task_a9_found (w w' : World F) (content : text) (embeddings : list (ndarray F))
  (max_sim : F) (i j : nat) (comment_i comment_j : text) :
  files w !! input_file = Some (File (Some content)) ->
  (2 <= length (read_comments content))%nat ->
  fetch_embeddings service G (read_comments content) w = (Ok embeddings, w') ->
  scan embeddings (length (read_comments content)) = Ok (max_sim, (Some i, Some j)) ->
  read_comments content !! i = Some comment_i ->
  read_comments content !! j = Some comment_j ->
  files w !! output_file <> Some Directory ->
  task_a9 service G w
  = (Ok (output_file, max_sim), written output_file (comment_i ++ [10%N] ++ comment_j) w').
Proof.
  intros Hfile Hlen Hfetch Hscan Hi Hj Hout.
  unfold task_a9, bindM, os_path_isfile, try_except, read_text.
  rewrite Hfile. simpl. rewrite Hfile. simpl. unfold ret.
  destruct (Nat.ltb_spec (length (read_comments content)) 2) as [Hlt|_]; [lia|].
  rewrite Hfetch. unfold lift. rewrite Hscan. unfold index. rewrite Hi, Hj.
  unfold write_text, ret, written.
  pose proof (fetch_embeddings_files (read_comments content) w) as Hfiles.
  rewrite Hfetch in Hfiles. simpl in Hfiles. rewrite Hfiles.
  destruct (files w !! output_file) as [[|c]|] eqn:Ho; [congruence | reflexivity | reflexivity].
Qed.

Local Transparent fetch_embeddings scan.

End TaskFacts.

(** C3. For every comments file that yields fewer than two items, [task_a9]
    fails with the [RuntimeError] "Not enough comments to compute
    similarity." (the specification's InsufficientInputError) and returns no
    result; the world is left as it was: no request is sent and no file is
    written. *)
Theorem task_a9_insufficient_input {F : Type} {SF : Scalar F}
  (service : upstream F) (G : globals) (w : World F) (content : text) :
  files w !! "/data/comments.txt"%string = Some (File (Some content)) ->
  (length (read_comments content) < 2)%nat ->
  task_a9 service G w
  = (Raise (Exn RuntimeError "Not enough comments to compute similarity."), w).
Proof.
  intros Hfile Hlen. unfold task_a9, bindM, os_path_isfile, try_except, read_text.
  rewrite Hfile. simpl. rewrite Hfile. simpl. unfold ret.
  destruct (Nat.ltb_spec (length (read_comments content)) 2) as [_|Hge]; [reflexivity | lia].
Qed.

Lemma task_a9_insufficient_input_witness :
  read_comments (Sample.text_of "  only one comment  ") = [Sample.text_of "only one comment"] /\
  task_a9 Sample.three (load_module Sample.environment) (Sample.world "  only one comment  ")
  = (Raise (Exn RuntimeError "Not enough comments to compute similarity."),
     Sample.world "  only one comment  ").
Proof.
  split; [reflexivity|].
  apply (task_a9_insufficient_input (SF := binary64))
    with (content := Sample.text_of "  only one comment  ");
    [reflexivity | vm_compute; lia].
Defined.

(** C4. If the fetch of the embedding of any one item fails (the items before
    it having been fetched), [task_a9] as a whole fails with the
    [RuntimeError] "Error generating embeddings: ..." (the specification's
    EmbeddingServiceError) carrying the failure's text; no pair is returned,
    and no file is touched: the output file is as it was. *)
Theorem task_a9_embedding_failure {F : Type} {SF : Scalar F}
  (service : upstream F) (G : globals) (w w_k w' : World F) (content : text)
  (k : nat) (comment : text) (fetched : list (ndarray F)) (e : exn) :
  files w !! "/data/comments.txt"%string = Some (File (Some content)) ->
  (2 <= length (read_comments content))%nat ->
  read_comments content !! k = Some comment ->
  fetch_embeddings service G (take k (read_comments content)) w = (Ok fetched, w_k) ->
  get_embedding service G comment w_k = (Raise e, w') ->
  task_a9 service G w
  = (Raise (Exn RuntimeError ("Error generating embeddings: " ++ exn_str e)%string), w')
  /\ files w' = files w.
Proof.
  intros Hfile Hlen Hk Hpre Hfail.
  pose proof (fetch_embeddings_fails_at service G _ _ _ _ _ _ _ _ Hk Hpre Hfail) as Hfetch.
  split.
  - apply (task_a9_fetch_fails service G w w' content e Hfile Hlen Hfetch).
  - pose proof (fetch_embeddings_files service G (read_comments content) w) as Hfiles.
    rewrite Hfetch in Hfiles. exact Hfiles.
Qed.

Lemma task_a9_embedding_failure_witness :
  let w := Sample.world "east
north" in
  let G := load_module Sample.environment in
  (task_a9 Sample.second_fails G w).1
  = Raise (Exn RuntimeError
             "Error generating embeddings: API Error: Server error '500 Internal Server Error'")
  /\ files (task_a9 Sample.second_fails G w).2 = files w.
Proof.
  intros w G.
  destruct (task_a9_embedding_failure (SF := binary64) Sample.second_fails G w
              (fetch_embeddings Sample.second_fails G [Sample.text_of "east"] w).2
              (get_embedding Sample.second_fails G (Sample.text_of "north")
                 (fetch_embeddings Sample.second_fails G [Sample.text_of "east"] w).2).2
              (Sample.text_of "east
north")
              1 (Sample.text_of "north") [Vec [1%float; 0%float]]
              (Exn RuntimeError "API Error: Server error '500 Internal Server Error'"))
    as [Hrun Hfiles];
    [reflexivity | vm_compute; lia | reflexivity | reflexivity | reflexivity | ].
  rewrite Hrun. split; [reflexivity | exact Hfiles].
Defined.

(** C10. There is an input of two items whose embeddings are nonzero vectors,
    exact negatives of each other, so that the one pairwise score is exactly
    -1.0, on which [task_a9] raises "Failed to find a similar pair of
    comments." and returns no pair: the running maximum starts at -1.0 and a
    score replaces it only when strictly greater. *)
Theorem task_a9_opposite_vectors :
  exists (service : upstream float) (w : World float) (a b : text) (u v : list float),
    (exists content, files w !! "/data/comments.txt"%string = Some (File (Some content))
                     /\ read_comments content = [a; b]) /\
    (fetch_embeddings service (load_module (environ w)) [a; b] w).1 = Ok [Vec u; Vec v] /\
    v = map PrimFloat.opp u /\
    f_eqb (norm u) f_zero = false /\ f_eqb (norm v) f_zero = false /\
    cosine_similarity (Vec u) (Vec v) = Ok f_neg_one /\
    f_gtb (f_neg_one : float) f_neg_one = false /\
    (task_a9 service (load_module (environ w)) w).1
    = Raise (Exn RuntimeError "Failed to find a similar pair of comments.").
Proof.
  exists Sample.opposite, (Sample.world "up
down"), (Sample.text_of "up"), (Sample.text_of "down"), [1%float], [(-1)%float].
  split; [eexists; split; reflexivity|].
  repeat split; reflexivity.
Qed.

(** The general fact behind C10: whenever no pair scores strictly above
    -1.0, nothing replaces the initial maximum and [task_a9] raises. *)
Lemma task_a9_no_score_above_initial {F : Type} {SF : Scalar F} {SO : ScalarOrder F}
  (service : upstream F) (G : globals) (w w' : World F) (content : text)
  (vecs : list (list F)) (d : nat) :
  files w !! "/data/comments.txt"%string = Some (File (Some content)) ->
  (2 <= length (read_comments content))%nat ->
  fetch_embeddings service G (read_comments content) w = (Ok (map Vec vecs), w') ->
  Forall (fun v => length v = d) vecs ->
  (forall k l, (k < l < length vecs)%nat -> f_ltb f_neg_one (score vecs k l) = false) ->
  task_a9 service G w
  = (Raise (Exn RuntimeError "Failed to find a similar pair of comments."), w').
Proof.
  intros Hfile Hlen Hfetch Hd Hlow.
  pose proof (fetch_embeddings_length service G _ _ _ _ Hfetch) as Hn.
  rewrite length_map in Hn.
  apply (task_a9_not_found service G w w' content (map Vec vecs) Hfile Hlen Hfetch).
  rewrite <- Hn. apply (scan_none vecs d Hd Hlow).
Qed.

(** C1, as stated, fails: two items whose embeddings are (1) and (-1) are a
    list of at least two items, their one pair scores -1.0, and [task_a9]
    raises instead of returning that pair. *)
Lemma task_a9_two_items_no_pair :
  let w := Sample.world "up
down" in
  read_comments (Sample.text_of "up
down") = [Sample.text_of "up"; Sample.text_of "down"]
  /\ (fetch_embeddings Sample.opposite (load_module Sample.environment)
        [Sample.text_of "up"; Sample.text_of "down"] w).1
     = Ok [Vec [1%float]; Vec [(-1)%float]]
  /\ cosine_similarity (Vec [1%float]) (Vec [(-1)%float]) = Ok (-1)%float
  /\ (task_a9 Sample.opposite (load_module Sample.environment) w).1
     = Raise (Exn RuntimeError "Failed to find a similar pair of comments.").
Proof. repeat split; reflexivity. Qed.

(** C1, amended. For every list of at least two items whose embeddings are
    vectors of one length and of which at least one pair scores strictly
    above -1.0 (the output path not being a directory), [task_a9] scans the
    C(N, 2) pairs [k < l < N], each once, and returns a pair [i < j]: it
    writes the two items at [i] and [j] and reports their score. No pair
    scores strictly higher, and every pair with an equal score comes at or
    after [(i, j)] in lexicographic order, since the running maximum is
    replaced only by a strictly greater score. *)
Theorem task_a9_most_similar {F : Type} {SF : Scalar F} {SO : ScalarOrder F}
  (service : upstream F) (G : globals) (w w' : World F) (content : text)
  (vecs : list (list F)) (d : nat) :
  files w !! "/data/comments.txt"%string = Some (File (Some content)) ->
  (2 <= length (read_comments content))%nat ->
  fetch_embeddings service G (read_comments content) w = (Ok (map Vec vecs), w') ->
  Forall (fun v => length v = d) vecs ->
  (exists k l, (k < l < length vecs)%nat /\ f_ltb f_neg_one (score vecs k l) = true) ->
  files w !! "/data/comments-similar.txt"%string <> Some Directory ->
  let n := length (read_comments content) in
  (scan (map Vec vecs) n
   = for_each (scan_pairs n) (fun p st => scan_step (map Vec vecs) p.1 p.2 st) scan_init
   /\ (forall k l, In (k, l) (scan_pairs n) <-> (k < l < n)%nat)
   /\ NoDup (scan_pairs n)
   /\ (2 * length (scan_pairs n) = n * (n - 1))%nat)
  /\ exists (i j : nat) (comment_i comment_j : text),
       (i < j < n)%nat
       /\ read_comments content !! i = Some comment_i
       /\ read_comments content !! j = Some comment_j
       /\ (forall k l, (k < l < n)%nat -> f_ltb (score vecs i j) (score vecs k l) = false)
       /\ (forall k l, (k < l < n)%nat ->
                       f_eqb (score vecs k l) (score vecs i j) = true -> lex_le (i, j) (k, l))
       /\ task_a9 service G w
          = (Ok ("/data/comments-similar.txt"%string, score vecs i j),
             written "/data/comments-similar.txt" (comment_i ++ [10%N] ++ comment_j) w').
Proof.
  intros Hfile Hlen Hfetch Hd Habove Hout n.
  pose proof (fetch_embeddings_length service G _ _ _ _ Hfetch) as Hn.
  rewrite length_map in Hn. fold n in Hn.
  split.
  { split; [apply scan_flat|]. split; [apply in_scan_pairs|].
    split; [|apply length_scan_pairs].
    apply scan_pairs_nodup. }
  destruct (scan_best vecs d Hd Habove) as (i & j & Hij & Hscan & _ & Hmax & Htie).
  rewrite Hn in Hij, Hscan, Hmax, Htie.
  destruct (lookup_lt_is_Some_2 (read_comments content) i ltac:(fold n; lia)) as [ci Hci].
  destruct (lookup_lt_is_Some_2 (read_comments content) j ltac:(fold n; lia)) as [cj Hcj].
  exists i, j, ci, cj. repeat (split; [assumption|]).
  apply (task_a9_found service G w w' content (map Vec vecs) _ i j ci cj
           Hfile Hlen Hfetch Hscan Hci Hcj Hout).
Qed.

Lemma task_a9_most_similar_witness :
  let w := Sample.world "east
north-east
north" in
  let G := load_module Sample.environment in
  let w' := (fetch_embeddings Sample.three G
               (read_comments (Sample.text_of "east
north-east
north")) w).2 in
  f_eqb (score Sample.three_vectors 0 1) (score Sample.three_vectors 1 2) = true /\
  exists (i j : nat) (comment_i comment_j : text),
    (i < j < 3)%nat
    /\ [Sample.text_of "east"; Sample.text_of "north-east"; Sample.text_of "north"] !! i
       = Some comment_i
    /\ [Sample.text_of "east"; Sample.text_of "north-east"; Sample.text_of "north"] !! j
       = Some comment_j
    /\ (forall k l, (k < l < 3)%nat ->
          f_ltb (score Sample.three_vectors i j) (score Sample.three_vectors k l) = false)
    /\ (forall k l, (k < l < 3)%nat ->
          f_eqb (score Sample.three_vectors k l) (score Sample.three_vectors i j) = true ->
          lex_le (i, j) (k, l))
    /\ task_a9 Sample.three G w
       = (Ok ("/data/comments-similar.txt"%string, score Sample.three_vectors i j),
          written "/data/comments-similar.txt" (comment_i ++ [10%N] ++ comment_j) w').
Proof.
  intros w G w'. split; [reflexivity|].
  refine (proj2 (task_a9_most_similar (SF := binary64) Sample.three G w w'
                   (Sample.text_of "east
north-east
north") Sample.three_vectors 2 _ _ _ _ _ _)).
  - reflexivity.
  - vm_compute. lia.
  - reflexivity.
  - repeat constructor.
  - exists 0%nat, 1%nat. split; [simpl; lia | reflexivity].
  - discriminate.
Defined.

(** C9. If the token variable is absent from the environment (when the module
    is loaded, for [get_embedding], which tests the module's constant; at the
    call, for [query_gpt], which reads the environment), both fail at once
    with a [ValueError] naming the variable (the specification's configuration
    error), and the world is as it was: no request has been sent. *)
Theorem missing_token_fails_fast {F : Type} {SF : Scalar F}
  (service : upstream F) (env_at_import : gmap string string) (w : World F)
  (input user_input : text) (tools : list (json F)) :
  env_at_import !! "AIPROXY_TOKEN"%string = None ->
  environ w !! "AIPROXY_TOKEN"%string = None ->
  get_embedding service (load_module env_at_import) input w
  = (Raise (Exn ValueError "AIPROXY_TOKEN environment variable is not set."), w)
  /\ query_gpt service user_input tools w
     = (Raise (Exn ValueError "Environment variable AIPROXY_TOKEN not set."), w)
  /\ sent (get_embedding service (load_module env_at_import) input w).2 = sent w
  /\ sent (query_gpt service user_input tools w).2 = sent w.
Proof.
  intros Himport Hcall.
  assert (Hg : get_embedding service (load_module env_at_import) input w
               = (Raise (Exn ValueError "AIPROXY_TOKEN environment variable is not set."), w)).
  { unfold get_embedding, load_module. simpl. rewrite Himport. reflexivity. }
  assert (Hq : query_gpt service user_input tools w
               = (Raise (Exn ValueError "Environment variable AIPROXY_TOKEN not set."), w)).
  { unfold query_gpt, bindM, os_getenv. rewrite Hcall. reflexivity. }
  rewrite Hg, Hq. repeat split; reflexivity.
Qed.

Lemma missing_token_fails_fast_witness :
  let w : World float := {| files := ∅; environ := ∅; sent := [] |} in
  get_embedding Sample.chat (load_module ∅) (Sample.text_of "east") w
  = (Raise (Exn ValueError "AIPROXY_TOKEN environment variable is not set."), w)
  /\ query_gpt Sample.chat (Sample.text_of "count the Wednesdays") [] w
     = (Raise (Exn ValueError "Environment variable AIPROXY_TOKEN not set."), w)
  /\ sent (get_embedding Sample.chat (load_module ∅) (Sample.text_of "east") w).2 = []
  /\ sent (query_gpt Sample.chat (Sample.text_of "count the Wednesdays") [] w).2 = [].
Proof.
  intros w.
  apply (missing_token_fails_fast (SF := binary64) Sample.chat ∅ w
           (Sample.text_of "east") (Sample.text_of "count the Wednesdays") []);
    reflexivity.
Defined.

(** ** The chat path *)

Section ChatFacts.

Context {F : Type} {SF : Scalar F}.

Abbreviation missing_choices :=
  (Exn ValueError "Unexpected response format: Missing or empty 'choices' in LLM response.").

(** A JSON object without [choices], or whose [choices] is not a list or is
    the empty list, is refused. *)
Lemma message_of_response_malformed (fields : list (string * json F)) :
  assoc "choices" fields = None \/
  (exists v, assoc "choices" fields = Some v /\ isinstance_list v = false) \/
  assoc "choices" fields = Some (JArr []) ->
  message_of_response (JObj fields) = Raise missing_choices.
Proof.
  unfold message_of_response, py_or, py_contains, py_getitem.
  intros [Hc | [(v & Hc & Hv) | Hc]]; rewrite Hc; simpl.
  - reflexivity.
  - rewrite ?bool_decide_true by (eexists; reflexivity). simpl. rewrite Hv. reflexivity.
  - rewrite ?bool_decide_true by (eexists; reflexivity). reflexivity.
Qed.

(** A first choice that is an object without [message] is refused with the
    [KeyError] of the lookup. *)
Lemma message_of_response_no_message
  (fields first : list (string * json F)) (rest : list (json F)) :
  assoc "choices" fields = Some (JArr (JObj first :: rest)) ->
  assoc "message" first = None ->
  message_of_response (JObj fields) = Raise (Exn KeyError "'message'").
Proof.
  intros Hc Hm. unfold message_of_response, py_or, py_contains, py_getitem.
  rewrite Hc. simpl. rewrite ?bool_decide_true by (eexists; reflexivity). simpl.
  rewrite Hm. reflexivity.
Qed.

(** A message is returned only from an object whose [choices] is a nonempty
    list, and it is the [message] of the first choice. *)
Lemma message_of_response_ok (response_data message : json F) :
  message_of_response response_data = Ok message ->
  exists fields first rest,
    response_data = JObj fields /\
    assoc "choices" fields = Some (JArr (first :: rest)) /\
    py_getitem first "message" = Ok message.
Proof.
  unfold message_of_response, py_or.
  destruct response_data as [ | b | x | s | l | fields]; simpl; try discriminate.
  - destruct (is_substring "choices" s); simpl; discriminate.
  - destruct (existsb _ l); simpl; discriminate.
  - destruct (assoc "choices" fields) as [v|] eqn:Hc; simpl.
    + rewrite ?bool_decide_true by (eexists; reflexivity). simpl.
      destruct v as [ | b | x | s | [|first rest] | fs]; simpl; try discriminate.
      intros Hm. exists fields, first, rest. repeat split; assumption.
    + rewrite ?bool_decide_false by (intros [? ?]; discriminate). simpl. discriminate.
Qed.

Variable service : upstream F.

Lemma query_gpt_run (user_input : text) (tools : list (json F)) (w : World F) (key : string) :
  environ w !! "AIPROXY_TOKEN"%string = Some key -> key <> ""%string ->
  (query_gpt service user_input tools w).1 =
  match service (sent w) (chat_request key user_input tools) with
  | TimeoutException e => Raise (Exn RuntimeError ("LLM API Timeout: " ++ e)%string)
  | RequestError e => Raise (Exn RuntimeError ("LLM API Request Failed: " ++ e)%string)
  | Response status_code e body =>
      if is_success status_code then
        match body with
        | inl (JSONDecodeError e') =>
            Raise (Exn RuntimeError ("LLM API Response Decode Error: " ++ e')%string)
        | inl (UnicodeDecodeError e') =>
            Raise (Exn RuntimeError ("An unexpected error occurred: " ++ e')%string)
        | inr response_data =>
            unexpected "An unexpected error occurred: " (message_of_response response_data)
        end
      else Raise (Exn RuntimeError ("LLM API Error: " ++ e)%string)
  | NotSent e => Raise (Exn RuntimeError ("An unexpected error occurred: " ++ e)%string)
  end.
Proof.
  intros Henv Hkey. unfold query_gpt, bindM, os_getenv, client_post. rewrite Henv.
  assert (Hnot : py_not (Some key) = false) by (destruct key; [congruence | reflexivity]).
  rewrite Hnot. unfold chat_request, bearer. simpl.
  destruct (service (sent w) _) as [e|e|status e [[e'|e']|data]|e]; try reflexivity;
    destruct (is_success status); reflexivity.
Qed.

End ChatFacts.

(** C2. [query_gpt] tells the upstream failures apart. A response whose
    status is not 2xx (500, say) raises "LLM API Error: ..." from the
    [HTTPStatusError] handler (the specification's UpstreamUnavailableError).
    A 2xx response whose JSON object has no [choices], or whose [choices] is
    not a list or is empty, raises "An unexpected error occurred: Unexpected
    response format: Missing or empty 'choices' in LLM response." (the
    specification's UpstreamProtocolError), a different exception. So do, each
    with its own text: a body that is not JSON, which the [JSONDecodeError]
    handler reports as "LLM API Response Decode Error: ..."; a body whose
    bytes do not decode, whose [UnicodeDecodeError] only the last handler
    catches, as "An unexpected error occurred: ..."; and a first choice
    without [message]. A message is returned only from a 2xx response whose
    [choices] is a nonempty list, as the [message] of its first choice: no
    malformed response is taken for an answer. *)
Theorem query_gpt_upstream_errors {F : Type} {SF : Scalar F}
  (service : upstream F) (user_input : text) (tools : list (json F)) (w : World F)
  (key : string) :
  environ w !! "AIPROXY_TOKEN"%string = Some key ->
  key <> ""%string ->
  let answer := service (sent w) (chat_request key user_input tools) in
  let outcome := (query_gpt service user_input tools w).1 in
  (forall status e body,
      answer = Response status e body -> is_success status = false ->
      outcome = Raise (Exn RuntimeError ("LLM API Error: " ++ e)%string))
  /\ (forall status e fields,
        answer = Response status e (inr (JObj fields)) -> is_success status = true ->
        assoc "choices" fields = None \/
        (exists v, assoc "choices" fields = Some v /\ isinstance_list v = false) \/
        assoc "choices" fields = Some (JArr []) ->
        outcome = Raise (Exn RuntimeError
          "An unexpected error occurred: Unexpected response format: Missing or empty 'choices' in LLM response."))
  /\ (forall status e e',
        answer = Response status e (inl (JSONDecodeError e')) -> is_success status = true ->
        outcome = Raise (Exn RuntimeError ("LLM API Response Decode Error: " ++ e')%string))
  /\ (forall status e e',
        answer = Response status e (inl (UnicodeDecodeError e')) -> is_success status = true ->
        outcome = Raise (Exn RuntimeError ("An unexpected error occurred: " ++ e')%string))
  /\ (forall status e fields first rest,
        answer = Response status e (inr (JObj fields)) -> is_success status = true ->
        assoc "choices" fields = Some (JArr (JObj first :: rest)) ->
        assoc "message" first = None ->
        outcome = Raise (Exn RuntimeError "An unexpected error occurred: 'message'"))
  /\ (forall e : string,
        Exn RuntimeError ("LLM API Error: " ++ e)%string
        <> Exn RuntimeError
             "An unexpected error occurred: Unexpected response format: Missing or empty 'choices' in LLM response.")
  /\ (forall message,
        outcome = Ok message ->
        exists status e fields first rest,
          answer = Response status e (inr (JObj fields)) /\
          is_success status = true /\
          assoc "choices" fields = Some (JArr (first :: rest)) /\
          py_getitem first "message" = Ok message).
Proof.
  intros Henv Hkey answer outcome.
  assert (Hrun := query_gpt_run service user_input tools w key Henv Hkey).
  fold answer outcome in Hrun.
  repeat split.
  - intros status e body Ha Hs. rewrite Hrun, Ha, Hs. reflexivity.
  - intros status e fields Ha Hs Hc. rewrite Hrun, Ha, Hs.
    rewrite (message_of_response_malformed fields Hc). reflexivity.
  - intros status e e' Ha Hs. rewrite Hrun, Ha, Hs. reflexivity.
  - intros status e e' Ha Hs. rewrite Hrun, Ha, Hs. reflexivity.
  - intros status e fields first rest Ha Hs Hc Hm. rewrite Hrun, Ha, Hs.
    rewrite (message_of_response_no_message fields first rest Hc Hm). reflexivity.
  - intros e. discriminate.
  - intros message Hok. rewrite Hrun in Hok.
    destruct answer as [e|e|status e [[e'|e']|data]|e]; try discriminate.
    + destruct (is_success status); discriminate.
    + destruct (is_success status); discriminate.
    + destruct (is_success status) eqn:Hs; [|discriminate].
      destruct (message_of_response data) as [m|e0] eqn:Hm; [|discriminate].
      injection Hok as ->.
      destruct (message_of_response_ok data message Hm) as (fields & first & rest & -> & Hc & Hg).
      exists status, e, fields, first, rest. repeat split; assumption.
Qed.

Lemma query_gpt_upstream_errors_witness :
  let w := Sample.world "" in
  (query_gpt Sample.chat (Sample.text_of "down") [] w).1
  = Raise (Exn RuntimeError "LLM API Error: Server error '500 Internal Server Error'")
  /\ (query_gpt Sample.chat (Sample.text_of "count the Wednesdays") [] w).1
     = Raise (Exn RuntimeError
          "An unexpected error occurred: Unexpected response format: Missing or empty 'choices' in LLM response.").
Proof.
  intros w. split.
  - refine (proj1 (query_gpt_upstream_errors (SF := binary64) Sample.chat
                     (Sample.text_of "down") [] w "secret" _ _) 500%Z _
                  (inl (JSONDecodeError "Expecting value: line 1 column 1 (char 0)")) _ _);
      [reflexivity | discriminate | reflexivity | reflexivity].
  - refine (proj1 (proj2 (query_gpt_upstream_errors (SF := binary64) Sample.chat
                     (Sample.text_of "count the Wednesdays") [] w "secret" _ _))
              200%Z ""%string [] _ _ _);
      [reflexivity | discriminate | reflexivity | reflexivity | left; reflexivity].
Defined.

(** * Further properties of the code *)

(** ** Reading the comments *)

Lemma lstrip_head (s : text) (c : N) : head (lstrip s) = Some c -> is_space c = false.
Proof.
  induction s as [|a s IH]; simpl; [discriminate|].
  destruct (is_space a) eqn:Ha; [exact IH|]. simpl. intros [= <-]. exact Ha.
Qed.

Lemma lstrip_incl (s : text) (x : N) : In x (lstrip s) -> In x s.
Proof.
  induction s as [|a s IH]; simpl; [tauto|].
  destruct (is_space a); [right; apply IH; assumption | tauto].
Qed.

Lemma lstrip_snoc (s : text) (c : N) :
  is_space c = false -> lstrip (s ++ [c]) = lstrip s ++ [c].
Proof.
  intros Hc. induction s as [|a s IH]; simpl; [rewrite Hc; reflexivity|].
  destruct (is_space a); [exact IH | reflexivity].
Qed.

Lemma lstrip_snoc_space (s : text) (c : N) :
  is_space c = true -> lstrip (s ++ [c]) = match lstrip s with [] => [] | t => t ++ [c] end.
Proof.
  intros Hc. induction s as [|a s IH]; simpl; [rewrite Hc; reflexivity|].
  destruct (is_space a); [exact IH | reflexivity].
Qed.

Lemma rstrip_snoc_space (s : text) (c : N) : is_space c = true -> rstrip (s ++ [c]) = rstrip s.
Proof. intros Hc. unfold rstrip. rewrite rev_app_distr. simpl. rewrite Hc. reflexivity. Qed.

Lemma rstrip_incl (s : text) (x : N) : In x (rstrip s) -> In x s.
Proof.
  unfold rstrip. intros Hx. apply in_rev in Hx. apply lstrip_incl in Hx.
  apply in_rev. exact Hx.
Qed.

Lemma last_rev_head {A : Type} (l : list A) : last (rev l) = head l.
Proof. destruct l as [|a l]; simpl; [reflexivity | apply last_snoc]. Qed.

Lemma rstrip_last (s : text) (c : N) : last (rstrip s) = Some c -> is_space c = false.
Proof. unfold rstrip. rewrite last_rev_head. apply lstrip_head. Qed.

Lemma rstrip_head (s : text) (c : N) :
  head s = Some c -> is_space c = false -> head (rstrip s) = Some c.
Proof.
  destruct s as [|a s]; simpl; [discriminate|]. intros [= ->] Hc.
  unfold rstrip. simpl. rewrite (lstrip_snoc _ _ Hc), rev_app_distr. reflexivity.
Qed.

Lemma strip_incl (s : text) (x : N) : In x (strip s) -> In x s.
Proof. intros Hx. apply lstrip_incl, rstrip_incl, Hx. Qed.

Lemma strip_head (s : text) (c : N) : head (strip s) = Some c -> is_space c = false.
Proof.
  unfold strip. destruct (lstrip s) as [|a t] eqn:Hl; [discriminate|].
  assert (Ha : is_space a = false) by (apply (lstrip_head s); rewrite Hl; reflexivity).
  rewrite (rstrip_head (a :: t) a eq_refl Ha). intros [= <-]. exact Ha.
Qed.

Lemma strip_last (s : text) (c : N) : last (strip s) = Some c -> is_space c = false.
Proof. apply rstrip_last. Qed.

(** A trailing white-space character does not change what [strip] gives. *)
Lemma strip_snoc_space (s : text) (c : N) : is_space c = true -> strip (s ++ [c]) = strip s.
Proof.
  intros Hc. unfold strip. rewrite (lstrip_snoc_space _ _ Hc).
  destruct (lstrip s) as [|a t]; [reflexivity|].
  apply (rstrip_snoc_space (a :: t) c Hc).
Qed.

Lemma universal_newlines_no_cr (s : text) : ~ In 13%N (universal_newlines s).
Proof.
  assert (Hn : forall n s, (length s <= n)%nat -> ~ In 13%N (universal_newlines s)).
  { clear s. induction n as [|n IH]; intros [|c s] Hlen; simpl in *; try tauto; try lia.
    destruct (N.eqb_spec c 13) as [->|Hc].
    - intros [Hx | Hx]; [discriminate|].
      destruct s as [|d s]; [exact Hx|].
      destruct (d =? 10)%N; revert Hx; apply IH; simpl in *; lia.
    - intros [Hx | Hx]; [congruence|]. revert Hx. apply IH. lia. }
  apply (Hn (length s)). lia.
Qed.

Lemma universal_newlines_incl (s : text) (x : N) :
  In x (universal_newlines s) -> x = 10%N \/ In x s.
Proof.
  assert (Hn : forall n s, (length s <= n)%nat ->
                 In x (universal_newlines s) -> x = 10%N \/ In x s).
  { clear s. induction n as [|n IH]; intros [|c s] Hlen; simpl in *; try tauto; try lia.
    destruct (c =? 13)%N.
    - intros [Hx | Hx]; [left; congruence|].
      destruct s as [|d s]; [destruct Hx|].
      destruct (d =? 10)%N.
      + destruct (IH s ltac:(simpl in *; lia) Hx) as [?|?]; [tauto | right; right; right; assumption].
      + destruct (IH (d :: s) ltac:(simpl in *; lia) Hx) as [?|?]; tauto.
    - intros [Hx | Hx]; [tauto|].
      destruct (IH s ltac:(lia) Hx) as [?|?]; tauto. }
  apply (Hn (length s)). lia.
Qed.

(** A line of a file is a body without line feed, followed by at most one. *)
Lemma lines_from_spec (s line cur : text) :
  ~ In 10%N cur ->
  In line (lines_from cur s) ->
  exists body, ~ In 10%N body /\ (line = body ++ [10%N] \/ line = body)
               /\ forall x, In x body -> In x cur \/ In x s.
Proof.
  revert cur. induction s as [|c s IH]; intros cur Hcur; simpl.
  - destruct cur; simpl; [tauto|]. intros [<- | []]. exists (n :: cur). tauto.
  - destruct (N.eqb_spec c 10) as [->|Hc].
    + intros [<- | Hin].
      * exists cur. tauto.
      * destruct (IH [] ltac:(simpl; tauto) Hin) as (body & Hb & Hl & Hx).
        exists body. split; [exact Hb|]. split; [exact Hl|].
        intros x Hxb. destruct (Hx x Hxb) as [[]|?]. right. right. assumption.
    + intros Hin.
      destruct (IH (cur ++ [c]) ltac:(rewrite in_app_iff; simpl; intuition congruence) Hin)
        as (body & Hb & Hl & Hx).
      exists body. split; [exact Hb|]. split; [exact Hl|].
      intros x Hxb. destruct (Hx x Hxb) as [Hxc|?]; [|tauto].
      apply in_app_iff in Hxc as [?|[<-|[]]]; tauto.
Qed.

(** X1. Every comment [task_a9] reads is nonempty, begins and ends with a
    character that is not white space, and holds no line break: neither a
    line feed nor a carriage return. *)
Theorem read_comments_clean (content comment : text) :
  In comment (read_comments content) ->
  comment <> []
  /\ (forall c, head comment = Some c -> is_space c = false)
  /\ (forall c, last comment = Some c -> is_space c = false)
  /\ ~ In 10%N comment /\ ~ In 13%N comment.
Proof.
  unfold read_comments. intros Hin. apply in_map_iff in Hin as (line & <- & Hline).
  apply list_elem_of_In, list_elem_of_filter in Hline as [Htruthy Hline].
  apply list_elem_of_In in Hline.
  split; [destruct (strip line); [contradiction | discriminate]|].
  split; [intros c; apply strip_head|]. split; [intros c; apply strip_last|].
  unfold file_lines in Hline.
  destruct (lines_from_spec _ _ [] ltac:(simpl; tauto) Hline) as (body & Hb & Hl & Hx).
  assert (Hstrip : strip line = strip body).
  { destruct Hl as [-> | ->]; [apply strip_snoc_space; reflexivity | reflexivity]. }
  rewrite Hstrip. split; intros Hc; apply strip_incl in Hc; [tauto|].
  destruct (Hx _ Hc) as [[]|Hu]. exact (universal_newlines_no_cr content Hu).
Qed.

Lemma read_comments_clean_witness :
  In (Sample.text_of "north-east") (read_comments (Sample.text_of "  east
	north-east  
north"))
  /\ ~ In 10%N (Sample.text_of "north-east").
Proof.
  assert (Hin : In (Sample.text_of "north-east") (read_comments (Sample.text_of "  east
	north-east  
north"))) by (vm_compute; tauto).
  split; [exact Hin|].
  exact (proj1 (proj2 (proj2 (proj2 (read_comments_clean _ _ Hin))))).
Defined.

(** ** Every run of [task_a9] *)

Section TaskRuns.

Context {F : Type} {SF : Scalar F}.
Variable service : upstream F.
Variable G : globals.

Abbreviation input_file := "/data/comments.txt"%string.
Abbreviation output_file := "/data/comments-similar.txt"%string.

Local Opaque fetch_embeddings scan.

(** What a successful run went through. *)
Lemma task_a9_ok_inv (w w' : World F) (r : report) :
  task_a9 service G w = (Ok r, w') ->
  exists content embeddings w1 max_sim i j comment_i comment_j,
    files w !! input_file = Some (File (Some content))
    /\ (2 <= length (read_comments content))%nat
    /\ fetch_embeddings service G (read_comments content) w = (Ok embeddings, w1)
    /\ scan embeddings (length (read_comments content)) = Ok (max_sim, (Some i, Some j))
    /\ read_comments content !! i = Some comment_i
    /\ read_comments content !! j = Some comment_j
    /\ r = (output_file, max_sim)
    /\ w' = written output_file (comment_i ++ [10%N] ++ comment_j) w1.
Proof.
  unfold task_a9, bindM, os_path_isfile, try_except, read_text, raise.
  destruct (files w !! input_file) as [[|[content|]]|] eqn:Hfile; simpl;
    rewrite ?Hfile; simpl; try discriminate.
  unfold ret.
  destruct (Nat.ltb_spec (length (read_comments content)) 2) as [Hlt|Hge]; [discriminate|].
  destruct (fetch_embeddings service G (read_comments content) w) as [[embeddings|e] w1] eqn:Hfetch;
    [|discriminate].
  unfold lift.
  destruct (scan embeddings (length (read_comments content)))
    as [[max_sim [[i|] [j|]]]|e] eqn:Hscan; try discriminate.
  unfold index.
  destruct (read_comments content !! i) as [ci|] eqn:Hi; [|discriminate]. simpl.
  destruct (read_comments content !! j) as [cj|] eqn:Hj; [|discriminate]. simpl.
  unfold write_text.
  destruct (files w1 !! output_file) as [[|c]|] eqn:Hout; simpl; try discriminate;
    intros [= <- <-]; exists content, embeddings, w1, max_sim, i, j, ci, cj;
    repeat split; assumption.
Qed.

(** Whatever [task_a9] raises, it raises with the files as they were. *)
Lemma task_a9_raise_files (w w' : World F) (e : exn) :
  task_a9 service G w = (Raise e, w') -> files w' = files w.
Proof.
  unfold task_a9, bindM, os_path_isfile, try_except, read_text, raise.
  destruct (files w !! input_file) as [[|[content|]]|] eqn:Hfile; simpl;
    rewrite ?Hfile; simpl; try (intros [= _ <-]; reflexivity).
  unfold ret.
  destruct (Nat.ltb_spec (length (read_comments content)) 2) as [Hlt|Hge];
    [intros [= _ <-]; reflexivity|].
  pose proof (fetch_embeddings_files service G (read_comments content) w) as Hfiles.
  destruct (fetch_embeddings service G (read_comments content) w) as [[embeddings|e0] w1];
    simpl in Hfiles; [|intros [= _ <-]; exact Hfiles].
  unfold lift.
  destruct (scan embeddings (length (read_comments content)))
    as [[max_sim [[i|] [j|]]]|e1]; try (intros [= _ <-]; exact Hfiles).
  unfold index.
  destruct (read_comments content !! i) as [ci|]; simpl; [|intros [= _ <-]; exact Hfiles].
  destruct (read_comments content !! j) as [cj|]; simpl; [|intros [= _ <-]; exact Hfiles].
  unfold write_text.
  destruct (files w1 !! output_file) as [[|c]|]; simpl; try discriminate.
  intros [= _ <-]; exact Hfiles.
Qed.

Local Transparent fetch_embeddings scan.

(** [get_embedding] sends one request when the module holds a token and the
    request can be built, and none otherwise. *)
Lemma get_embedding_sent (input : text) (w : World F) :
  sent (get_embedding service G input w).2 =
  if py_not (AIPROXY_TOKEN G) then sent w
  else sent (posted service (embedding_request G input) w).
Proof.
  unfold get_embedding. destruct (py_not (AIPROXY_TOKEN G)); [reflexivity|].
  unfold bindM, client_post, posted, embedding_request. simpl.
  destruct (service (sent w) _) as [e|e|status e [[e'|e']|data]|e]; try reflexivity;
    destruct (is_success status); reflexivity.
Qed.

(** A fetch that returns has sent its request. *)
Lemma get_embedding_sent_ok (input : text) (w w' : World F) (v : ndarray F) :
  get_embedding service G input w = (Ok v, w') ->
  sent w' = embedding_request G input :: sent w.
Proof.
  unfold get_embedding. destruct (py_not (AIPROXY_TOKEN G)); [discriminate|].
  unfold bindM, client_post, embedding_request. simpl.
  destruct (service (sent w) _) as [e|e|status e [[e'|e']|data]|e]; try discriminate;
    destruct (is_success status); try discriminate.
  unfold lift. intros [= _ <-]. reflexivity.
Qed.

Lemma get_embedding_environ (input : text) (w : World F) :
  environ (get_embedding service G input w).2 = environ w.
Proof.
  unfold get_embedding. destruct (py_not (AIPROXY_TOKEN G)); [reflexivity|].
  unfold bindM, client_post. simpl.
  destruct (service (sent w) _) as [e|e|status e [[e'|e']|data]|e]; try reflexivity;
    destruct (is_success status); reflexivity.
Qed.

Lemma fetch_loop_sent (comments : list text) (acc embs : list (ndarray F)) (w w' : World F) :
  py_not (AIPROXY_TOKEN G) = false ->
  for_eachM comments
    (fun comment embeddings =>
       embedding <-- get_embedding service G comment;
       ret (embeddings ++ [embedding])) acc w = (Ok embs, w') ->
  sent w' = rev (map (embedding_request G) comments) ++ sent w.
Proof.
  intros Htoken. revert acc w. induction comments as [|c cs IH]; intros acc w.
  - simpl. unfold ret. intros [= _ <-]. reflexivity.
  - rewrite for_eachM_cons, fetch_body_run.
    destruct (get_embedding service G c w) as [[emb|e] w1] eqn:Hc; [|discriminate].
    apply get_embedding_sent_ok in Hc.
    intros Hrest. apply IH in Hrest. rewrite Hrest, Hc. simpl.
    rewrite <- app_assoc. reflexivity.
Qed.

End TaskRuns.

(** What the scan holds after any pairs, when no step raised: nothing, or a
    pair it met, with the score of that pair, which is above -1.0. *)
Lemma scan_loop_inv {F : Type} {SF : Scalar F} {SO : ScalarOrder F}
  (embeddings : list (ndarray F)) (xs : list (nat * nat)) (st : scan_state) :
  for_each xs (fun p st => scan_step embeddings p.1 p.2 st) scan_init = Ok st ->
  st = scan_init \/
  exists i j vec_i vec_j,
    In (i, j) xs /\ embeddings !! i = Some vec_i /\ embeddings !! j = Some vec_j
    /\ cosine_similarity vec_i vec_j = Ok st.1
    /\ st.2 = (Some i, Some j)
    /\ f_ltb f_neg_one st.1 = true.
Proof.
  revert st. induction xs as [|[i j] xs IH] using rev_ind; intros st.
  - simpl. intros [= <-]. left. reflexivity.
  - rewrite for_each_app.
    destruct (for_each xs _ scan_init) as [st0|e]; simpl; [|discriminate].
    specialize (IH st0 eq_refl).
    unfold scan_step, index.
    destruct (embeddings !! i) as [vi|] eqn:Hi; simpl; [|discriminate].
    destruct (embeddings !! j) as [vj|] eqn:Hj; simpl; [|discriminate].
    destruct (cosine_similarity vi vj) as [sim|e] eqn:Hcos; simpl; [|discriminate].
    unfold f_gtb. destruct (f_ltb st0.1 sim) eqn:Hgt; simpl; intros [= <-].
    + right. exists i, j, vi, vj. simpl.
      split; [apply in_app_iff; right; left; reflexivity|].
      repeat (split; [assumption || reflexivity|]).
      destruct IH as [-> | (i0 & j0 & _ & _ & _ & _ & _ & _ & _ & Hlow)];
        [exact Hgt | exact (f_ltb_trans _ _ _ Hlow Hgt)].
    + destruct IH as [-> | (i0 & j0 & v0 & v1 & Hin & IH)]; [left; reflexivity|].
      right. exists i0, j0, v0, v1. split; [apply in_app_iff; left; exact Hin | exact IH].
Qed.

(** X2. Whenever [task_a9] returns, it returns the output path and a score
    strictly above -1.0 (so never a NaN); there were at least two comments;
    the score is the cosine similarity of the embeddings fetched for two of
    them, at positions [i < j]; and the only file changed is the output file,
    which now holds those two comments, the earlier one first, with a line
    feed between them. *)
Theorem task_a9_success_sound {F : Type} {SF : Scalar F} {SO : ScalarOrder F}
  (service : upstream F) (G : globals) (w w' : World F) (path : string) (max_sim : F) :
  task_a9 service G w = (Ok (path, max_sim), w') ->
  path = "/data/comments-similar.txt"%string
  /\ f_ltb f_neg_one max_sim = true
  /\ exists content embeddings i j comment_i comment_j vec_i vec_j,
       files w !! "/data/comments.txt"%string = Some (File (Some content))
       /\ (fetch_embeddings service G (read_comments content) w).1 = Ok embeddings
       /\ (i < j < length (read_comments content))%nat
       /\ read_comments content !! i = Some comment_i
       /\ read_comments content !! j = Some comment_j
       /\ embeddings !! i = Some vec_i /\ embeddings !! j = Some vec_j
       /\ cosine_similarity vec_i vec_j = Ok max_sim
       /\ files w' = <["/data/comments-similar.txt"%string :=
                        File (Some (comment_i ++ [10%N] ++ comment_j))]> (files w).
Proof.
  intros Hrun.
  destruct (task_a9_ok_inv service G w w' _ Hrun)
    as (content & embeddings & w1 & m & i & j & ci & cj
        & Hfile & Hlen & Hfetch & Hscan & Hi & Hj & Hr & ->).
  injection Hr as -> ->. split; [reflexivity|].
  rewrite scan_flat in Hscan.
  destruct (scan_loop_inv embeddings _ _ Hscan)
    as [Hinit | (i0 & j0 & vi & vj & Hin & Hvi & Hvj & Hcos & Hpair & Hlow)];
    [discriminate|].
  simpl in Hpair, Hcos, Hlow. injection Hpair as <- <-.
  apply in_scan_pairs in Hin.
  split; [exact Hlow|].
  exists content, embeddings, i, j, ci, cj, vi, vj.
  rewrite Hfetch. repeat (split; [assumption || reflexivity || lia|]).
  simpl. pose proof (fetch_embeddings_files service G (read_comments content) w) as Hfiles.
  rewrite Hfetch in Hfiles. simpl in Hfiles. rewrite Hfiles. reflexivity.
Qed.

Lemma task_a9_success_sound_witness :
  let w := Sample.world "east
north-east
north" in
  let run := task_a9 Sample.three (load_module Sample.environment) w in
  run.1 = Ok ("/data/comments-similar.txt"%string, 0x1.6a09e667f3bccp-1%float)
  /\ f_ltb f_neg_one 0x1.6a09e667f3bccp-1%float = true
  /\ (files run.2 !! "/data/comments-similar.txt"%string
      = Some (File (Some (Sample.text_of "east
north-east")))).
Proof.
  intros w run.
  assert (Hrun : run = (Ok ("/data/comments-similar.txt"%string, 0x1.6a09e667f3bccp-1%float),
                        run.2)) by reflexivity.
  split; [rewrite Hrun; reflexivity|].
  split; [exact (proj1 (proj2 (task_a9_success_sound (SF := binary64) _ _ w run.2 _ _ Hrun)))|].
  reflexivity.
Defined.

(** X3. When the embeddings the service sends are one-dimensional float
    arrays, whatever [task_a9] raises (a missing or unreadable comments file,
    too few comments, a failed fetch, vectors of two lengths, no pair above
    -1.0, an output path that cannot be opened), it raises with every file as
    it was: the score is then a float, whose formatting in the message cannot
    fail once the output file is written. (An embedding of another shape, a
    nested list say, can make the score an array, and the formatting raise
    after the write: such runs are excluded.) *)
Theorem task_a9_failure_writes_nothing {F : Type} {SF : Scalar F}
  (service : upstream F) (G : globals) (w w' : World F) (e : exn) :
  (forall content embeddings w1,
      files w !! "/data/comments.txt"%string = Some (File (Some content)) ->
      fetch_embeddings service G (read_comments content) w = (Ok embeddings, w1) ->
      forallb is_vector embeddings = true) ->
  task_a9 service G w = (Raise e, w') -> files w' = files w.
Proof. intros _. apply task_a9_raise_files. Qed.

Lemma task_a9_failure_writes_nothing_witness :
  let w := Sample.world "up
down" in
  files (task_a9 Sample.opposite (load_module Sample.environment) w).2 = files w.
Proof.
  intros w.
  apply (task_a9_failure_writes_nothing (SF := binary64) Sample.opposite
           (load_module Sample.environment) w _
           (Exn RuntimeError "Failed to find a similar pair of comments.")).
  - intros content embeddings w1 Hfile Hfetch. injection Hfile as <-.
    vm_compute in Hfetch. injection Hfetch as <- _. reflexivity.
  - reflexivity.
Defined.

(** X4. A run of [task_a9] that returns has sent exactly one request per
    comment, in the order of the file and nothing else: each a POST to the
    embeddings URL with the bearer token and the model
    [text-embedding-3-small]. *)
Theorem task_a9_one_request_per_comment {F : Type} {SF : Scalar F}
  (service : upstream F) (G : globals) (w w' : World F) (r : report) :
  task_a9 service G w = (Ok r, w') ->
  exists content,
    files w !! "/data/comments.txt"%string = Some (File (Some content))
    /\ sent w' = rev (map (embedding_request G) (read_comments content)) ++ sent w.
Proof.
  intros Hrun.
  destruct (task_a9_ok_inv service G w w' _ Hrun)
    as (content & embeddings & w1 & m & i & j & ci & cj
        & Hfile & Hlen & Hfetch & Hscan & Hi & Hj & Hr & ->).
  exists content. split; [exact Hfile|]. simpl.
  destruct (py_not (AIPROXY_TOKEN G)) eqn:Htoken.
  - exfalso. destruct (read_comments content) as [|c cs]; [simpl in Hlen; lia|].
    unfold fetch_embeddings in Hfetch. rewrite for_eachM_cons, fetch_body_run in Hfetch.
    unfold get_embedding in Hfetch. rewrite Htoken in Hfetch. discriminate.
  - exact (fetch_loop_sent service G _ _ _ _ _ Htoken Hfetch).
Qed.

Lemma task_a9_one_request_per_comment_witness :
  let w := Sample.world "east
north-east
north" in
  let G := load_module Sample.environment in
  sent (task_a9 Sample.three G w).2
  = [embedding_request G (Sample.text_of "north");
     embedding_request G (Sample.text_of "north-east");
     embedding_request G (Sample.text_of "east")].
Proof.
  intros w G.
  assert (Hrun : task_a9 Sample.three G w
                 = (Ok ("/data/comments-similar.txt"%string, 0x1.6a09e667f3bccp-1%float),
                    (task_a9 Sample.three G w).2)) by reflexivity.
  destruct (task_a9_one_request_per_comment (SF := binary64) Sample.three G w _ _ Hrun)
    as (content & Hfile & Hsent).
  injection Hfile as <-. exact Hsent.
Defined.

(** X5. The fetch loop of [task_a9] stops at the first failure: when the
    fetch for the comment at position [k] fails (the module holding a token),
    the requests for the [k] comments before it have been sent, and after
    them the request for that comment, unless it could not be built, in which
    case it was not sent; none is sent for the comments after it. *)
Theorem task_a9_stops_at_first_failure {F : Type} {SF : Scalar F}
  (service : upstream F) (G : globals) (w w_k w' : World F) (content : text)
  (k : nat) (comment : text) (fetched : list (ndarray F)) (e : exn) :
  py_not (AIPROXY_TOKEN G) = false ->
  files w !! "/data/comments.txt"%string = Some (File (Some content)) ->
  (2 <= length (read_comments content))%nat ->
  read_comments content !! k = Some comment ->
  fetch_embeddings service G (take k (read_comments content)) w = (Ok fetched, w_k) ->
  get_embedding service G comment w_k = (Raise e, w') ->
  sent (task_a9 service G w).2
  = match service (sent w_k) (embedding_request G comment) with
    | NotSent _ => []
    | _ => [embedding_request G comment]
    end ++ rev (map (embedding_request G) (take k (read_comments content))) ++ sent w.
Proof.
  intros Htoken Hfile Hlen Hk Hpre Hfail.
  pose proof (fetch_embeddings_fails_at service G _ _ _ _ _ _ _ _ Hk Hpre Hfail) as Hfetch.
  rewrite (task_a9_fetch_fails service G w w' content e Hfile Hlen Hfetch). simpl.
  pose proof (get_embedding_sent service G comment w_k) as Hsent.
  rewrite Hfail, Htoken in Hsent. simpl in Hsent.
  rewrite Hsent. unfold posted.
  rewrite <- (fetch_loop_sent service G _ _ _ _ _ Htoken Hpre).
  destruct (service (sent w_k) (embedding_request G comment)); reflexivity.
Qed.

Lemma task_a9_stops_at_first_failure_witness :
  let w := Sample.world "north
east
north-east" in
  let G := load_module Sample.environment in
  sent (task_a9 Sample.second_fails G w).2 = [embedding_request G (Sample.text_of "north")].
Proof.
  intros w G.
  apply (task_a9_stops_at_first_failure (SF := binary64) Sample.second_fails G w w
           (get_embedding Sample.second_fails G (Sample.text_of "north") w).2
           (Sample.text_of "north
east
north-east") 0 (Sample.text_of "north") []
           (Exn RuntimeError "API Error: Server error '500 Internal Server Error'"));
    [reflexivity | reflexivity | vm_compute; lia | reflexivity | reflexivity | reflexivity].
Defined.

(** When some pair of the vectors differs in length, the scan raises what
    [np.dot] raises for the first such pair. *)
Lemma scan_loop_mismatch {F : Type} {SF : Scalar F}
  (vecs : list (list F)) (xs : list (nat * nat)) (st : scan_state) :
  (forall p, In p xs -> (p.1 < length vecs)%nat /\ (p.2 < length vecs)%nat) ->
  (exists p, In p xs /\ length (nth p.1 vecs []) <> length (nth p.2 vecs [])) ->
  exists n m, n <> m /\
    for_each xs (fun p st => scan_step (map Vec vecs) p.1 p.2 st) st
    = Raise (shapes_not_aligned n m).
Proof.
  revert st. induction xs as [|[i j] xs IH]; intros st Hrange (p & Hp & Hlen);
    [destruct Hp|].
  simpl. unfold scan_step at 1. unfold index.
  destruct (Hrange (i, j) ltac:(left; reflexivity)) as [Hi Hj]. simpl in Hi, Hj.
  destruct (lookup_lt_is_Some_2 vecs i Hi) as [vi Hvi].
  destruct (lookup_lt_is_Some_2 vecs j Hj) as [vj Hvj].
  change (map Vec vecs) with (Vec <$> vecs).
  rewrite !list_lookup_fmap, Hvi, Hvj. simpl.
  destruct (decide (length vi = length vj)) as [Heq|Hne].
  - rewrite (cosine_similarity_Vec vi vj Heq). simpl.
    destruct Hp as [<- | Hp].
    + simpl in Hlen. rewrite (nth_lookup_Some _ _ _ _ Hvi), (nth_lookup_Some _ _ _ _ Hvj) in Hlen.
      contradiction.
    + destruct (f_gtb (cosine vi vj) st.1);
        apply IH; try (intros q Hq; apply Hrange; right; exact Hq); exists p; split; assumption.
  - rewrite (cosine_similarity_mismatch vi vj Hne). simpl.
    exists (length vi), (length vj). split; [exact Hne | reflexivity].
Qed.

(** X6. If two of the fetched embeddings differ in length, [task_a9] raises
    the [ValueError] of [np.dot] ("shapes ... not aligned"), which no handler
    of [task_a9] catches or wraps: not one of the exceptions its docstring
    lists. No file is written. *)
Theorem task_a9_mismatched_embeddings {F : Type} {SF : Scalar F}
  (service : upstream F) (G : globals) (w w' : World F) (content : text)
  (vecs : list (list F)) (k l : nat) :
  files w !! "/data/comments.txt"%string = Some (File (Some content)) ->
  (2 <= length (read_comments content))%nat ->
  fetch_embeddings service G (read_comments content) w = (Ok (map Vec vecs), w') ->
  (k < l < length vecs)%nat ->
  length (nth k vecs []) <> length (nth l vecs []) ->
  exists n m, n <> m
    /\ task_a9 service G w = (Raise (shapes_not_aligned n m), w')
    /\ exn_cls (shapes_not_aligned n m) = ValueError
    /\ files w' = files w.
Proof.
  intros Hfile Hlen Hfetch Hkl Hne.
  pose proof (fetch_embeddings_length service G _ _ _ _ Hfetch) as Hn.
  rewrite length_map in Hn.
  destruct (scan_loop_mismatch vecs (scan_pairs (length vecs)) scan_init) as (n & m & Hnm & Hscan).
  { intros [i j] Hin. apply in_scan_pairs in Hin. simpl. lia. }
  { exists (k, l). split; [apply in_scan_pairs; exact Hkl | exact Hne]. }
  rewrite <- scan_flat, Hn in Hscan.
  assert (Hrun : task_a9 service G w = (Raise (shapes_not_aligned n m), w')).
  { unfold task_a9, bindM, os_path_isfile, try_except, read_text.
    rewrite Hfile. simpl. rewrite Hfile. simpl. unfold ret.
    destruct (Nat.ltb_spec (length (read_comments content)) 2) as [Hlt|_]; [lia|].
    rewrite Hfetch. unfold lift. rewrite Hscan. reflexivity. }
  exists n, m. split; [exact Hnm|]. split; [exact Hrun|]. split; [reflexivity|].
  exact (task_a9_raise_files service G w w' _ Hrun).
Qed.

Lemma task_a9_mismatched_embeddings_witness :
  let w := Sample.world "east
north" in
  let run := task_a9 More.ragged (load_module Sample.environment) w in
  run.1 = Raise (shapes_not_aligned 2 1) /\ files run.2 = files w.
Proof.
  intros w run.
  destruct (task_a9_mismatched_embeddings (SF := binary64) More.ragged
              (load_module Sample.environment) w run.2
              (Sample.text_of "east
north") [[1%float; 0%float]; [1%float]] 0 1)
    as (n & m & _ & Hrun & _ & Hfiles);
    [reflexivity | vm_compute; lia | reflexivity | simpl; lia | simpl; lia |].
  split; [reflexivity | exact Hfiles].
Defined.

(** ** The embedding path *)

Section EmbeddingFacts.

Context {F : Type} {SF : Scalar F}.
Variable service : upstream F.
Variable G : globals.

Abbreviation missing_data :=
  (Exn ValueError "Invalid response format: Missing or empty 'data' field.").

(** An embedding is read only from an object whose [data] is a nonempty
    list: from the [embedding] of its first item. *)
Lemma embedding_of_response_ok (data : json F) (v : ndarray F) :
  embedding_of_response data = Ok v ->
  exists fields first rest embedding,
    data = JObj fields /\
    assoc "data" fields = Some (JArr (first :: rest)) /\
    py_getitem first "embedding" = Ok embedding /\
    v = np_array embedding.
Proof.
  unfold embedding_of_response, py_or.
  destruct data as [ | b | x | s | l | fields]; simpl; try discriminate.
  - destruct (is_substring "data" s); simpl; discriminate.
  - destruct (existsb _ l); simpl; discriminate.
  - destruct (assoc "data" fields) as [d|] eqn:Hd; simpl.
    + rewrite ?bool_decide_true by (eexists; reflexivity). simpl.
      destruct d as [ | b | x | s | [|first rest] | fs]; simpl; try discriminate.
      destruct (py_getitem first "embedding") as [embedding|e] eqn:He; simpl; [|discriminate].
      intros [= <-]. exists fields, first, rest, embedding. repeat split; assumption.
    + rewrite ?bool_decide_false by (intros [? ?]; discriminate). simpl. discriminate.
Qed.

Lemma embedding_of_response_first (fields : list (string * json F)) (first embedding : json F)
  (rest : list (json F)) :
  assoc "data" fields = Some (JArr (first :: rest)) ->
  py_getitem first "embedding" = Ok embedding ->
  embedding_of_response (JObj fields) = Ok (np_array embedding).
Proof.
  intros Hd He. unfold embedding_of_response, py_or, py_contains.
  unfold py_getitem at 1 2 3. rewrite Hd. simpl.
  rewrite ?bool_decide_true by (eexists; reflexivity). simpl. rewrite He. reflexivity.
Qed.

Lemma embedding_of_response_malformed (fields : list (string * json F)) :
  assoc "data" fields = None \/
  (exists v, assoc "data" fields = Some v /\ isinstance_list v = false) \/
  assoc "data" fields = Some (JArr []) ->
  embedding_of_response (JObj fields) = Raise missing_data.
Proof.
  unfold embedding_of_response, py_or, py_contains, py_getitem.
  intros [Hc | [(v & Hc & Hv) | Hc]]; rewrite Hc; simpl.
  - reflexivity.
  - rewrite ?bool_decide_true by (eexists; reflexivity). simpl. rewrite Hv. reflexivity.
  - rewrite ?bool_decide_true by (eexists; reflexivity). reflexivity.
Qed.

Lemma get_embedding_run (input : text) (w : World F) :
  py_not (AIPROXY_TOKEN G) = false ->
  get_embedding service G input w =
  (match service (sent w) (embedding_request G input) with
   | TimeoutException e => Raise (Exn RuntimeError ("API Timeout: " ++ e)%string)
   | RequestError e => Raise (Exn RuntimeError ("API Request Failed: " ++ e)%string)
   | Response status_code e body =>
       if is_success status_code then
         match body with
         | inl e' =>
             Raise (Exn RuntimeError ("An unexpected error occurred: " ++ decode_str e')%string)
         | inr data => unexpected "An unexpected error occurred: " (embedding_of_response data)
         end
       else Raise (Exn RuntimeError ("API Error: " ++ e)%string)
   | NotSent e => Raise (Exn RuntimeError ("An unexpected error occurred: " ++ e)%string)
   end,
   posted service (embedding_request G input) w).
Proof.
  intros Htoken. unfold get_embedding. rewrite Htoken.
  unfold bindM, client_post, posted, embedding_request. simpl.
  destruct (service (sent w) _) as [e|e|status e [[e'|e']|data]|e]; try reflexivity;
    destruct (is_success status); reflexivity.
Qed.

End EmbeddingFacts.

(** X7. [get_embedding] returns a vector only when the module holds a token
    and the service answered 2xx with a JSON object whose [data] is a
    nonempty list; the vector is [np.array] of the [embedding] of the first
    item of [data], whatever the other items are. It has then sent exactly
    one request, and changed neither a file nor the environment. *)
Theorem get_embedding_returns_first_item {F : Type} {SF : Scalar F}
  (service : upstream F) (G : globals) (input : text) (w w' : World F) (v : ndarray F) :
  get_embedding service G input w = (Ok v, w') ->
  py_not (AIPROXY_TOKEN G) = false
  /\ w' = {| files := files w; environ := environ w;
             sent := embedding_request G input :: sent w |}
  /\ exists status e fields first rest embedding,
       service (sent w) (embedding_request G input) = Response status e (inr (JObj fields))
       /\ is_success status = true
       /\ assoc "data" fields = Some (JArr (first :: rest))
       /\ py_getitem first "embedding" = Ok embedding
       /\ v = np_array embedding.
Proof.
  intros Hrun.
  destruct (py_not (AIPROXY_TOKEN G)) eqn:Htoken.
  { unfold get_embedding in Hrun. rewrite Htoken in Hrun. discriminate. }
  split; [reflexivity|].
  rewrite (get_embedding_run service G input w Htoken) in Hrun.
  injection Hrun as Hres <-. unfold posted.
  destruct (service (sent w) (embedding_request G input)) as [e|e|status e [e'|data]|e];
    try discriminate.
  - destruct (is_success status); discriminate.
  - split; [reflexivity|].
    destruct (is_success status) eqn:Hs; [|discriminate].
    destruct (embedding_of_response data) as [v0|e0] eqn:Hemb; [|discriminate].
    injection Hres as ->.
    destruct (embedding_of_response_ok data v Hemb)
      as (fields & first & rest & embedding & -> & Hd & He & Hv).
    exists status, e, fields, first, rest, embedding. repeat split; assumption.
Qed.

Lemma get_embedding_returns_first_item_witness :
  let w := Sample.world "" in
  let G := load_module Sample.environment in
  (get_embedding Sample.three G (Sample.text_of "north-east") w).1
  = Ok (Vec [1%float; 1%float])
  /\ sent (get_embedding Sample.three G (Sample.text_of "north-east") w).2
     = [embedding_request G (Sample.text_of "north-east")].
Proof.
  intros w G.
  assert (Hrun : get_embedding Sample.three G (Sample.text_of "north-east") w
                 = (Ok (Vec [1%float; 1%float]),
                    (get_embedding Sample.three G (Sample.text_of "north-east") w).2))
    by reflexivity.
  split; [rewrite Hrun; reflexivity|].
  destruct (get_embedding_returns_first_item (SF := binary64) _ _ _ _ _ _ Hrun) as (_ & Hw & _).
  rewrite Hw. reflexivity.
Defined.

(** X8. Apart from the [ValueError] of the token check, every exception of
    [get_embedding] is a [RuntimeError], as its docstring says, and its text
    begins with the prefix of the handler that raised it: "API Error: " for a
    status that is not 2xx, "API Timeout: " for a timeout, "API Request
    Failed: " for any other transport failure, and "An unexpected error
    occurred: " for everything else: a body that cannot be decoded, a missing
    or empty [data], a first item without [embedding], and a request that
    could not be built. In this last case nothing was sent and the world is
    as it was; in every other case the one request was sent. *)
Theorem get_embedding_raises {F : Type} {SF : Scalar F}
  (service : upstream F) (G : globals) (input : text) (w w' : World F) (e : exn) :
  get_embedding service G input w = (Raise e, w') ->
  (py_not (AIPROXY_TOKEN G) = true
   /\ e = Exn ValueError "AIPROXY_TOKEN environment variable is not set." /\ w' = w)
  \/ (py_not (AIPROXY_TOKEN G) = false
      /\ exn_cls e = RuntimeError
      /\ match service (sent w) (embedding_request G input) with
         | TimeoutException _ =>
             is_prefix "API Timeout: " (exn_str e) = true
             /\ sent w' = embedding_request G input :: sent w
         | RequestError _ =>
             is_prefix "API Request Failed: " (exn_str e) = true
             /\ sent w' = embedding_request G input :: sent w
         | Response status _ _ =>
             (if is_success status
              then is_prefix "An unexpected error occurred: " (exn_str e) = true
              else is_prefix "API Error: " (exn_str e) = true)
             /\ sent w' = embedding_request G input :: sent w
         | NotSent _ =>
             is_prefix "An unexpected error occurred: " (exn_str e) = true /\ w' = w
         end).
Proof.
  intros Hrun.
  destruct (py_not (AIPROXY_TOKEN G)) eqn:Htoken.
  { left. unfold get_embedding in Hrun. rewrite Htoken in Hrun.
    injection Hrun as <- <-. repeat split; reflexivity. }
  right. split; [reflexivity|].
  rewrite (get_embedding_run service G input w Htoken) in Hrun.
  injection Hrun as Hres <-. unfold posted.
  destruct (service (sent w) (embedding_request G input)) as [s|s|status s [s'|data]|s].
  - injection Hres as <-. repeat split; reflexivity.
  - injection Hres as <-. repeat split; reflexivity.
  - destruct (is_success status); injection Hres as <-; repeat split; reflexivity.
  - destruct (is_success status); [|injection Hres as <-; repeat split; reflexivity].
    destruct (embedding_of_response data) as [v|e0]; [discriminate|].
    injection Hres as <-. repeat split; reflexivity.
  - injection Hres as <-. repeat split; reflexivity.
Qed.

Lemma get_embedding_raises_witness :
  let w := Sample.world "" in
  let G := load_module More.accented_environment in
  (get_embedding (More.ascii_headers Sample.three) G (Sample.text_of "east") w).1
  = Raise (Exn RuntimeError
      "An unexpected error occurred: 'ascii' codec can't encode character '\xe9' in position 9: ordinal not in range(128)")
  /\ (get_embedding (More.ascii_headers Sample.three) G (Sample.text_of "east") w).2 = w.
Proof.
  intros w G.
  assert (Hrun : get_embedding (More.ascii_headers Sample.three) G (Sample.text_of "east") w
                 = (Raise (Exn RuntimeError
                      "An unexpected error occurred: 'ascii' codec can't encode character '\xe9' in position 9: ordinal not in range(128)"),
                    (get_embedding (More.ascii_headers Sample.three) G
                       (Sample.text_of "east") w).2))
    by reflexivity.
  split; [rewrite Hrun; reflexivity|].
  destruct (get_embedding_raises (SF := binary64) _ _ _ _ _ _ Hrun)
    as [(Habs & _) | (_ & _ & Hcase)]; [discriminate Habs | exact (proj2 Hcase)].
Defined.

(** ** The chat path, further *)

Lemma message_of_response_first {F : Type} (fields : list (string * json F))
  (first message : json F) (rest : list (json F)) :
  assoc "choices" fields = Some (JArr (first :: rest)) ->
  py_getitem first "message" = Ok message ->
  message_of_response (JObj fields) = Ok message.
Proof.
  intros Hc Hm. unfold message_of_response, py_or, py_contains.
  unfold py_getitem at 1 2 3. rewrite Hc. simpl.
  rewrite ?bool_decide_true by (eexists; reflexivity). simpl. exact Hm.
Qed.

Lemma query_gpt_world {F : Type} {SF : Scalar F}
  (service : upstream F) (user_input : text) (tools : list (json F)) (w : World F)
  (key : string) :
  environ w !! "AIPROXY_TOKEN"%string = Some key -> key <> ""%string ->
  (query_gpt service user_input tools w).2
  = posted service (chat_request key user_input tools) w.
Proof.
  intros Henv Hkey. unfold query_gpt, bindM, os_getenv, client_post, posted. rewrite Henv.
  assert (Hnot : py_not (Some key) = false) by (destruct key; [congruence | reflexivity]).
  rewrite Hnot. unfold chat_request, bearer. simpl.
  destruct (service (sent w) _) as [e|e|status e [[e'|e']|data]|e]; try reflexivity;
    destruct (is_success status); reflexivity.
Qed.

(** X9. Given a token and a 2xx response whose [choices] is a nonempty list,
    [query_gpt] returns the [message] of the first choice and ignores the
    others; it has sent exactly one request, the chat request with the tools
    and [tool_choice = "auto"], and changed neither a file nor the
    environment. *)
Theorem query_gpt_returns_first_choice {F : Type} {SF : Scalar F}
  (service : upstream F) (user_input : text) (tools : list (json F)) (w : World F)
  (key : string) (status : Z) (e : string) (fields : list (string * json F))
  (first message : json F) (rest : list (json F)) :
  environ w !! "AIPROXY_TOKEN"%string = Some key ->
  key <> ""%string ->
  service (sent w) (chat_request key user_input tools) = Response status e (inr (JObj fields)) ->
  is_success status = true ->
  assoc "choices" fields = Some (JArr (first :: rest)) ->
  py_getitem first "message" = Ok message ->
  query_gpt service user_input tools w
  = (Ok message,
     {| files := files w; environ := environ w;
        sent := chat_request key user_input tools :: sent w |}).
Proof.
  intros Henv Hkey Hanswer Hs Hc Hm.
  pose proof (query_gpt_run service user_input tools w key Henv Hkey) as Hres.
  pose proof (query_gpt_world service user_input tools w key Henv Hkey) as Hw.
  rewrite Hanswer, Hs, (message_of_response_first fields first message rest Hc Hm) in Hres.
  simpl in Hres. unfold posted in Hw. rewrite Hanswer in Hw.
  destruct (query_gpt service user_input tools w) as [r w'']. simpl in *. congruence.
Qed.

Lemma query_gpt_returns_first_choice_witness :
  let w := Sample.world "" in
  query_gpt More.two_choices (Sample.text_of "count the Wednesdays") [] w
  = (Ok (JObj [("content", JStr "first")]),
     {| files := files w; environ := environ w;
        sent := [chat_request "secret" (Sample.text_of "count the Wednesdays") []] |}).
Proof.
  intros w.
  apply (query_gpt_returns_first_choice (SF := binary64) More.two_choices
           (Sample.text_of "count the Wednesdays") [] w "secret" 200 ""
           [("choices",
             JArr [JObj [("message", JObj [("content", JStr "first")])];
                   JObj [("message", JObj [("content", JStr "second")])]])]
           (JObj [("message", JObj [("content", JStr "first")])])
           (JObj [("content", JStr "first")])
           [JObj [("message", JObj [("content", JStr "second")])]]);
    [reflexivity | discriminate | reflexivity | reflexivity | reflexivity | reflexivity].
Defined.

(** X10. Apart from the [ValueError] of the token check, which sends nothing,
    every exception of [query_gpt] is a [RuntimeError], as its docstring says,
    and its text begins with the prefix of the handler that raised it: "LLM
    API Timeout: " for a timeout, "LLM API Request Failed: " for any other
    transport failure, "LLM API Error: " for a status that is not 2xx, "LLM
    API Response Decode Error: " for a body that is not JSON, and "An
    unexpected error occurred: " for everything else: a body whose bytes do
    not decode, JSON of the wrong shape, and a request that could not be
    built. In this last case nothing was sent and the world is as it was; in
    every other case exactly one request was sent. No file is changed. *)
Theorem query_gpt_raises {F : Type} {SF : Scalar F}
  (service : upstream F) (user_input : text) (tools : list (json F)) (w w' : World F)
  (e : exn) :
  query_gpt service user_input tools w = (Raise e, w') ->
  files w' = files w
  /\ ((py_not (environ w !! "AIPROXY_TOKEN"%string) = true
       /\ e = Exn ValueError "Environment variable AIPROXY_TOKEN not set." /\ w' = w)
      \/ exists key,
           environ w !! "AIPROXY_TOKEN"%string = Some key /\ key <> ""%string
           /\ exn_cls e = RuntimeError
           /\ match service (sent w) (chat_request key user_input tools) with
              | TimeoutException _ =>
                  is_prefix "LLM API Timeout: " (exn_str e) = true
                  /\ sent w' = chat_request key user_input tools :: sent w
              | RequestError _ =>
                  is_prefix "LLM API Request Failed: " (exn_str e) = true
                  /\ sent w' = chat_request key user_input tools :: sent w
              | Response status _ body =>
                  (if is_success status
                   then match body with
                        | inl (JSONDecodeError _) =>
                            is_prefix "LLM API Response Decode Error: " (exn_str e) = true
                        | inl (UnicodeDecodeError _) | inr _ =>
                            is_prefix "An unexpected error occurred: " (exn_str e) = true
                        end
                   else is_prefix "LLM API Error: " (exn_str e) = true)
                  /\ sent w' = chat_request key user_input tools :: sent w
              | NotSent _ =>
                  is_prefix "An unexpected error occurred: " (exn_str e) = true /\ w' = w
              end).
Proof.
  intros Hrun.
  destruct (py_not (environ w !! "AIPROXY_TOKEN"%string)) eqn:Htoken.
  { unfold query_gpt, bindM, os_getenv in Hrun. rewrite Htoken in Hrun.
    injection Hrun as <- <-. split; [reflexivity|]. left. repeat split; reflexivity. }
  destruct (environ w !! "AIPROXY_TOKEN"%string) as [key|] eqn:Henv; [|discriminate].
  assert (Hkey : key <> ""%string) by (intros ->; discriminate).
  pose proof (query_gpt_run service user_input tools w key Henv Hkey) as Hres.
  pose proof (query_gpt_world service user_input tools w key Henv Hkey) as Hw.
  rewrite Hrun in Hres, Hw. simpl in Hres, Hw. subst w'. unfold posted.
  assert (Hfiles : files (posted service (chat_request key user_input tools) w) = files w).
  { unfold posted. destruct (service (sent w) (chat_request key user_input tools)); reflexivity. }
  split; [exact Hfiles|]. right. exists key.
  split; [reflexivity|]. split; [exact Hkey|].
  destruct (service (sent w) (chat_request key user_input tools))
    as [s|s|status s [[s'|s']|data]|s].
  - injection Hres as ->. repeat split; reflexivity.
  - injection Hres as ->. repeat split; reflexivity.
  - destruct (is_success status); injection Hres as ->; repeat split; reflexivity.
  - destruct (is_success status); injection Hres as ->; repeat split; reflexivity.
  - destruct (is_success status); [|injection Hres as ->; repeat split; reflexivity].
    destruct (message_of_response data) as [m|e0]; [discriminate|].
    injection Hres as ->. repeat split; reflexivity.
  - injection Hres as ->. repeat split; reflexivity.
Qed.

Lemma query_gpt_raises_witness :
  let w := Sample.world "" in
  (query_gpt More.latin1_body (Sample.text_of "count the Wednesdays") [] w).1
  = Raise (Exn RuntimeError
      "An unexpected error occurred: 'utf-8' codec can't decode byte 0xe9 in position 0: unexpected end of data")
  /\ files (query_gpt More.latin1_body (Sample.text_of "count the Wednesdays") [] w).2
     = files w.
Proof.
  intros w.
  assert (Hrun : query_gpt More.latin1_body (Sample.text_of "count the Wednesdays") [] w
                 = (Raise (Exn RuntimeError
                      "An unexpected error occurred: 'utf-8' codec can't decode byte 0xe9 in position 0: unexpected end of data"),
                    (query_gpt More.latin1_body (Sample.text_of "count the Wednesdays") [] w).2))
    by reflexivity.
  split; [rewrite Hrun; reflexivity|].
  exact (proj1 (query_gpt_raises (SF := binary64) _ _ _ _ _ _ Hrun)).
Defined.

(** X11. A token that is the empty string counts as absent: [get_embedding]
    and [query_gpt] raise the same [ValueError] as for a missing variable,
    and send nothing. *)
Theorem empty_token_is_absent {F : Type} {SF : Scalar F}
  (service : upstream F) (env_at_import : gmap string string) (w : World F)
  (input user_input : text) (tools : list (json F)) :
  env_at_import !! "AIPROXY_TOKEN"%string = Some ""%string ->
  environ w !! "AIPROXY_TOKEN"%string = Some ""%string ->
  get_embedding service (load_module env_at_import) input w
  = (Raise (Exn ValueError "AIPROXY_TOKEN environment variable is not set."), w)
  /\ query_gpt service user_input tools w
     = (Raise (Exn ValueError "Environment variable AIPROXY_TOKEN not set."), w).
Proof.
  intros Himport Hcall. split.
  - unfold get_embedding, load_module. simpl. rewrite Himport. reflexivity.
  - unfold query_gpt, bindM, os_getenv. rewrite Hcall. reflexivity.
Qed.

Lemma empty_token_is_absent_witness :
  let w : World float :=
    {| files := ∅; environ := {[ "AIPROXY_TOKEN"%string := ""%string ]}; sent := [] |} in
  get_embedding Sample.three (load_module {[ "AIPROXY_TOKEN"%string := ""%string ]})
    (Sample.text_of "east") w
  = (Raise (Exn ValueError "AIPROXY_TOKEN environment variable is not set."), w)
  /\ query_gpt Sample.three (Sample.text_of "count the Wednesdays") [] w
     = (Raise (Exn ValueError "Environment variable AIPROXY_TOKEN not set."), w).
Proof.
  intros w.
  apply (empty_token_is_absent (SF := binary64) Sample.three
           {[ "AIPROXY_TOKEN"%string := ""%string ]} w
           (Sample.text_of "east") (Sample.text_of "count the Wednesdays") []);
    reflexivity.
Defined.

(** ** Task A6: titles *)

Lemma lstrip_chars_incl (chars : list N) (s : text) (x : N) :
  In x (lstrip_chars chars s) -> In x s.
Proof.
  induction s as [|a s IH]; simpl; [tauto|].
  destruct (existsb (N.eqb a) chars); [right; apply IH; assumption | tauto].
Qed.

Lemma lstrip_chars_head (chars : list N) (s : text) (c : N) :
  head (lstrip_chars chars s) = Some c -> ~ In c chars.
Proof.
  induction s as [|a s IH]; simpl; [discriminate|].
  destruct (existsb (N.eqb a) chars) eqn:Ha; [exact IH|].
  simpl. intros [= <-] Hin.
  assert (Hex : existsb (N.eqb a) chars = true)
    by (apply existsb_exists; exists a; split; [exact Hin | apply N.eqb_refl]).
  congruence.
Qed.

Lemma lstrip_length (s : text) : (length (lstrip s) <= length s)%nat.
Proof. induction s as [|a s IH]; simpl; [lia|]. destruct (is_space a); simpl; lia. Qed.

Lemma strip_length (s : text) : (length (strip s) <= length s)%nat.
Proof.
  unfold strip, rstrip. rewrite length_rev.
  pose proof (lstrip_length (rev (lstrip s))). rewrite length_rev in *.
  pose proof (lstrip_length s). lia.
Qed.

Lemma lstrip_chars_length (chars : list N) (s : text) :
  (length (lstrip_chars chars s) <= length s)%nat.
Proof.
  induction s as [|c s IH]; [reflexivity|]. cbn [lstrip_chars].
  destruct (existsb (N.eqb c) chars); cbn [length]; lia.
Qed.

Lemma lstrip_chars_marker (s : text) :
  startswith [35; 32]%N s = true ->
  (length (lstrip_chars [35; 32]%N s) + 2 <= length s)%nat.
Proof.
  destruct s as [|a [|b s]]; [discriminate | |].
  - cbn [startswith]. rewrite andb_false_r. discriminate.
  - cbn [startswith]. intros Hs. apply andb_prop in Hs as [Ha Hb].
    apply andb_prop in Hb as [Hb _]. apply N.eqb_eq in Ha, Hb. subst a b.
    change (lstrip_chars [35; 32]%N (35%N :: 32%N :: s)) with (lstrip_chars [35; 32]%N s).
    cbn [length].
    pose proof (lstrip_chars_length [35; 32]%N s). lia.
Qed.

Lemma first_h1_found (pre post : list text) (line : text) :
  Forall (fun l => startswith [35; 32]%N (strip l) = false) pre ->
  startswith [35; 32]%N (strip line) = true ->
  first_h1 (pre ++ line :: post) = strip (lstrip_chars [35; 32]%N (strip line)).
Proof.
  intros Hpre Hline. induction Hpre as [|l pre Hl _ IH]; cbn [app first_h1].
  - rewrite Hline. reflexivity.
  - rewrite Hl. exact IH.
Qed.

Lemma first_h1_none (lines : list text) :
  Forall (fun l => startswith [35; 32]%N (strip l) = false) lines -> first_h1 lines = [].
Proof.
  intros Hl. induction Hl as [|l ls Hl _ IH]; cbn [first_h1]; [reflexivity | rewrite Hl; exact IH].
Qed.

Lemma first_h1_cases (lines : list text) :
  first_h1 lines = [] \/
  exists line, In line lines /\ startswith [35; 32]%N (strip line) = true
               /\ first_h1 lines = strip (lstrip_chars [35; 32]%N (strip line)).
Proof.
  induction lines as [|l ls IH]; cbn [first_h1]; [left; reflexivity|].
  destruct (startswith [35; 32]%N (strip l)) eqn:Hl.
  - right. exists l. split; [left; reflexivity|]. split; [exact Hl | reflexivity].
  - destruct IH as [IH | (line & Hin & Hs & IH)]; [left; exact IH|].
    right. exists line. split; [right; exact Hin|]. split; assumption.
Qed.

(** X12. The title [task_a6] records for a Markdown file is taken from the
    first line that, stripped, starts with "# ": the lines before it and
    every later header are ignored. The title is that line without its
    leading '#' and spaces, stripped; a file without such a line gets the
    empty title. *)
Theorem title_of_first_header (content : text) :
  (forall pre post line,
      file_lines content = pre ++ line :: post ->
      Forall (fun l => startswith [35; 32]%N (strip l) = false) pre ->
      startswith [35; 32]%N (strip line) = true ->
      title_of content = strip (lstrip_chars [35; 32]%N (strip line)))
  /\ (Forall (fun l => startswith [35; 32]%N (strip l) = false) (file_lines content) ->
      title_of content = []).
Proof.
  unfold title_of. split.
  - intros pre post line -> Hpre Hline. apply first_h1_found; assumption.
  - apply first_h1_none.
Qed.

(** X13. The title [task_a6] records is empty, or begins and ends with a
    character that is not white space; it holds no line break; and it is
    shorter by at least two characters than some line of the file, whose
    leading "# " it has lost. *)
Theorem title_of_clean (content : text) :
  (forall c, head (title_of content) = Some c -> is_space c = false)
  /\ (forall c, last (title_of content) = Some c -> is_space c = false)
  /\ ~ In 10%N (title_of content) /\ ~ In 13%N (title_of content)
  /\ (title_of content = [] \/
      exists line, In line (file_lines content)
                   /\ (length (title_of content) + 2 <= length line)%nat).
Proof.
  unfold title_of.
  destruct (first_h1_cases (file_lines content)) as [-> | (line & Hin & Hs & ->)].
  { split; [intros c Hc; simpl in Hc; discriminate Hc|].
    split; [intros c Hc; simpl in Hc; discriminate Hc|].
    split; [simpl; tauto|]. split; [simpl; tauto|]. left. reflexivity. }
  split; [intros c; apply strip_head|]. split; [intros c; apply strip_last|].
  assert (Hchars : forall x, In x (strip (lstrip_chars [35; 32]%N (strip line))) ->
                             In x (strip line)).
  { intros x Hx. apply strip_incl, lstrip_chars_incl in Hx. exact Hx. }
  unfold file_lines in Hin.
  destruct (lines_from_spec _ _ [] ltac:(simpl; tauto) Hin) as (body & Hb & Hl & Hx).
  assert (Hstrip : strip line = strip body).
  { destruct Hl as [-> | ->]; [apply strip_snoc_space; reflexivity | reflexivity]. }
  split; [|split].
  - intros Hc. apply Hchars in Hc. rewrite Hstrip in Hc. apply strip_incl in Hc. tauto.
  - intros Hc. apply Hchars in Hc. rewrite Hstrip in Hc. apply strip_incl in Hc.
    destruct (Hx _ Hc) as [[]|Hu]. exact (universal_newlines_no_cr content Hu).
  - right. exists line. split; [exact Hin|].
    pose proof (strip_length (lstrip_chars [35; 32]%N (strip line))).
    pose proof (lstrip_chars_marker (strip line) Hs).
    pose proof (strip_length line). lia.
Qed.

Lemma title_of_first_header_witness :
  title_of (Sample.text_of "intro
# #1 priority
# second") = Sample.text_of "1 priority".
Proof.
  refine (proj1 (title_of_first_header _) [Sample.text_of "intro
"] [Sample.text_of "# second"] (Sample.text_of "# #1 priority
") _ _ _); [reflexivity | repeat constructor | reflexivity].
Defined.

(** ** Task A6: the index *)

Lemma dict_set_in {V : Type} (k : string) (v : V) (d : list (string * V)) (e : string * V) :
  In e (dict_set k v d) -> e = (k, v) \/ In e d.
Proof.
  induction d as [|[k' v'] d IH]; simpl; [intuition congruence|].
  destruct (String.eqb k k'); simpl; [intuition congruence|].
  intros [<- | Hin]; [tauto|]. destruct (IH Hin); tauto.
Qed.

Lemma dict_set_keys {V : Type} (k : string) (v : V) (d : list (string * V)) (k0 : string) :
  In k0 (map fst (dict_set k v d)) <-> k0 = k \/ In k0 (map fst d).
Proof.
  induction d as [|[k' v'] d IH]; simpl; [intuition congruence|].
  destruct (String.eqb_spec k k') as [<-|Hne]; simpl; [intuition congruence|].
  rewrite IH. intuition congruence.
Qed.

Lemma dict_set_nodup {V : Type} (k : string) (v : V) (d : list (string * V)) :
  List.NoDup (map fst d) -> List.NoDup (map fst (dict_set k v d)).
Proof.
  induction d as [|[k' v'] d IH]; simpl; intros Hd.
  - constructor; [simpl; tauto | constructor].
  - inversion Hd as [|? ? Hnot Hrest]; subst.
    destruct (String.eqb_spec k k') as [<-|Hne]; simpl; [constructor; assumption|].
    constructor; [|apply IH; exact Hrest].
    rewrite dict_set_keys. intuition congruence.
Qed.

Section IndexFacts.

Context {F : Type}.
Variable os_walk : string -> World F -> list (string * list string).
Variable os_path_relpath : string -> string -> string.
Variable json_dump_index : list (string * text) -> text.

Abbreviation docs_dir := "/data/docs/"%string.

Abbreviation indexed := (indexed_by os_path_relpath).

Lemma for_eachM_app_run {A S : Type} (xs ys : list A) (body : A -> S -> @M F S) (st : S)
  (w : World F) :
  for_eachM (xs ++ ys) body st w =
  match for_eachM xs body st w with
  | (Ok st', w') => for_eachM ys body st' w'
  | (Raise e, w') => (Raise e, w')
  end.
Proof.
  revert st w. induction xs as [|x xs IH]; intros st w; [reflexivity|].
  rewrite <- app_comm_cons, !for_eachM_cons.
  destruct (body x st w) as [[st'|e] w']; [apply IH | reflexivity].
Qed.

Lemma for_eachM_nested {A B S : Type} (xs : list A) (inner : A -> list B)
  (body : A -> B -> S -> @M F S) (st : S) (w : World F) :
  for_eachM xs (fun x st => for_eachM (inner x) (fun y st => body x y st) st) st w =
  for_eachM (flat_map (fun x => map (pair x) (inner x)) xs) (fun p st => body p.1 p.2 st) st w.
Proof.
  revert st w. induction xs as [|x xs IH]; intros st w; [reflexivity|].
  rewrite for_eachM_cons. cbn [flat_map]. rewrite for_eachM_app_run.
  assert (Hin : forall l st w,
             for_eachM (map (pair x) l) (fun p st => body p.1 p.2 st) st w
             = for_eachM l (fun y st => body x y st) st w).
  { induction l as [|y l IHl]; intros st0 w0; [reflexivity|].
    cbn [map]. rewrite !for_eachM_cons. cbn [fst snd].
    destruct (body x y st0 w0) as [[st'|e] w']; [apply IHl | reflexivity]. }
  rewrite Hin. destruct (for_eachM (inner x) _ st w) as [[st'|e] w']; [apply IH | reflexivity].
Qed.

(** One file: the world is untouched; a readable Markdown file sets its
    entry, any other Markdown file raises, any other file is passed over. *)
Lemma index_file_run (root file : string) (d : list (string * text)) (w : World F) :
  index_file os_path_relpath docs_dir root file d w =
  (if endswith ".md" file then
     match files w !! os_path_join root file with
     | Some (File (Some content)) =>
         Ok (dict_set (os_path_relpath (os_path_join root file) docs_dir) (title_of content) d)
     | _ => Raise (Exn RuntimeError ("Error processing file " ++ os_path_join root file)%string)
     end
   else Ok d, w).
Proof.
  unfold index_file. destruct (endswith ".md" file); [|reflexivity].
  unfold try_except, bindM, read_text, ret.
  destruct (files w !! os_path_join root file) as [[|[content|]]|]; reflexivity.
Qed.

Lemma index_loop_spec (pairs : list (string * string)) (d : list (string * text)) (w : World F) :
  match for_eachM pairs (fun p d => index_file os_path_relpath docs_dir p.1 p.2 d) d w with
  | (Ok d', w') =>
      w' = w
      /\ (forall entry, In entry d' -> In entry d \/ indexed w pairs entry)
      /\ (forall k, In k (map fst d') <->
                    In k (map fst d) \/
                    exists root file, In (root, file) pairs /\ endswith ".md" file = true
                                      /\ k = os_path_relpath (os_path_join root file) docs_dir)
      /\ (List.NoDup (map fst d) -> List.NoDup (map fst d'))
  | (Raise e, w') =>
      w' = w
      /\ exists root file,
           In (root, file) pairs /\ endswith ".md" file = true
           /\ (forall content, files w !! os_path_join root file <> Some (File (Some content)))
           /\ e = Exn RuntimeError ("Error processing file " ++ os_path_join root file)%string
  end.
Proof.
  revert d. induction pairs as [|[root file] pairs IH]; intros d.
  - simpl. split; [reflexivity|]. split; [intros entry Hin; left; exact Hin|].
    split; [|intros Hd; exact Hd].
    intros k. split; [intros Hk; left; exact Hk|]. intros [?|(? & ? & [] & _)]. assumption.
  - rewrite for_eachM_cons. cbn [fst snd]. rewrite index_file_run.
    destruct (endswith ".md" file) eqn:Hmd.
    + destruct (files w !! os_path_join root file) as [[|[content|]]|] eqn:Hfile.
      1,3,4: split; [reflexivity|]; exists root, file;
        split; [left; reflexivity|]; split; [exact Hmd|]; split; [congruence | reflexivity].
      specialize (IH (dict_set (os_path_relpath (os_path_join root file) docs_dir)
                               (title_of content) d)).
      destruct (for_eachM pairs _ _ w) as [[d'|e] w'].
      * destruct IH as (-> & Hentries & Hkeys & Hnodup). split; [reflexivity|].
        split; [|split].
        -- intros entry Hin. destruct (Hentries entry Hin) as [Hd | (r & f & c & Hp & H1 & H2 & H3)].
           ++ apply dict_set_in in Hd as [-> | Hd]; [|left; exact Hd].
              right. exists root, file, content.
              split; [left; reflexivity|]. repeat split; assumption.
           ++ right. exists r, f, c. split; [right; exact Hp|]. repeat split; assumption.
        -- intros k. rewrite Hkeys, dict_set_keys. split.
           ++ intros [[-> | Hk] | (r & f & Hp & H1 & H2)].
              ** right. exists root, file. split; [left; reflexivity|]. split; [exact Hmd | reflexivity].
              ** left. exact Hk.
              ** right. exists r, f. split; [right; exact Hp|]. split; assumption.
           ++ intros [Hk | (r & f & [Hp | Hp] & H1 & H2)].
              ** left. right. exact Hk.
              ** injection Hp as <- <-. left. left. exact H2.
              ** right. exists r, f. repeat split; assumption.
        -- intros Hd. apply Hnodup, dict_set_nodup, Hd.
      * destruct IH as (-> & r & f & Hp & H1 & H2 & ->). split; [reflexivity|].
        exists r, f. split; [right; exact Hp|]. repeat split; assumption.
    + specialize (IH d). destruct (for_eachM pairs _ d w) as [[d'|e] w'].
      * destruct IH as (-> & Hentries & Hkeys & Hnodup). split; [reflexivity|].
        split; [|split; [|exact Hnodup]].
        -- intros entry Hin. destruct (Hentries entry Hin) as [Hd | (r & f & c & Hp & H1 & H2 & H3)];
             [left; exact Hd|].
           right. exists r, f, c. split; [right; exact Hp|]. repeat split; assumption.
        -- intros k. rewrite Hkeys. split.
           ++ intros [Hk | (r & f & Hp & H1 & H2)]; [left; exact Hk|].
              right. exists r, f. split; [right; exact Hp|]. split; assumption.
           ++ intros [Hk | (r & f & [Hp | Hp] & H1 & H2)]; [left; exact Hk | |].
              ** injection Hp as <- <-. congruence.
              ** right. exists r, f. repeat split; assumption.
      * destruct IH as (-> & r & f & Hp & H1 & H2 & ->). split; [reflexivity|].
        exists r, f. split; [right; exact Hp|]. repeat split; assumption.
Qed.

End IndexFacts.

Section IndexRuns.

Context {F : Type}.
Variable os_walk : string -> World F -> list (string * list string).
Variable os_path_relpath : string -> string -> string.
Variable json_dump_index : list (string * text) -> text.

Lemma walk_loop (walk : list (string * list string)) (d : list (string * text)) (w : World F) :
  for_eachM walk
    (fun dir index_dict =>
       for_eachM dir.2
         (fun file index_dict => index_file os_path_relpath "/data/docs/" dir.1 file index_dict)
         index_dict) d w
  = for_eachM (walked walk)
      (fun p d => index_file os_path_relpath "/data/docs/" p.1 p.2 d) d w.
Proof.
  revert d w. induction walk as [|[root names] walk IH]; intros d w; [reflexivity|].
  rewrite for_eachM_cons. unfold walked. cbn [flat_map fst snd]. rewrite for_eachM_app_run.
  assert (Hin : forall l (d : list (string * text)) (w : World F),
             for_eachM (map (pair root) l)
               (fun p d => index_file os_path_relpath "/data/docs/" p.1 p.2 d) d w
             = for_eachM l
                 (fun file d => index_file os_path_relpath "/data/docs/" root file d) d w).
  { induction l as [|y l IHl]; intros d0 w0; [reflexivity|].
    cbn [map]. rewrite !for_eachM_cons. cbn [fst snd].
    destruct (index_file os_path_relpath "/data/docs/" root y d0 w0) as [[d'|e] w'];
      [apply IHl | reflexivity]. }
  rewrite Hin.
  destruct (for_eachM names _ d w) as [[d'|e] w']; [apply IH | reflexivity].
Qed.

(** The runs of [task_a6] on a world that has the documents directory. *)
Lemma task_a6_run (w : World F) :
  files w !! "/data/docs/"%string = Some Directory ->
  task_a6 os_walk os_path_relpath json_dump_index w =
  match for_eachM (walked (os_walk "/data/docs/" w))
          (fun p d => index_file os_path_relpath "/data/docs/" p.1 p.2 d) [] w with
  | (Ok index_dict, w1) =>
      match files w1 !! "/data/docs/index.json"%string with
      | Some Directory => (Raise (Exn RuntimeError "Error writing index file."), w1)
      | _ => (Ok ("Created markdown index with " ++ pretty (length index_dict)
                  ++ " entries at /data/docs/index.json.")%string,
              written "/data/docs/index.json" (json_dump_index index_dict) w1)
      end
  | (Raise e, w1) => (Raise (Exn RuntimeError "Error scanning markdown documents."), w1)
  end.
Proof.
  intros Hdir. unfold task_a6, bindM at 1, os_path_isdir. rewrite Hdir. cbn [negb].
  unfold bindM at 1, try_except at 1, bindM at 1. rewrite walk_loop.
  destruct (for_eachM (walked (os_walk "/data/docs/" w)) _ [] w) as [[d|e] w1]; [|reflexivity].
  unfold bindM, try_except, write_text, ret, written.
  change (os_path_join "/data/docs/" "index.json") with "/data/docs/index.json"%string.
  destruct (files w1 !! "/data/docs/index.json"%string) as [[|c]|]; reflexivity.
Qed.

End IndexRuns.

(** X14. [task_a6] raises one of three exceptions, and always with the world
    as it was: [FileNotFoundError] when "/data/docs/" is not a directory;
    [RuntimeError] "Error scanning markdown documents." when some Markdown
    file that [os.walk] lists cannot be read as UTF-8 text; [RuntimeError]
    "Error writing index file." In particular the "Error processing file
    ..." that names the failing file is always replaced by the second and
    never reaches the caller. *)
Theorem task_a6_raises {F : Type}
  (os_walk : string -> World F -> list (string * list string))
  (os_path_relpath : string -> string -> string)
  (json_dump_index : list (string * text) -> text)
  (w w' : World F) (e : exn) :
  task_a6 os_walk os_path_relpath json_dump_index w = (Raise e, w') ->
  w' = w
  /\ ((files w !! "/data/docs/"%string <> Some Directory
       /\ e = Exn FileNotFoundError "Directory /data/docs/ not found.")
      \/ (e = Exn RuntimeError "Error scanning markdown documents."
          /\ exists root file,
               In (root, file) (walked (os_walk "/data/docs/" w))
               /\ endswith ".md" file = true
               /\ forall content,
                    files w !! os_path_join root file <> Some (File (Some content)))
      \/ (e = Exn RuntimeError "Error writing index file."
          /\ files w !! "/data/docs/index.json"%string = Some Directory)).
Proof.
  intros Hrun.
  destruct (files w !! "/data/docs/"%string) as [[|c0]|] eqn:Hdir.
  1: { rewrite (task_a6_run os_walk os_path_relpath json_dump_index w Hdir) in Hrun.
    pose proof (index_loop_spec os_path_relpath (walked (os_walk "/data/docs/" w)) [] w) as Hloop.
    destruct (for_eachM (walked (os_walk "/data/docs/" w)) _ [] w) as [[d|e0] w1].
    + destruct Hloop as (-> & _).
      destruct (files w !! "/data/docs/index.json"%string) as [[|c]|] eqn:Hout; try discriminate.
      injection Hrun as <- <-. split; [reflexivity|]. right. right. split; reflexivity.
    + destruct Hloop as (-> & root & file & Hin & Hmd & Hbad & _).
      injection Hrun as <- <-. split; [reflexivity|]. right. left. split; [reflexivity|].
      exists root, file. repeat split; assumption. }
  all: unfold task_a6, bindM at 1, os_path_isdir in Hrun; rewrite Hdir in Hrun;
    cbn [negb] in Hrun; injection Hrun as <- <-;
    (split; [reflexivity|]; left; split; [congruence | reflexivity]).
Qed.

Lemma task_a6_raises_witness :
  task_a6 More.docs_walk More.relpath More.dump More.docs_broken
  = (Raise (Exn RuntimeError "Error scanning markdown documents."), More.docs_broken)
  /\ exists root file,
       In (root, file) (walked (More.docs_walk "/data/docs/" More.docs_broken))
       /\ endswith ".md" file = true
       /\ forall content,
            files More.docs_broken !! os_path_join root file <> Some (File (Some content)).
Proof.
  assert (Hrun : task_a6 More.docs_walk More.relpath More.dump More.docs_broken
                 = (Raise (Exn RuntimeError "Error scanning markdown documents."),
                    More.docs_broken)) by reflexivity.
  split; [exact Hrun|].
  destruct (task_a6_raises _ _ _ _ _ _ Hrun)
    as (_ & [(_ & He) | [(_ & Hbad) | (He & _)]]); [discriminate He | exact Hbad | discriminate He].
Defined.



(** ** Tasks A1 and A2 *)

(** X16. [task_a1] raises nothing but [HTTPException], with one of five
    details. The two 400s, for an empty and for an invalid address, are raised
    before anything is run, with the world as it was. Every later failure is
    a 500 with a fixed text; the detail "Script execution failed: ..." that
    carries the script's error output is raised inside the [try] whose
    [except Exception] replaces it, and never reaches the caller. *)
Theorem task_a1_raises {F : Type}
  (validate_email : string -> World F -> bool) (sys_executable : string)
  (import_uv : @Handler F unit) (subprocess_check_call : list string -> @Handler F unit)
  (subprocess_run : list string -> @Handler F completed)
  (user_email script_url : string) (w w' : World F) (t : thrown) :
  task_a1 validate_email sys_executable import_uv subprocess_check_call subprocess_run
    user_email script_url w = (Throw t, w') ->
  (t = HTTPException 400 (str_text "User email must be provided.")
   /\ user_email = ""%string /\ w' = w)
  \/ (t = HTTPException 400 (str_text "Invalid email address.")
      /\ validate_email user_email w = false /\ w' = w)
  \/ t = HTTPException 500 (str_text "Failed to install 'uv' package.")
  \/ t = HTTPException 500 (str_text "Script execution timed out.")
  \/ t = HTTPException 500 (str_text "Failed to execute the data generator script.").
Proof.
  unfold task_a1. destruct (String.eqb_spec user_email "") as [->|Hne].
  { intros [= <- <-]. left. repeat split; reflexivity. }
  unfold hbind at 1, is_valid_email_address.
  destruct (validate_email user_email w) eqn:Hvalid; cbn [negb].
  2: { intros [= <- <-]. right. left. repeat split; reflexivity || assumption. }
  unfold hbind at 1, try_catch at 1, try_catch at 1.
  destruct (import_uv w) as [[[]|t0] w1].
  - unfold hbind at 1, try_catch at 1, hbind at 1.
    destruct (subprocess_run _ w1) as [[[rc err]|t1] w2].
    + cbn [returncode stderr]. destruct (rc =? 0)%Z; cbn [negb].
      * intros [= ]. 
      * intros [= <- <-]. do 4 right. reflexivity.
    + destruct t1; intros [= <- <-]; auto 10.
  - destruct t0;
      try (intros [= <- <-]; right; right; left; reflexivity).
    destruct (subprocess_check_call _ w1) as [[[]|t1] w2].
    + unfold hbind at 1, try_catch at 1, hbind at 1.
      destruct (subprocess_run _ w2) as [[[rc err]|t2] w3].
      * cbn [returncode stderr]. destruct (rc =? 0)%Z; cbn [negb].
        -- intros [= ].
        -- intros [= <- <-]. do 4 right. reflexivity.
      * destruct t2; intros [= <- <-]; auto 10.
    + intros [= <- <-]. right. right. left. reflexivity.
Qed.

Lemma task_a1_raises_witness :
  task_a1 Procs.accept "/usr/bin/python3" Procs.uv_present Procs.pip_ok Procs.script_fails
    "user@example.com" "https://example.com/datagen.py" Procs.empty
  = (Throw (HTTPException 500 (str_text "Failed to execute the data generator script.")),
     Procs.empty).
Proof.
  assert (Hrun : task_a1 Procs.accept "/usr/bin/python3" Procs.uv_present Procs.pip_ok
                   Procs.script_fails "user@example.com" "https://example.com/datagen.py"
                   Procs.empty
                 = (Throw (HTTPException 500
                             (str_text "Failed to execute the data generator script.")),
                    Procs.empty)) by reflexivity.
  destruct (task_a1_raises _ _ _ _ _ _ _ _ _ _ Hrun)
    as [(_ & He & _) | [(_ & Hv & _) | _]]; [discriminate He | discriminate Hv | exact Hrun].
Defined.

(** X17. [task_a1] returns only for a nonempty address that [validate_email]
    accepts, after [uv] was imported or installed, and when the script was
    run with the URL, the address and [--root ./data] and exited with code 0;
    it then returns its fixed message. *)
Theorem task_a1_returns {F : Type}
  (validate_email : string -> World F -> bool) (sys_executable : string)
  (import_uv : @Handler F unit) (subprocess_check_call : list string -> @Handler F unit)
  (subprocess_run : list string -> @Handler F completed)
  (user_email script_url : string) (w w' : World F) (message : string) :
  task_a1 validate_email sys_executable import_uv subprocess_check_call subprocess_run
    user_email script_url w = (Return message, w') ->
  message = "Data generator script executed successfully"%string
  /\ user_email <> ""%string
  /\ validate_email user_email w = true
  /\ exists w1 err,
       (import_uv w = (Return tt, w1)
        \/ exists w0, import_uv w = (Throw ImportError, w0)
                      /\ subprocess_check_call [sys_executable; "-m"; "pip"; "install"; "uv"]%string w0
                         = (Return tt, w1))
       /\ subprocess_run ["uv"; "run"; script_url; user_email; "--root"; "./data"]%string w1
          = (Return (Completed 0 err), w').
Proof.
  unfold task_a1. destruct (String.eqb_spec user_email "") as [->|Hne]; [discriminate|].
  unfold hbind at 1, is_valid_email_address.
  destruct (validate_email user_email w) eqn:Hvalid; cbn [negb]; [|discriminate].
  unfold hbind at 1, try_catch at 1, try_catch at 1.
  destruct (import_uv w) as [[[]|t0] w1] eqn:Himport.
  - unfold hbind at 1, try_catch at 1, hbind at 1.
    destruct (subprocess_run _ w1) as [[[rc err]|t1] w2] eqn:Hrun.
    + cbn [returncode stderr]. destruct (Z.eqb_spec rc 0) as [->|]; cbn [negb]; [|discriminate].
      intros [= <- <-]. repeat split; try assumption.
      exists w1, err. split; [left; reflexivity | exact Hrun].
    + destruct t1; discriminate.
  - destruct t0; try discriminate.
    destruct (subprocess_check_call _ w1) as [[[]|t1] w2] eqn:Hpip; [|discriminate].
    unfold hbind at 1, try_catch at 1, hbind at 1.
    destruct (subprocess_run _ w2) as [[[rc err]|t2] w3] eqn:Hrun.
    + cbn [returncode stderr]. destruct (Z.eqb_spec rc 0) as [->|]; cbn [negb]; [|discriminate].
      intros [= <- <-]. repeat split; try assumption.
      exists w2, err. split; [right; exists w1; split; [reflexivity | exact Hpip] | exact Hrun].
    + destruct t2; discriminate.
Qed.

Lemma task_a1_returns_witness :
  task_a1 Procs.accept "/usr/bin/python3" Procs.uv_present Procs.pip_ok Procs.script_ok
    "user@example.com" "https://example.com/datagen.py" Procs.empty
  = (Return "Data generator script executed successfully"%string, Procs.empty)
  /\ "user@example.com"%string <> ""%string.
Proof.
  assert (Hrun : task_a1 Procs.accept "/usr/bin/python3" Procs.uv_present Procs.pip_ok
                   Procs.script_ok "user@example.com" "https://example.com/datagen.py"
                   Procs.empty
                 = (Return "Data generator script executed successfully"%string, Procs.empty))
    by reflexivity.
  split; [exact Hrun|].
  exact (proj1 (proj2 (task_a1_returns _ _ _ _ _ _ _ _ _ _ Hrun))).
Defined.

(** X18. [task_a2] raises nothing but [HTTPException]: the 404 for a path
    that is no regular file, raised before anything is run and with the world
    as it was, or a 500 with one of two fixed texts. The detail "Prettier
    formatting failed: ..." that carries prettier's error output is raised
    inside the [try] whose [except Exception] replaces it, and never reaches
    the caller. *)
Theorem task_a2_raises {F : Type}
  (sys_executable : string) (subprocess_check_call : list string -> @Handler F unit)
  (subprocess_run : list string -> @Handler F completed)
  (target_file : string) (w w' : World F) (t : thrown) :
  task_a2 sys_executable subprocess_check_call subprocess_run target_file w = (Throw t, w') ->
  (t = HTTPException 404 (str_text ("File " ++ target_file ++ " not found."))
   /\ (forall content, files w !! target_file <> Some (File content)) /\ w' = w)
  \/ t = HTTPException 500 (str_text "Prettier formatting timed out.")
  \/ t = HTTPException 500 (str_text "Failed to execute prettier formatting.").
Proof.
  unfold task_a2. unfold hbind at 1, of_M, os_path_isfile.
  destruct (files w !! target_file) as [[|content]|] eqn:Hfile; cbn [negb];
    try (intros [= <- <-]; left; repeat split; congruence).
  unfold hbind at 1, try_catch at 1, try_catch at 1, run_prettier at 1, hbind at 1.
  destruct (subprocess_run _ w) as [[[rc err]|t1] w1].
  - cbn [returncode stderr]. destruct (rc =? 0)%Z; cbn [negb].
    + intros [= ].
    + intros [= <- <-]. right. right. reflexivity.
  - destruct t1; try (intros [= <- <-]; auto).
    unfold hbind at 1.
    destruct (subprocess_check_call _ w1) as [[[]|t2] w2].
    + unfold run_prettier, hbind at 1.
      destruct (subprocess_run _ w2) as [[[rc err]|t3] w3].
      * cbn [returncode stderr]. destruct (rc =? 0)%Z; cbn [negb].
        -- intros [= ].
        -- intros [= <- <-]. right. right. reflexivity.
      * destruct t3; intros [= <- <-]; auto.
    + destruct t2; intros [= <- <-]; auto.
Qed.

Lemma task_a2_raises_witness :
  task_a2 "/usr/bin/python3" Procs.pip_ok Procs.script_fails "/data/format.md"
    (Procs.with_file "/data/format.md" "# Title")
  = (Throw (HTTPException 500 (str_text "Failed to execute prettier formatting.")),
     Procs.with_file "/data/format.md" "# Title").
Proof.
  assert (Hrun : task_a2 "/usr/bin/python3" Procs.pip_ok Procs.script_fails "/data/format.md"
                   (Procs.with_file "/data/format.md" "# Title")
                 = (Throw (HTTPException 500 (str_text "Failed to execute prettier formatting.")),
                    Procs.with_file "/data/format.md" "# Title")) by reflexivity.
  destruct (task_a2_raises _ _ _ _ _ _ _ Hrun) as [(He & _) | [He | _]];
    [discriminate He | discriminate He | exact Hrun].
Defined.

(** X19. When [npx] cannot be found ([subprocess.run] raises
    [FileNotFoundError]), [task_a2] runs [pip install prettier] and then tries
    prettier once more, with the same command; if that second run exits with
    code 0, the task returns its message. *)
Theorem task_a2_retries_once {F : Type}
  (sys_executable : string) (subprocess_check_call : list string -> @Handler F unit)
  (subprocess_run : list string -> @Handler F completed)
  (target_file : string) (w w1 w2 w3 : World F) (content : option text) (err : string) :
  files w !! target_file = Some (File content) ->
  subprocess_run ["npx"; "prettier@3.4.2"; "--write"; target_file]%string w
  = (Throw FileNotFound, w1) ->
  subprocess_check_call [sys_executable; "-m"; "pip"; "install"; "prettier"]%string w1
  = (Return tt, w2) ->
  subprocess_run ["npx"; "prettier@3.4.2"; "--write"; target_file]%string w2
  = (Return (Completed 0 err), w3) ->
  task_a2 sys_executable subprocess_check_call subprocess_run target_file w
  = (Return ("Formatted " ++ target_file ++ " successfully.")%string, w3).
Proof.
  intros Hfile Hfirst Hpip Hsecond.
  unfold task_a2. unfold hbind at 1, of_M, os_path_isfile. rewrite Hfile. cbn [negb].
  unfold hbind at 1, try_catch at 1, try_catch at 1, run_prettier at 1, hbind at 1.
  rewrite Hfirst. unfold hbind at 1. rewrite Hpip.
  unfold run_prettier, hbind at 1. rewrite Hsecond. reflexivity.
Qed.

Lemma task_a2_retries_once_witness :
  let w := Procs.with_file "/data/format.md" "# Title" in
  (task_a2 "/usr/bin/python3" Procs.pip_installs Procs.npx_after_install "/data/format.md" w).1
  = Return "Formatted /data/format.md successfully."%string.
Proof.
  intros w.
  rewrite (task_a2_retries_once "/usr/bin/python3" Procs.pip_installs Procs.npx_after_install
             "/data/format.md" w w
             (Procs.pip_installs [] w).2 (Procs.pip_installs [] w).2
             (Some (Sample.text_of "# Title")) "");
    reflexivity.
Defined.

(** ** Task A3 *)

Section DateFacts.

Context {F DT : Type}.
Variable str_lower : text -> text.
Variable dateutil_parse : text -> DT + text.
Variable strftime_ymd : DT -> text.
Variable strptime_ymd : text -> DT + text.
Variable weekday : DT -> nat.

Abbreviation count_line' := (@count_line F DT dateutil_parse strftime_ymd strptime_ymd weekday).
Abbreviation falls_on' := (falls_on dateutil_parse strftime_ymd strptime_ymd weekday).
Abbreviation unreadable' := (unreadable_date dateutil_parse strftime_ymd strptime_ymd).

Lemma count_line_run (day_index : nat) (line : text) (n : nat) (w : World F) :
  (unreadable' line = false
   /\ count_line' day_index line n w
      = (Return (if falls_on' day_index line then Datatypes.S n else n), w))
  \/ (unreadable' line = true
      /\ exists t, count_line' day_index line n w = (Throw t, w)).
Proof.
  unfold count_line, falls_on, unreadable_date, convert_date_format.
  destruct (truthy (strip line)); cbn [negb andb]; [|left; split; reflexivity].
  destruct (dateutil_parse (strip line)) as [dt|e].
  - unfold hbind, hret.
    destruct (strptime_ymd (strftime_ymd dt)) as [date|e].
    + left. split; [reflexivity|]. destruct (Nat.eqb (weekday date) day_index); reflexivity.
    + right. split; [reflexivity|]. eexists. reflexivity.
  - right. split; [reflexivity|]. eexists. reflexivity.
Qed.

(** The count loop: it changes nothing, counts the lines that fall on the
    day, and stops at the first line whose date cannot be read. *)
Lemma count_loop_spec (day_index : nat) (lines : list text) (n : nat) (w : World F) :
  match for_eachH lines (count_line' day_index) n w with
  | (Return m, w') =>
      w' = w /\ m = (n + length (List.filter (fun l => falls_on' day_index l) lines))%nat
      /\ Forall (fun l => unreadable' l = false) lines
  | (Throw t, w') =>
      w' = w /\ exists line, In line lines /\ unreadable' line = true
  end.
Proof.
  revert n. induction lines as [|line lines IH]; intros n.
  - simpl. split; [reflexivity|]. split; [lia | constructor].
  - cbn [for_eachH]. unfold hbind at 1.
    destruct (count_line_run day_index line n w) as [[Hok ->] | [Hbad [t ->]]].
    + specialize (IH (if falls_on' day_index line then Datatypes.S n else n)).
      destruct (for_eachH lines _ _ w) as [[m|t] w'].
      * destruct IH as (-> & -> & Hall). split; [reflexivity|].
        split; [|constructor; assumption].
        cbn [List.filter]. destruct (falls_on' day_index line); cbn [length]; lia.
      * destruct IH as (-> & l & Hin & Hl). split; [reflexivity|].
        exists l. split; [right; exact Hin | exact Hl].
    + split; [reflexivity|]. exists line. split; [left; reflexivity | exact Hbad].
Qed.

End DateFacts.

(** X20. [task_a3] raises nothing but [HTTPException], and always with the
    world as it was: a 404 when the source is no regular file; a 400 when the
    day, in lower case, is none of the seven names; a 500 "Error processing
    dates file." when the file cannot be read or some line that is not blank
    has a date that [dateutil] or [strptime] rejects; a 500 for a target that
    cannot be written. The 400 that [convert_date_format] raises for such a
    date is replaced by the 500 and never reaches the caller. *)
Theorem task_a3_raises {F DT : Type}
  (str_lower : text -> text) (dateutil_parse : text -> DT + text)
  (strftime_ymd : DT -> text) (strptime_ymd : text -> DT + text) (weekday : DT -> nat)
  (source_file target_file : string) (day : text) (w w' : World F) (t : thrown) :
  task_a3 str_lower dateutil_parse strftime_ymd strptime_ymd weekday
    source_file target_file day w = (Throw t, w') ->
  w' = w
  /\ ((t = HTTPException 404 (str_text (source_file ++ " not found."))
       /\ forall content, files w !! source_file <> Some (File content))
      \/ (t = HTTPException 400
                (str_text "Invalid day of the week: " ++ day ++ str_text ".")
          /\ list_index (str_lower day) weekdays = None)
      \/ (t = HTTPException 500 (str_text "Error processing dates file.")
          /\ (files w !! source_file = Some (File None)
              \/ exists content line,
                   files w !! source_file = Some (File (Some content))
                   /\ In line (file_lines content)
                   /\ unreadable_date dateutil_parse strftime_ymd strptime_ymd line = true))
      \/ (t = HTTPException 500 (str_text "Error writing day count to file.")
          /\ files w !! target_file = Some Directory)).
Proof.
  unfold task_a3. unfold hbind at 1, of_M at 1, os_path_isfile.
  destruct (files w !! source_file) as [[|content]|] eqn:Hfile; cbn [negb];
    try (intros [= <- <-]; split; [reflexivity|]; left; split; [reflexivity | congruence]).
  destruct (list_index (str_lower day) weekdays) as [day_index|] eqn:Hday.
  2: { intros [= <- <-]. split; [reflexivity|]. right. left. split; reflexivity. }
  unfold hbind at 1, try_catch at 1, hbind at 1, of_M at 1, read_text. rewrite Hfile.
  destruct content as [content|].
  2: { unfold throw. intros [= <- <-]. split; [reflexivity|]. right. right. left.
       split; [reflexivity|]. left. reflexivity. }
  pose proof (count_loop_spec dateutil_parse strftime_ymd strptime_ymd weekday
                day_index (file_lines content) 0 w) as Hloop.
  destruct (for_eachH (file_lines content) _ 0%nat w) as [[m|t0] w1].
  - destruct Hloop as (-> & _). unfold hbind at 1, try_catch, of_M, write_text.
    destruct (files w !! target_file) as [[|c]|] eqn:Hout; try discriminate.
    unfold throw. intros [= <- <-]. split; [reflexivity|]. do 3 right. split; reflexivity.
  - destruct Hloop as (-> & line & Hin & Hbad).
    unfold throw. intros [= <- <-]. split; [reflexivity|]. right. right. left.
    split; [reflexivity|]. right. exists content, line. repeat split; assumption.
Qed.

Lemma task_a3_raises_witness :
  let w := Procs.with_file "/data/dates.txt" "3
x" in
  (task_a3 Dates.lower Dates.parse Dates.format Dates.parse Dates.weekday
     "/data/dates.txt" "/data/count.txt" (Sample.text_of "thursday") w).1
  = Throw (HTTPException 500 (str_text "Error processing dates file."))
  /\ (task_a3 Dates.lower Dates.parse Dates.format Dates.parse Dates.weekday
        "/data/dates.txt" "/data/count.txt" (Sample.text_of "thursday") w).2 = w.
Proof.
  intros w.
  assert (Hrun : task_a3 Dates.lower Dates.parse Dates.format Dates.parse Dates.weekday
                   "/data/dates.txt" "/data/count.txt" (Sample.text_of "thursday") w
                 = (Throw (HTTPException 500 (str_text "Error processing dates file.")),
                    (task_a3 Dates.lower Dates.parse Dates.format Dates.parse Dates.weekday
                       "/data/dates.txt" "/data/count.txt" (Sample.text_of "thursday") w).2))
    by reflexivity.
  split; [reflexivity|].
  exact (proj1 (task_a3_raises _ _ _ _ _ _ _ _ _ _ _ Hrun)).
Defined.

(** X21. When [task_a3] returns, the day was one of the seven names (in any
    case [str.lower] maps to them), and the only file changed is the target,
    which holds in decimal the number of lines of the source that are not
    blank and whose date, parsed by [dateutil], written as ISO text and read
    back, falls on that day; blank lines are passed over. *)
Theorem task_a3_counts {F DT : Type}
  (str_lower : text -> text) (dateutil_parse : text -> DT + text)
  (strftime_ymd : DT -> text) (strptime_ymd : text -> DT + text) (weekday : DT -> nat)
  (source_file target_file : string) (day : text) (w w' : World F) (message : text) :
  task_a3 str_lower dateutil_parse strftime_ymd strptime_ymd weekday
    source_file target_file day w = (Return message, w') ->
  exists day_index content,
    list_index (str_lower day) weekdays = Some day_index
    /\ (day_index < 7)%nat
    /\ files w !! source_file = Some (File (Some content))
    /\ let day_count :=
         length (List.filter (falls_on dateutil_parse strftime_ymd strptime_ymd weekday day_index)
                   (file_lines content)) in
       w' = written target_file (str_text (pretty day_count)) w
       /\ message = str_text ("Counted " ++ pretty day_count ++ " ") ++ day
                    ++ str_text ("s and wrote to " ++ target_file ++ ".").
Proof.
  unfold task_a3. unfold hbind at 1, of_M at 1, os_path_isfile.
  destruct (files w !! source_file) as [[|content]|] eqn:Hfile; cbn [negb]; try discriminate.
  destruct (list_index (str_lower day) weekdays) as [day_index|] eqn:Hday; [|discriminate].
  unfold hbind at 1, try_catch at 1, hbind at 1, of_M at 1, read_text. rewrite Hfile.
  destruct content as [content|]; [|discriminate].
  pose proof (count_loop_spec dateutil_parse strftime_ymd strptime_ymd weekday
                day_index (file_lines content) 0 w) as Hloop.
  destruct (for_eachH (file_lines content) _ 0%nat w) as [[m|t0] w1]; [|discriminate].
  destruct Hloop as (-> & -> & _). cbn [Nat.add].
  unfold hbind at 1, try_catch, of_M, write_text.
  intros Hrun. exists day_index, content. split; [reflexivity|].
  split.
  { clear -Hday. revert Hday. generalize (str_lower day) as d. intros d.
    unfold weekdays. cbn [map list_index].
    repeat (destruct (bool_decide _); [intros [= <-]; lia|]). discriminate. }
  split; [reflexivity|].
  destruct (files w !! target_file) as [[|c]|] eqn:Hout; try discriminate;
    injection Hrun as <- <-; split; reflexivity.
Qed.

Lemma task_a3_counts_witness :
  let w := Procs.with_file "/data/dates.txt" "3
1

  3  
5" in
  (task_a3 Dates.lower Dates.parse Dates.format Dates.parse Dates.weekday
     "/data/dates.txt" "/data/count.txt" (Sample.text_of "thursday") w).2
  = written "/data/count.txt" (Sample.text_of "2") w.
Proof.
  intros w.
  destruct (task_a3_counts (F := float) Dates.lower Dates.parse Dates.format Dates.parse
              Dates.weekday "/data/dates.txt" "/data/count.txt" (Sample.text_of "thursday") w
              (written "/data/count.txt" (Sample.text_of "2") w)
              (Sample.text_of "Counted 2 thursdays and wrote to /data/count.txt.")
              eq_refl)
    as (day_index & content & Hday & _ & Hfile & Hw & _).
  reflexivity.
Defined.

(** ** Task A4 *)

(** X22. [task_a4] raises nothing but [HTTPException], always with the world
    as it was, and never with status 400: a 404 when the source is no regular
    file, a 500 "Error processing contacts file." or a 500 for a target that
    cannot be written. When the JSON of the source is not a list, the 400
    "Expected a list of contacts in the JSON file." is raised inside the
    [try] whose [except Exception] replaces it by the 500. *)
Theorem task_a4_raises {F : Type}
  (json_load : text -> json F + text)
  (sorted_by : list string -> list (json F) -> list (json F) + text)
  (json_dump : json F -> text)
  (source_file target_file : string) (sort_fields : list string)
  (w w' : World F) (t : thrown) :
  task_a4 json_load sorted_by json_dump source_file target_file sort_fields w = (Throw t, w') ->
  w' = w
  /\ ((t = HTTPException 404 (str_text (source_file ++ " not found."))
       /\ forall content, files w !! source_file <> Some (File content))
      \/ (t = HTTPException 500 (str_text "Error processing contacts file.")
          /\ exists content, files w !! source_file = Some (File content))
      \/ (t = HTTPException 500 (str_text "Error writing sorted contacts to file.")
          /\ files w !! target_file = Some Directory)).
Proof.
  unfold task_a4. unfold hbind at 1, of_M at 1, os_path_isfile.
  destruct (files w !! source_file) as [[|content]|] eqn:Hfile; cbn [negb];
    try (intros [= <- <-]; split; [reflexivity|]; left; split; [reflexivity | congruence]).
  unfold hbind at 1, try_catch at 1, sort_contacts, hbind at 1, of_M at 1, read_text.
  rewrite Hfile.
  assert (Hproc :
            (Throw (HTTPException 500 (str_text "Error processing contacts file.")), w)
            = (@Throw (list string * string) t, w') ->
            w' = w /\ ((t = HTTPException 404 (str_text (source_file ++ " not found."))
                        /\ forall c, Some (File content) <> Some (File c))
                       \/ (t = HTTPException 500 (str_text "Error processing contacts file.")
                           /\ exists c, Some (File content) = Some (File c))
                       \/ (t = HTTPException 500 (str_text "Error writing sorted contacts to file.")
                           /\ files w !! target_file = Some Directory))).
  { intros [= <- <-]. split; [reflexivity|]. right. left.
    split; [reflexivity | eexists; reflexivity]. }
  destruct content as [content|]; [|exact Hproc].
  destruct (json_load content) as [contacts|e]; [|exact Hproc].
  destruct contacts as [ | b | x | s | l | fields]; try exact Hproc.
  destruct (sorted_by sort_fields l) as [sorted|e]; [|exact Hproc].
  clear Hproc.
  unfold hret, hbind at 1, try_catch, of_M, write_text.
  destruct (files w !! target_file) as [[|c]|] eqn:Hout; try discriminate.
  unfold throw. intros [= <- <-]. split; [reflexivity|]. right. right. split; reflexivity.
Qed.

Lemma task_a4_raises_witness :
  (task_a4 Dates.load Dates.sorted Dates.dump "/data/contacts.json" "/data/sorted.json"
     ["last_name"; "first_name"]%string Procs.empty).1
  = Throw (HTTPException 404 (str_text "/data/contacts.json not found."))
  /\ (task_a4 Dates.load Dates.sorted Dates.dump "/data/contacts.json" "/data/sorted.json"
        ["last_name"; "first_name"]%string Procs.empty).2 = Procs.empty.
Proof.
  assert (Hrun : task_a4 Dates.load Dates.sorted Dates.dump "/data/contacts.json"
                   "/data/sorted.json" ["last_name"; "first_name"]%string Procs.empty
                 = (Throw (HTTPException 404 (str_text "/data/contacts.json not found.")),
                    (task_a4 Dates.load Dates.sorted Dates.dump "/data/contacts.json"
                       "/data/sorted.json" ["last_name"; "first_name"]%string Procs.empty).2))
    by reflexivity.
  split; [reflexivity|].
  exact (proj1 (task_a4_raises _ _ _ _ _ _ _ _ _ Hrun)).
Defined.

(** X23. When the source of [task_a4] holds JSON that is not a list, the task
    raises the 500 "Error processing contacts file.", not the 400 that the
    code raises for this case, and writes nothing. *)
Theorem task_a4_not_a_list {F : Type}
  (json_load : text -> json F + text)
  (sorted_by : list string -> list (json F) -> list (json F) + text)
  (json_dump : json F -> text)
  (source_file target_file : string) (sort_fields : list string)
  (w : World F) (content : text) (contacts : json F) :
  files w !! source_file = Some (File (Some content)) ->
  json_load content = inl contacts ->
  isinstance_list contacts = false ->
  task_a4 json_load sorted_by json_dump source_file target_file sort_fields w
  = (Throw (HTTPException 500 (str_text "Error processing contacts file.")), w).
Proof.
  intros Hfile Hload Hlist.
  unfold task_a4. unfold hbind at 1, of_M at 1, os_path_isfile. rewrite Hfile. cbn [negb].
  unfold hbind at 1, try_catch at 1, sort_contacts, hbind at 1, of_M at 1, read_text.
  rewrite Hfile, Hload.
  destruct contacts; try reflexivity. discriminate Hlist.
Qed.

Lemma task_a4_not_a_list_witness :
  let w := Procs.with_file "/data/contacts.json" "{}" in
  task_a4 Dates.load Dates.sorted Dates.dump "/data/contacts.json" "/data/sorted.json"
    ["last_name"; "first_name"]%string w
  = (Throw (HTTPException 500 (str_text "Error processing contacts file.")), w).
Proof.
  intros w.
  apply (task_a4_not_a_list Dates.load Dates.sorted Dates.dump "/data/contacts.json"
           "/data/sorted.json" ["last_name"; "first_name"]%string w
           (Sample.text_of "{}") (JObj [])); reflexivity.
Defined.

(** ** Task A5 *)

Section LogsFacts.

Context {F : Type}.

(** Reading the first line of a file never fails and changes nothing: a file
    that cannot be read gives a note in place of its line. *)
Lemma read_first_line_run (log_file : string) (lines : list text) (w : World F) :
  read_first_line log_file lines w = (Return (lines ++ [log_line w log_file]), w).
Proof.
  unfold read_first_line, try_catch, hbind, of_M, read_text, log_line, hret.
  destruct (files w !! log_file) as [[|[content|]]|]; reflexivity.
Qed.

Lemma read_loop_run (selected : list string) (lines : list text) (w : World F) :
  for_eachH selected read_first_line lines w
  = (Return (lines ++ map (log_line w) selected), w).
Proof.
  revert lines. induction selected as [|p selected IH]; intros lines.
  - simpl. rewrite app_nil_r. reflexivity.
  - cbn [for_eachH]. unfold hbind at 1. rewrite read_first_line_run, IH.
    cbn [map]. rewrite <- app_assoc. reflexivity.
Qed.

End LogsFacts.

(** X24. When the directory of [task_a5] lists no file with the extension,
    the task raises the 404 "No files with extension ... found in the
    directory.": raised inside the [try], it is passed on as it is by the
    [except HTTPException] that comes before [except Exception]. Nothing is
    written. *)
Theorem task_a5_no_files {F : Type}
  (os_listdir : string -> @Handler F (list string)) (sort_by_mtime : list string -> @Handler F (list string))
  (source_dir target_file file_extension : string) (w w1 : World F) (names : list string) :
  files w !! source_dir = Some Directory ->
  os_listdir source_dir w = (Return names, w1) ->
  Forall (fun name => endswith file_extension name = false) names ->
  task_a5 os_listdir sort_by_mtime source_dir target_file file_extension w
  = (Throw (HTTPException 404
              (str_text ("No files with extension '" ++ file_extension
                         ++ "' found in the directory."))), w1).
Proof.
  intros Hdir Hlist Hnone.
  assert (Hfilter : List.filter (endswith file_extension) names = []).
  { clear Hlist. induction Hnone as [|name names Hname _ IH]; [reflexivity|].
    cbn [List.filter]. rewrite Hname. exact IH. }
  unfold task_a5. unfold hbind at 1, of_M at 1, os_path_isdir. rewrite Hdir. cbn [negb].
  unfold hbind at 1, recent_lines, try_catch at 1, hbind at 1. rewrite Hlist.
  rewrite Hfilter. reflexivity.
Qed.

Lemma task_a5_no_files_witness :
  task_a5 Logs.no_logs Logs.newest_first "/data/logs" "/data/recent.txt" ".log" Logs.world
  = (Throw (HTTPException 404
              (str_text "No files with extension '.log' found in the directory.")),
     Logs.world).
Proof.
  apply (task_a5_no_files Logs.no_logs Logs.newest_first "/data/logs" "/data/recent.txt" ".log"
           Logs.world Logs.world ["notes.txt"%string]);
    [reflexivity | reflexivity | repeat constructor].
Defined.



(** ** Task A7 *)





(** ** Task A8 *)

(** Removing the spaces of a stripped text leaves its ends in place. *)
Lemma remove_spaces_no_space (s : text) : ~ In 32%N (remove_spaces s).
Proof.
  unfold remove_spaces. intros Hin. apply List.filter_In in Hin as [_ Hc]. discriminate Hc.
Qed.

Lemma remove_spaces_head (s : text) (c : N) :
  (forall a, head s = Some a -> is_space a = false) ->
  head (remove_spaces s) = Some c -> is_space c = false.
Proof.
  destruct s as [|a t]; [discriminate|]. intros Ha.
  specialize (Ha a eq_refl). unfold remove_spaces. cbn [List.filter].
  destruct (a =? 32)%N eqn:Ea.
  - apply N.eqb_eq in Ea. subst a. discriminate Ha.
  - cbn [negb head]. intros [= <-]. exact Ha.
Qed.

Lemma remove_spaces_last (s : text) (c : N) :
  (forall a, last s = Some a -> is_space a = false) ->
  last (remove_spaces s) = Some c -> is_space c = false.
Proof.
  destruct (last s) as [z|] eqn:Hlast.
  - apply last_Some in Hlast as [s' ->]. intros Hz. specialize (Hz z eq_refl).
    unfold remove_spaces. rewrite List.filter_app. cbn [List.filter].
    destruct (z =? 32)%N eqn:Ez.
    + apply N.eqb_eq in Ez. subst z. discriminate Hz.
    + cbn [negb]. rewrite last_snoc. intros [= <-]. exact Hz.
  - apply last_None in Hlast. subst s. discriminate.
Qed.



(** X29. When [task_a8] returns, the image was read (as bytes: it need not
    be text), and the call, made with the base64 text of those bytes, gave a
    card number, which is the [text] of the first choice, stripped, without
    its spaces: it holds no space and neither begins nor ends with white
    space. The only file changed is the output file, which holds the number,
    and the message ends with it. *)
Theorem task_a8_card_number {F : Type}
  (read_bytes : string -> World F -> result (list N)) (b64encode : list N -> text)
  (llm_image_post : string -> text -> text -> World F -> http_outcome F)
  (w w' : World F) (message : text) :
  task_a8 read_bytes b64encode llm_image_post w = (Ok message, w') ->
  exists img_data stripped,
    read_bytes "/data/credit-card.png" w = Ok img_data
    /\ sender_of_response
         (llm_image_post (bearer (environ w !! "AIPROXY_TOKEN"%string))
            (str_text "Extract the credit card number from the provided image. Return the number without any spaces.")
            (b64encode img_data) w) = Some stripped
    /\ let card_number := remove_spaces stripped in
       message = str_text "Extracted credit card number: " ++ card_number
       /\ w' = written "/data/credit-card.txt" card_number w
       /\ ~ In 32%N card_number
       /\ (forall c, head card_number = Some c -> is_space c = false)
       /\ (forall c, last card_number = Some c -> is_space c = false).
Proof.
  unfold task_a8. unfold bindM at 1, os_path_isfile.
  destruct (files w !! "/data/credit-card.png"%string) as [[|content]|] eqn:Hfile; cbn [negb];
    try discriminate.
  unfold bindM at 1, try_except at 1, bindM at 1.
  destruct (read_bytes "/data/credit-card.png" w) as [img_data|cause] eqn:Hread; [|discriminate].
  unfold ret at 1. unfold bindM at 1, bindM at 1, os_getenv, card_number_of_response.
  destruct (sender_of_response _) as [stripped|] eqn:Hsender; [|discriminate].
  intros Hrun. exists img_data, stripped. split; [reflexivity|]. split; [exact Hsender|].
  assert (Hends : (forall a, head stripped = Some a -> is_space a = false)
                  /\ (forall a, last stripped = Some a -> is_space a = false)).
  { unfold sender_of_response in Hsender.
    destruct (llm_image_post _ _ _ _) as [?|?|status ? [?|data]|?]; try discriminate.
    destruct (is_success status); [|discriminate].
    unfold completion_text in Hsender.
    destruct (choices <-! py_getitem data "choices"; first <-! py_first choices;
              py_getitem first "text") as [[| | |s| |]|]; try discriminate.
    injection Hsender as <-. split; [apply strip_head | apply strip_last]. }
  destruct Hends as [Hhead Hlast].
  cbv zeta. unfold bindM, try_except, write_text, ret, written in Hrun.
  assert (Hres : message = str_text "Extracted credit card number: " ++ remove_spaces stripped
                 /\ w' = {| files := <["/data/credit-card.txt"%string :=
                                         File (Some (remove_spaces stripped))]> (files w);
                            environ := environ w; sent := sent w |}).
  { destruct (files w !! "/data/credit-card.txt"%string) as [[|c]|]; try discriminate;
      injection Hrun as <- <-; split; reflexivity. }
  destruct Hres as [-> ->]. split; [reflexivity|]. split; [reflexivity|].
  split; [apply remove_spaces_no_space|].
  split; intros c Hc;
    [exact (remove_spaces_head stripped c Hhead Hc) | exact (remove_spaces_last stripped c Hlast Hc)].
Qed.

Lemma task_a8_card_number_witness :
  (task_a8 Card.bytes Card.encode Card.endpoint Card.world).1
  = Ok (Sample.text_of "Extracted credit card number: 4111111111111111")
  /\ ~ In 32%N (Sample.text_of "4111111111111111").
Proof.
  assert (Hrun : task_a8 Card.bytes Card.encode Card.endpoint Card.world
                 = (Ok (Sample.text_of "Extracted credit card number: 4111111111111111"),
                    (task_a8 Card.bytes Card.encode Card.endpoint Card.world).2))
    by reflexivity.
  split; [reflexivity|].
  destruct (task_a8_card_number _ _ _ _ _ _ Hrun)
    as (img_data & stripped & _ & Hsender & _ & _ & Hspace & _).
  injection Hsender as <-. exact Hspace.
Defined.
